(* ===== verification/_CoqProject ===== *)
-Q . S2P
Prelude.v
PyStr.v
Regex.v
Strptime.v
Models.v
QuerySet.v
Fields.v
Forms.v
Views.v
Admin.v
AdminViews.v
AdminActions.v
System.v
Tests.v
