(* ===== verification/Prelude.v ===== *)
(** * Taskmaster: a verification development of hamza-m1/taskmaster

    ** The program

    Taskmaster is a Django application with one page and the admin site.
    Its parts and how they interact:

    - the data model ([Category], [Task]; [tasks/models.py], which is not
      part of the sources and is modelled from the specification): a task
      has a title of at most 100 characters, a due date, a [completed]
      flag defaulting to [False] and a foreign key to a category;
    - the form [TaskForm] ([src/tasks/forms.py]), a [ModelForm] over
      [Task] restricted to the fields [title], [due_date], [category]:
      it cleans the raw POST values field by field, collects one error per
      invalid field, and [save()] inserts the cleaned task;
    - the view [index] ([src/tasks/views.py]): it builds the two lazy
      querysets [Task.objects.filter(completed=...).order_by('due_date')],
      on POST binds a [TaskForm] to [request.POST], saves and redirects
      when the form is valid, and otherwise renders [tasks/index.html]
      with the two querysets and the (bound or unbound) form;
    - the admin registrations ([src/tasks/admin.py]): the columns of the
      change lists, the add, change and delete views each [ModelAdmin]
      inherits, and the change list's bulk action [delete_selected]; they
      write the same tables as the page (they are the only way to create
      a category, complete a task or delete a row);
    - the tests ([src/tasks/test_*.py]): fixtures and assertions, each
      assertion restated as a theorem about the model.

    ** Files, in dependency order

    - [Prelude] (this file): the notation scope [tm_scope], the result
      type of fallible code, Python's [dict.get] on the POST data, the
      tactics, the hint database [taskmaster] and the generic list lemmas
      the other files use.
    - [PyStr]: the Python string operations the form fields rely on:
      [str.isspace] on ASCII, [str.strip], ASCII digits, [int()] and
      [str()] on primary keys.
    - [Regex]: Python's [re.match] as a list-of-successes matcher whose
      list is in backtracking order (its head is the match [re] returns):
      literals (also under [IGNORECASE]), digit classes, alternation and
      greedy [\s+].
    - [Strptime]: calendar dates ([datetime.date] with its validity check
      and order) and [time.strptime] as [_strptime] runs it: the format
      compiled to a pattern (directives [%Y %y %m %d %b %B], whitespace as
      [\s+]), the first match, the loop over its groups; the eleven input
      formats of Django's [DateField] for the [en] locale.
    - [Models]: the datastore: the two tables with their auto-increment
      counters; [objects.create], [get], the UPDATE of [save()],
      [delete()] (the [on_delete] of [Task.category], unknown, is
      [CASCADE] or [PROTECT]) and [QuerySet.delete()] through Django's
      deletion [Collector]; the store invariant (ascending keys below
      the counter, no dangling foreign key) and its preservation.
    - [QuerySet]: [filter(completed=b).order_by('due_date')] as a filter
      followed by a stable sort on the due date (the order of equal dates,
      which the code leaves to the database, is the model's choice and no
      theorem depends on it); sortedness and the to-do/done partition.
    - [Fields]: the cleaning of the form fields (Django's [CharField],
      [DateField], [BooleanField], [ModelChoiceField] as the model fields
      generate them).
    - [Forms]: [TaskForm]: [full_clean] collecting the errors of all
      fields, [is_valid], [save]; the [ModelForm] interface (a class whose
      laws the view's theorems use) and its instance for [TaskForm], whose
      laws are proved from the field lemmas.
    - [Views]: the [index] view as a function from a store and a request
      to a new store and a response; the lazy querysets of the context
      evaluated at render time; the request step relation, reachable
      stores and the invariant proved by rule induction; the service
      contract of the specification and its refinement.
    - [Admin]: the [list_display] columns of both admin classes and the
      rows of their change lists.
    - [AdminViews]: [ModelAdmin]'s add/change view ([_changeform_view])
      and delete view written once over a record of model operations
      ([ModelAdminOps]), instantiated for [TaskAdmin] and
      [CategoryAdmin]; a record of laws ([AdminPreserves]) states what an
      instance must keep, and the views keep it for any instance.
    - [AdminActions]: the change list's POST ([changelist_view], both of
      its action branches), [response_action] (the index of the pushed
      button with Python's negative indices, the [ActionForm], the
      [pk__in] selection) and [delete_selected] with [delete_queryset]
      (a fold of the row deletions), over the same [ModelAdminOps].
    - [System]: the page and the admin on one store: the step relation of
      all the requests (page, add/change, delete and change-list views of
      both models), the dispatch [serve] of a request to one of them, the
      invariant, the liveness of the done list and the safety of GET.
    - [Tests]: the fixtures of the three test classes and the assertions
      of the form tests and of the GET tests as examples on the model.

    ** What the theorems show (see each file)

    - The view ([Views]): a valid POST inserts exactly the task built
      from the cleaned values, with [completed] false, and redirects
      ([index_post_creates]); an invalid POST leaves the store unchanged
      and renders the bound form ([index_post_rejects]); every other
      method is served like a GET; the [completed]
      key of a POST never reaches the store ([index_ignores_completed]);
      the 100-character limit applies to the stripped title
      ([index_title_rule]); a POST naming a missing category is rejected
      with a category error ([index_unknown_category]).
      [index_view_refines] proves, against the [ModelFormLaws] interface
      only, that the view implements the service contract: lists that
      partition the task table by flag and are sorted, one new row per
      valid write, no change otherwise.
    - Reachable stores of the page alone: every store reachable by its
      requests and category creations holds only tasks whose title is stripped,
      non-empty and at most 100 characters long and whose date is valid
      ([reachable_tasks_cleaned]), and has an empty done list
      ([reachable_done_empty]): the page cannot mark a task done.
    - The whole system ([System]): with the admin's views too, every
      reachable store keeps the invariant and valid task rows under either
      [on_delete] policy ([sys_reachable_inv]), and any task can be
      completed by one admin request, after which the page lists it as
      done ([sys_complete_task]); the task table can always be emptied
      by one bulk delete in the admin ([sys_clear_tasks]); and no request
      of another method than POST changes the database, whichever view it
      reaches ([sys_get_safe]).
    - The admin ([Admin], [AdminViews]): a valid change replaces the row in place with
      the cleaned values, [completed] included ([TaskAdmin_change_updates]);
      a valid add inserts it ([TaskAdmin_add_creates]); a protected
      category is never deleted ([CategoryAdmin_delete_protected]); a
      cascading delete removes exactly its tasks
      ([CategoryAdmin_delete_cascade]); the change list shows ids in descending
      order and the category row of each task.
    - The bulk action ([AdminActions]): a confirmed bulk delete of
      categories removes exactly the selected ones and, under [CASCADE],
      their tasks ([CategoryAdmin_bulk_delete_cascade]); under [PROTECT]
      it deletes nothing as soon as one of them has a task
      ([CategoryAdmin_bulk_delete_protected]); the action bar only ever
      shows the confirmation page ([changelist_action_bar_confirms]); a
      selected value [int()] rejects is a server error
      ([changelist_bad_selection]); the blank choice runs nothing
      ([changelist_no_action]); "Select all" applies the action to every
      row whichever boxes are checked ([changelist_select_across]); and any
      request to the category change list refines the contract "no change,
      or one [Collector] deletion of rows it shows"
      ([CategoryAdmin_changelist_refines]); the change list keeps every
      property a row deletion keeps.
    - The querysets ([QuerySet]): to-do and done lists together are a
      permutation of the task table; each list is sorted by due date.
    - The form ([Forms], [Fields]): the errors of a bound [TaskForm] are
      exactly one per invalid field in [Meta.fields] order; [save]
      inserts the cleaned task; [CharField] accepts exactly the stripped,
      non-empty values of at most [max_length] characters, with the
      [required] or [max_length] error otherwise; [DateField] reads back
      every valid date written as [date.isoformat()]
      ([clean_date_isoformat]) and as [MM/DD/YYYY], month first
      ([clean_date_us_format]); [ModelChoiceField] returns a row of the
      category table.
    - Strings and dates ([PyStr], [Strptime]): [int(str(n)) = n];
      [strptime(isoformat(d), '%Y-%m-%d') = d] for every valid date; every
      parsed date is valid; a two-digit year lies in 1969-2068.
    - The tests ([Tests]): the assertions of [test_forms.py], of the GET
      tests of [test_views.py] and of [test_task_creation] evaluated on
      the model, as examples.

    Every recursion is structural (on strings, lists and formats); the
    digit counter of [rev_digits] ([str()]) is given [S n], more than the
    number of digits of [n], and [int_of_string_str_nat] shows the
    printed number is whole.  Years range
    over [MINYEAR .. MAXYEAR] = [1 .. 9999] as in [datetime]; the
    naturals of primary keys are unbounded, as Python's integers are.
    The parameters of [System] and [CategoryAdmin] (the [max_length] of a
    category name, the [on_delete] policy) are universally quantified.

    ** Not modelled

    - [models.py], [urls.py], the settings and the template
      [tasks/index.html] are not among the sources: the data model is
      modelled from the specification, routing is the name
      ["tasks:index"] and the choice of a view ([System.serve]), and a
      rendered page is the template name with
      its context, not HTML.
    - Authentication and permissions: the view has no login check and the
      admin is modelled for a superuser; [test_views.py] logs a user in,
      which the model omits.
    - [Task.__str__] and [Category.__str__] (in [models.py]).
    - Of the admin: the [LogEntry] history and the messages its views
      write (a table of [django.contrib.admin] the application never
      reads), search, filters, [list_editable], popups, the query string
      of the change list and the rendered pages.
    - Locales other than [en]; characters beyond ASCII in [str.strip],
      [\s], [\d] and [IGNORECASE]; the [strptime] directives Django's
      formats do not use.
    - Concurrency between requests: requests are steps of a sequential
      relation, as Django's development server handles them.
*)

From Stdlib Require Export String Ascii Sorted Permutation.
From stdpp Require Export base list strings relations.

Declare Scope tm_scope.
Delimit Scope tm_scope with tm.
Open Scope tm_scope.

Create HintDb taskmaster discriminated.
Create Rewrite HintDb taskmaster_rw.

(** ** The result of fallible code *)

(** Python code that raises a [ValidationError] is modelled as a function
    returning [Err]; the error carries the code Django attaches to it. *)
Inductive result (A E : Type) : Type :=
| Ok (a : A)
| Err (e : E).
Arguments Ok {A E} a.
Arguments Err {A E} e.

Definition is_ok {A E} (r : result A E) : bool :=
  match r with Ok _ => true | Err _ => false end.

Definition result_map {A B E} (f : A -> B) (r : result A E) : result B E :=
  match r with Ok a => Ok (f a) | Err e => Err e end.

Notation "'let!' x ':=' c 'in' k" :=
  (match c with Ok x => k | Err e => Err e end)
  (at level 10, x name, c at level 100, k at level 200) : tm_scope.

(** ** Python's [dict.get] on a multi-valued mapping *)

(** A parsed form body is the sequence of submitted [(key, value)] pairs.
    Django's [QueryDict.get(key)] returns the LAST value submitted for the
    key, and [None] when the key is absent. *)
Fixpoint lookup_last {K V} `{EqDecision K} (k : K) (l : list (K * V)) : option V :=
  match l with
  | [] => None
  | (k', v) :: l' =>
      match lookup_last k l' with
      | Some w => Some w
      | None => if decide (k = k') then Some v else None
      end
  end.

Notation "d @? k" := (lookup_last k d) (at level 20, no associativity) : tm_scope.

(** ** Tactics *)

(** Invert a hypothesis and clean up. *)
Ltac invc H := inversion H; subst; clear H.

(** Case on the first boolean or decision test of the goal, remembering
    the outcome. *)
Ltac case_test :=
  match goal with
  | |- context [if decide ?P then _ else _] => destruct (decide P)
  | |- context [if ?b then _ else _] =>
      let E := fresh "E" in destruct b eqn:E
  end.

(** Unfold the given definitions, then split every test and close what
    is discriminable. *)
Ltac tm_crush :=
  repeat (simplify_eq/=; try case_test; try case_match); try done;
  try lia.

(** ** Generic lemmas on the shapes the model uses *)

Section LookupLast.
Context {K V : Type} `{EqDecision K}.
Implicit Types (k : K) (v : V) (l : list (K * V)).

Lemma lookup_last_app k l1 l2 :
  (l1 ++ l2) @? k = match l2 @? k with Some w => Some w | None => l1 @? k end.
Proof.
  induction l1 as [|[k' v'] l1 IH]; simpl.
  - by destruct (l2 @? k).
  - rewrite IH. by destruct (l2 @? k).
Qed.

Lemma lookup_last_snoc_eq k v l : (l ++ [(k, v)]) @? k = Some v.
Proof. rewrite lookup_last_app. simpl. by rewrite decide_True. Qed.

Lemma lookup_last_snoc_ne k k' v l : k <> k' -> (l ++ [(k', v)]) @? k = l @? k.
Proof. intros Hne. rewrite lookup_last_app. simpl. by rewrite decide_False. Qed.

Lemma lookup_last_None k l : l @? k = None <-> Forall (fun p => p.1 <> k) l.
Proof.
  induction l as [|[k' v'] l IH]; simpl.
  - split; auto.
  - rewrite Forall_cons, <- IH. destruct (l @? k); [naive_solver|].
    case_decide; naive_solver.
Qed.

Lemma lookup_last_app_None k l1 l2 : l2 @? k = None -> (l1 ++ l2) @? k = l1 @? k.
Proof. intros H. by rewrite lookup_last_app, H. Qed.

Lemma lookup_last_app_absent k l1 l2 :
  Forall (fun p => p.1 <> k) l1 -> (l1 ++ l2) @? k = l2 @? k.
Proof. intros H%lookup_last_None. rewrite lookup_last_app, H. by destruct (l2 @? k). Qed.

Lemma lookup_last_Some_in k v l : l @? k = Some v -> (k, v) ∈ l.
Proof.
  induction l as [|[k' v'] l IH]; simpl; [done|].
  destruct (l @? k) eqn:E; intros Hs; simplify_eq.
  - constructor. by apply IH.
  - case_decide; simplify_eq. constructor.
Qed.
End LookupLast.

#[export] Hint Resolve lookup_last_snoc_eq lookup_last_Some_in : taskmaster.

(** A filter keeps the properties of all rows, and gives its own. *)
Lemma Forall_filter {A} (P Q : A -> Prop) `{!forall x, Decision (P x)} l :
  Forall Q l -> Forall Q (filter P l).
Proof.
  rewrite !Forall_forall. intros HQ x (_ & Hx)%list_elem_of_filter. by apply HQ.
Qed.

Lemma Forall_filter_self {A} (P : A -> Prop) `{!forall x, Decision (P x)} l :
  Forall P (filter P l).
Proof. apply Forall_forall. by intros x (? & _)%list_elem_of_filter. Qed.

Lemma filter_empty_iff {A} (P : A -> Prop) `{!forall x, Decision (P x)} l :
  filter P l = [] <-> Forall (fun x => ~ P x) l.
Proof.
  induction l as [|x l IH]; [split; by auto|].
  rewrite filter_cons, Forall_cons, <- IH. case_decide; naive_solver.
Qed.

(** Two filters agree on a list when their tests agree on its elements. *)
Lemma filter_ext_in {A} (P Q : A -> Prop) `{!forall x, Decision (P x), !forall x, Decision (Q x)} (l : list A) :
  (forall x, x ∈ l -> P x <-> Q x) -> filter P l = filter Q l.
Proof.
  induction l as [|x l IH]; intros HPQ; [done|].
  assert (HP : P x <-> Q x) by (apply HPQ; set_solver).
  rewrite !filter_cons, IH by set_solver.
  destruct (decide (P x)), (decide (Q x)); done || tauto.
Qed.

(** A filter whose test holds on every element keeps the list. *)
Lemma filter_all_in {A} (P : A -> Prop) `{!forall x, Decision (P x)} (l : list A) :
  (forall x, x ∈ l -> P x) -> filter P l = l.
Proof.
  induction l as [|x l IH]; intros HP; [done|].
  rewrite filter_cons_True by (apply HP; left). f_equal. apply IH. set_solver.
Qed.

(** Filtering out a list of keys one key at a time. *)
Lemma filter_not_in_nil {A} (f : A -> nat) (l : list A) : filter (fun x => f x ∉ []) l = l.
Proof. induction l as [|x l IH]; [done|]. rewrite filter_cons_True; [by f_equal | set_solver]. Qed.

Lemma filter_not_in_cons {A} (f : A -> nat) k ks (l : list A) :
  filter (fun x => f x ∉ ks) (filter (fun x => f x <> k) l) = filter (fun x => f x ∉ k :: ks) l.
Proof. rewrite list_filter_filter. apply list_filter_iff. intros x. set_solver. Qed.

Lemma elem_of_rev {A} (x : A) l : x ∈ rev l <-> x ∈ l.
Proof. rewrite !list_elem_of_In. symmetry. apply in_rev. Qed.

(** An element of [l] is outside the part of [l] in [ks] exactly when it
    is outside [ks]. *)
Lemma not_in_filter_in {A} `{EqDecision A} (x : A) (ks l : list A) :
  x ∈ l -> x ∉ filter (fun k => k ∈ ks) l <-> x ∉ ks.
Proof. rewrite list_elem_of_filter. naive_solver. Qed.

(** A chain of fallible steps that has failed stays failed. *)
Lemma foldl_bind_None {A B} (g : B -> A -> option A) l :
  foldl (fun acc x => acc ≫= g x) None l = None.
Proof. by induction l. Qed.

(** An invariant of a step relation holds along its reflexive-transitive
    closure: the rule induction behind every "reachable" theorem. *)
Lemma rtc_invariant {A} (R : relation A) (P : A -> Prop) :
  (forall x y, R x y -> P x -> P y) -> forall x y, rtc R x y -> P x -> P y.
Proof. intros Hstep x y Hr. induction Hr; eauto. Qed.

(** A decidable predicate and its negation split a list into two parts
    whose concatenation is a permutation of it. *)
Lemma filter_bool_partition {A} (f : A -> bool) (l : list A) :
  filter (fun x => f x = false) l ++ filter (fun x => f x = true) l ≡ₚ l.
Proof.
  assert (filter (fun x => f x = true) l = filter (fun x => ~ f x = false) l) as ->.
  { apply list_filter_iff. intros x. destruct (f x); naive_solver. }
  apply filter_app_complement.
Qed.
