(* ===== verification/PyStr.v ===== *)
(** * PyStr: the Python string operations the form fields rely on

    Strings are ASCII strings ([String.string]); on ASCII, Python's [len]
    is [String.length].  This file holds [str.isspace], [str.strip] (used
    by Django's [CharField] and [DateField] before validation), ASCII
    digits, Python's [int()] on a string (used when a [ModelChoiceField]
    looks a primary key up) and [str()] on a natural number (the form a
    primary key takes in a POST body).  The theorems: [strip] removes
    exactly the surrounding whitespace and is idempotent, and [int()]
    inverts [str()]. *)

From S2P Require Import Prelude.

Module PyStr.

(** ** Characters *)

(** [str.isspace] on one ASCII character: the characters of Unicode
    category whitespace or bidirectional class B/S/WS below 128, i.e.
    [\t \n \x0b \x0c \r], [\x1c] to [\x1f] and the space. *)
Definition isspace (c : ascii) : bool :=
  let n := nat_of_ascii c in
  ((9 <=? n) && (n <=? 13)) || ((28 <=? n) && (n <=? 32)).

(** The regular-expression class [\d] restricted to ASCII. *)
Definition isdigit (c : ascii) : bool :=
  let n := nat_of_ascii c in (48 <=? n) && (n <=? 57).

Definition digit_value (c : ascii) : nat := nat_of_ascii c - 48.

(** ** [str.strip] *)

Fixpoint lstrip (s : string) : string :=
  match s with
  | EmptyString => EmptyString
  | String c s' => if isspace c then lstrip s' else s
  end.

Fixpoint rstrip (s : string) : string :=
  match s with
  | EmptyString => EmptyString
  | String c s' =>
      let r := rstrip s' in
      if isspace c && String.eqb r EmptyString then EmptyString else String c r
  end.

Definition strip (s : string) : string := rstrip (lstrip s).

(** [str.lower] on ASCII. *)
Definition lower_char (c : ascii) : ascii :=
  let n := nat_of_ascii c in
  if (65 <=? n) && (n <=? 90) then ascii_of_nat (n + 32) else c.

Fixpoint lower (s : string) : string :=
  match s with
  | EmptyString => EmptyString
  | String c s' => String (lower_char c) (lower s')
  end.

(** Python's [len] on an ASCII string. *)
Definition len (s : string) : nat := String.length s.

(** A string has no whitespace at its ends. *)
Definition starts_with_space (s : string) : bool :=
  match s with String c _ => isspace c | EmptyString => false end.

Fixpoint ends_with_space (s : string) : bool :=
  match s with
  | EmptyString => false
  | String c EmptyString => isspace c
  | String _ s' => ends_with_space s'
  end.

(** ** [int()] on a string *)

(** The digits after the optional sign: one or more ASCII digits, single
    underscores allowed between two digits ([int('1_000') = 1000]). *)
Fixpoint digits_acc (acc : nat) (l : list ascii) : option nat :=
  match l with
  | [] => Some acc
  | c :: l' =>
      if isdigit c then digits_acc (10 * acc + digit_value c) l'
      else if decide (c = "_"%char) then
        match l' with
        | d :: l'' => if isdigit d then digits_acc (10 * acc + digit_value d) l'' else None
        | [] => None
        end
      else None
  end.

Definition parse_digits (l : list ascii) : option nat :=
  match l with
  | d :: l' => if isdigit d then digits_acc (digit_value d) l' else None
  | [] => None
  end.

(** [int(s)]: surrounding whitespace is ignored, then an optional sign and
    the digits; [None] is the [ValueError]. *)
Definition int_of_string (s : string) : option Z :=
  match list_ascii_of_string (strip s) with
  | [] => None
  | c :: ds =>
      if decide (c = "+"%char) then Z.of_nat <$> parse_digits ds
      else if decide (c = "-"%char) then (fun n => (- Z.of_nat n)%Z) <$> parse_digits ds
      else Z.of_nat <$> parse_digits (c :: ds)
  end.

(** ** [str()] on a natural number *)

Definition digit_char (n : nat) : ascii := ascii_of_nat (48 + n).

(** The decimal digits of [n], least significant first; [fuel] bounds
    the number of digits and [S n] is always enough. *)
Fixpoint rev_digits (fuel n : nat) : list ascii :=
  match fuel with
  | 0 => []
  | S f => digit_char (n mod 10) :: (if n <? 10 then [] else rev_digits f (n / 10))
  end.

Definition str_nat (n : nat) : string :=
  string_of_list_ascii (rev (rev_digits (S n) n)).

(** ** Lemmas on [strip] *)

Lemma lstrip_not_starts s : starts_with_space (lstrip s) = false.
Proof. induction s as [|c s IH]; simpl; [done|]. destruct (isspace c) eqn:E; simpl; auto. Qed.

Lemma rstrip_not_ends s : ends_with_space (rstrip s) = false.
Proof.
  induction s as [|c s IH]; simpl; [done|].
  destruct (isspace c) eqn:Ec, (String.eqb_spec (rstrip s) EmptyString) as [Hr|Hr];
    simpl; try done; rewrite ?Hr; try (destruct (rstrip s); done).
Qed.

(** [rstrip] keeps the first character unless it removes everything. *)
Lemma rstrip_head c s :
  isspace c = false -> rstrip (String c s) = String c (rstrip s).
Proof. intros Hc. simpl. by rewrite Hc. Qed.

Lemma lstrip_id s : starts_with_space s = false -> lstrip s = s.
Proof. destruct s as [|c s]; simpl; [done|]. by intros ->. Qed.

Lemma rstrip_id s : ends_with_space s = false -> rstrip s = s.
Proof.
  induction s as [|c s IH]; simpl; [done|].
  destruct s as [|c' s'].
  - intros Hc. by rewrite Hc.
  - intros He. rewrite (IH He). by rewrite andb_false_r.
Qed.

Lemma strip_starts s : starts_with_space (strip s) = false.
Proof.
  unfold strip. pose proof (lstrip_not_starts s) as H.
  destruct (lstrip s) as [|c s']; [done|]. simpl in H. by rewrite rstrip_head.
Qed.

Lemma strip_ends s : ends_with_space (strip s) = false.
Proof. apply rstrip_not_ends. Qed.

Lemma strip_id s :
  starts_with_space s = false -> ends_with_space s = false -> strip s = s.
Proof. intros Hs He. unfold strip. by rewrite lstrip_id, rstrip_id. Qed.

#[export] Hint Resolve strip_starts strip_ends : taskmaster.
#[export] Hint Rewrite strip_id using auto with taskmaster : taskmaster_rw.

Lemma strip_idempotent s : strip (strip s) = strip s.
Proof. apply strip_id; auto with taskmaster. Qed.

Lemma len_lstrip s : len (lstrip s) <= len s.
Proof. induction s as [|c s IH]; simpl; [done|]. destruct (isspace c); simpl in *; lia. Qed.

Lemma len_rstrip s : len (rstrip s) <= len s.
Proof.
  induction s as [|c s IH]; simpl; [done|].
  destruct (_ && _); simpl in *; lia.
Qed.

Lemma len_strip s : len (strip s) <= len s.
Proof. unfold strip. etransitivity; [apply len_rstrip | apply len_lstrip]. Qed.

(** ** Lemmas on digits and [int()] *)

Lemma digit_char_spec d :
  d < 10 -> isdigit (digit_char d) = true /\ digit_value (digit_char d) = d.
Proof.
  intros Hd. unfold isdigit, digit_value, digit_char.
  rewrite nat_ascii_embedding by lia.
  split; [apply andb_true_intro; split; apply Nat.leb_le|]; lia.
Qed.

Lemma digit_char_not_space d : d < 10 -> isspace (digit_char d) = false.
Proof.
  intros Hd. unfold isspace, digit_char. rewrite nat_ascii_embedding by lia.
  repeat match goal with |- context [?a <=? ?b] => destruct (Nat.leb_spec a b) end;
    simpl; try done; lia.
Qed.

(** Reading the printed digits of [n] after an accumulator [acc]. *)
Lemma digits_acc_rev_digits f n acc l :
  n < f ->
  digits_acc acc (rev (rev_digits f n) ++ l) =
  digits_acc (acc * 10 ^ length (rev_digits f n) + n) l.
Proof.
  revert n acc l. induction f as [|f IH]; intros n acc l Hn; [lia|].
  pose proof (Nat.mod_upper_bound n 10) as Hm.
  destruct (digit_char_spec (n mod 10)) as [Hd Hv]; [lia|].
  cbn [rev_digits rev length].
  destruct (Nat.ltb_spec n 10) as [Hlt|Hge]; cbn [rev app length].
  - cbn [digits_acc]. rewrite Hd, Hv, Nat.mod_small by lia. f_equal. rewrite Nat.pow_1_r. lia.
  - pose proof (Nat.div_mod n 10) as Hdm.
    assert (n / 10 < f) as Hq by lia.
    rewrite <- app_assoc, (IH _ _ _ Hq).
    cbn [app digits_acc]. rewrite Hd, Hv. f_equal.
    rewrite Nat.pow_succ_r'. lia.
Qed.

Lemma rev_digits_all_digits f n : Forall (fun c => isdigit c = true) (rev_digits f n).
Proof.
  revert n. induction f as [|f IH]; intros n; cbn [rev_digits]; [constructor|].
  constructor; [apply digit_char_spec, Nat.mod_upper_bound; lia|].
  destruct (n <? 10); [constructor | apply IH].
Qed.

Lemma isdigit_not_space c : isdigit c = true -> isspace c = false.
Proof.
  unfold isdigit, isspace. intros H. apply andb_prop in H as [H1 H2].
  apply Nat.leb_le in H1, H2.
  repeat match goal with |- context [?a <=? ?b] => destruct (Nat.leb_spec a b) end;
    simpl; try done; lia.
Qed.

Lemma isdigit_sign c : isdigit c = true -> c <> "+"%char /\ c <> "-"%char.
Proof. intros H. split; intros ->; discriminate H. Qed.

(** A string without whitespace is left unchanged by [strip]. *)
Lemma strip_nonspace s :
  Forall (fun c => isspace c = false) (list_ascii_of_string s) -> strip s = s.
Proof.
  intros Hall. apply strip_id.
  - destruct s as [|c s]; [done|]. simpl in *. by invc Hall.
  - induction s as [|c s IH]; [done|]. simpl in *. invc Hall.
    destruct s as [|c' s']; [done|]. by apply IH.
Qed.

Lemma str_nat_chars n :
  list_ascii_of_string (str_nat n) = rev (rev_digits (S n) n).
Proof. apply list_ascii_of_string_of_list_ascii. Qed.

Lemma str_nat_all_digits n :
  Forall (fun c => isdigit c = true) (list_ascii_of_string (str_nat n)).
Proof. rewrite str_nat_chars. apply Forall_rev, rev_digits_all_digits. Qed.

Lemma parse_digits_of_digits ds :
  Forall (fun c => isdigit c = true) ds -> ds <> [] -> parse_digits ds = digits_acc 0 ds.
Proof. intros Hall Hne. destruct ds as [|d ds]; [done|]. invc Hall. simpl. by rewrite H1. Qed.

Lemma rev_digits_nonempty f n : 0 < f -> rev_digits f n <> [].
Proof. destruct f; [lia|done]. Qed.

Lemma str_nat_nonempty n : str_nat n <> EmptyString.
Proof.
  unfold str_nat. cbn [rev_digits rev].
  destruct (rev _ ++ [_]) as [|c l] eqn:E; [by apply app_eq_nil in E as [_ ?]|]. done.
Qed.

(** Python's [int()] inverts [str()] on natural numbers: a primary key
    printed into a POST body reads back as the same key. *)
Lemma int_of_string_str_nat n : int_of_string (str_nat n) = Some (Z.of_nat n).
Proof.
  unfold int_of_string.
  rewrite strip_nonspace
    by (eapply Forall_impl; [apply str_nat_all_digits | apply isdigit_not_space]).
  pose proof (str_nat_all_digits n) as Hall. rewrite str_nat_chars in *.
  destruct (rev (rev_digits (S n) n)) as [|c ds] eqn:E.
  - apply (f_equal (@rev _)) in E. rewrite rev_involutive in E.
    by apply rev_digits_nonempty in E; [|lia].
  - pose proof (Forall_inv Hall) as Hc. destruct (isdigit_sign c Hc) as [Hp Hm].
    rewrite !decide_False by done.
    rewrite parse_digits_of_digits, <- E by done.
    rewrite <- (app_nil_r (rev _)), digits_acc_rev_digits by lia. done.
Qed.


End PyStr.
