(* ===== verification/Regex.v ===== *)
(** * Regex: Python's [re.match] as a list-of-successes matcher

    [time.strptime] compiles its format into a regular expression of
    Python's [re] module, with the flag [re.IGNORECASE], and uses the
    match [re.match] returns.  [re] is a backtracking matcher: it tries the
    alternatives of [p|q] left to right and the repetitions of a greedy
    [p+] from the longest down, and returns the first way the whole
    pattern matches.  A matcher here returns the list of ALL the ways its
    pattern matches a prefix of the input, each with the value read and the
    input left over, in the order the backtracking tries them; the head of
    the list is therefore the match [re.match] returns, and sequencing two
    matchers ([m_bind]) tries the second on every way the first matched, in
    order, as backtracking does.

    The pieces the patterns of [_strptime] use: literal characters (with
    [IGNORECASE], ASCII letters match either case), the classes [\d] and
    [[lo-hi]] of ASCII digits, and [\s+] over the characters for which
    [str.isspace] holds.  Characters beyond ASCII are not modelled. *)

From S2P Require Import Prelude PyStr.

Module Regex.
Import PyStr.

Definition matcher (A : Type) : Type := list ascii -> list (A * list ascii).

Definition m_ret {A} (a : A) : matcher A := fun s => [(a, s)].

Definition m_bind {A B} (p : matcher A) (k : A -> matcher B) : matcher B :=
  fun s => flat_map (fun '(a, s') => k a s') (p s).

(** [p|q]: the alternatives of [p] are tried before those of [q]. *)
Definition m_alt {A} (p q : matcher A) : matcher A := fun s => p s ++ q s.

(** The pattern that never matches. *)
Definition m_fail {A} : matcher A := fun _ => [].

(** [p1|p2|...|pn]. *)
Fixpoint m_alts {A} (ps : list (matcher A)) : matcher A :=
  match ps with
  | [] => m_fail
  | p :: ps' => m_alt p (m_alts ps')
  end.

(** One character of the class [lo-hi] of digits, returning its value. *)
Definition m_digit_in (lo hi : nat) : matcher nat :=
  fun s =>
    match s with
    | c :: s' =>
        if isdigit c && (lo <=? digit_value c) && (digit_value c <=? hi)
        then [(digit_value c, s')] else []
    | [] => []
    end.

Definition m_digit : matcher nat := m_digit_in 0 9.

(** A literal character. *)
Definition m_lit (c : ascii) : matcher unit :=
  fun s =>
    match s with
    | c' :: s' => if decide (c = c') then [(tt, s')] else []
    | [] => []
    end.

(** A literal character under [re.IGNORECASE]: both sides are folded to
    lower case. *)
Definition m_lit_ci (c : ascii) : matcher unit :=
  fun s =>
    match s with
    | c' :: s' => if decide (lower_char c = lower_char c') then [(tt, s')] else []
    | [] => []
    end.

Notation "x <-- p ;; k" := (m_bind p (fun x => k))
  (at level 100, p at next level, right associativity) : tm_scope.

(** A literal word under [re.IGNORECASE]. *)
Fixpoint m_word_ci (w : list ascii) : matcher unit :=
  match w with
  | [] => m_ret tt
  | c :: w' => _ <-- m_lit_ci c ;; m_word_ci w'
  end.

(** [\s*], greedy: the longest run of whitespace first, then each shorter
    one. *)
Fixpoint m_spaces (s : list ascii) : list (unit * list ascii) :=
  match s with
  | c :: s' => if isspace c then m_spaces s' ++ [(tt, s)] else [(tt, s)]
  | [] => [(tt, [])]
  end.

(** [\s+]. *)
Definition m_space : matcher unit :=
  fun s =>
    match s with
    | c :: s' => if isspace c then m_spaces s' else []
    | [] => []
    end.

(** ** The first match *)

(** [p] on [s] returns [a] with [rest] left over as its first match. *)
Definition yields {A} (p : matcher A) (s : list ascii) (a : A) (rest : list ascii) : Prop :=
  exists tl, p s = (a, rest) :: tl.

Lemma yields_ret {A} (a : A) s : yields (m_ret a) s a s.
Proof. by exists []. Qed.

Lemma yields_bind {A B} (p : matcher A) (k : A -> matcher B) s a s' b s'' :
  yields p s a s' -> yields (k a) s' b s'' -> yields (m_bind p k) s b s''.
Proof.
  intros [tl Hp] [tl' Hk]. unfold yields, m_bind. rewrite Hp. simpl. rewrite Hk.
  by eexists.
Qed.

(** ** Every match *)

Lemma elem_of_m_ret {A} (a b : A) s s' : (b, s') ∈ m_ret a s <-> b = a /\ s' = s.
Proof. unfold m_ret. rewrite list_elem_of_singleton. naive_solver. Qed.

Lemma elem_of_m_bind {A B} (p : matcher A) (k : A -> matcher B) s b s'' :
  (b, s'') ∈ m_bind p k s <-> exists a s', (a, s') ∈ p s /\ (b, s'') ∈ k a s'.
Proof.
  unfold m_bind. rewrite list_elem_of_In, in_flat_map. split.
  - intros ([a s'] & Hp & Hk). exists a, s'. by rewrite !list_elem_of_In.
  - intros (a & s' & Hp & Hk). exists (a, s'). by rewrite <- !list_elem_of_In.
Qed.

Lemma m_digit_in_bound lo hi s v rest : (v, rest) ∈ m_digit_in lo hi s -> lo <= v <= hi.
Proof.
  unfold m_digit_in. destruct s as [|c s]; [by intros ?%elem_of_nil|].
  case_match eqn:E; [|by intros ?%elem_of_nil].
  rewrite list_elem_of_singleton. intros [= -> _].
  rewrite !andb_true_iff, !Nat.leb_le in E. lia.
Qed.

Lemma yields_alt_l {A} (p q : matcher A) s a rest :
  yields p s a rest -> yields (m_alt p q) s a rest.
Proof. intros [tl Hp]. exists (tl ++ q s). unfold m_alt. by rewrite Hp. Qed.

(** When [p] does not match, [p|q] matches as [q]. *)
Lemma yields_alt_r {A} (p q : matcher A) s a rest :
  p s = [] -> yields q s a rest -> yields (m_alt p q) s a rest.
Proof. intros Hp [tl Hq]. exists tl. unfold m_alt. by rewrite Hp, Hq. Qed.

Lemma m_digit_char d s : d < 10 -> m_digit (digit_char d :: s) = [(d, s)].
Proof.
  intros Hd. destruct (digit_char_spec d Hd) as [H1 H2].
  unfold m_digit, m_digit_in. rewrite H1, H2.
  replace (0 <=? d) with true by (symmetry; apply Nat.leb_le; lia).
  replace (d <=? 9) with true by (symmetry; apply Nat.leb_le; lia). done.
Qed.

Lemma yields_digit d s : d < 10 -> yields m_digit (digit_char d :: s) d s.
Proof. intros Hd. unfold yields. rewrite m_digit_char by done. by eexists. Qed.

Lemma yields_lit_ci c s : yields (m_lit_ci c) (c :: s) tt s.
Proof. exists []. simpl. by rewrite decide_True. Qed.

(** Every way [\s+] matches consumes a non-empty run of whitespace. *)
Lemma m_spaces_suffix s u rest :
  (u, rest) ∈ m_spaces s -> exists sp, s = sp ++ rest /\ Forall (fun c => isspace c = true) sp.
Proof.
  induction s as [|c s IH]; simpl.
  - rewrite list_elem_of_singleton. intros [= _ <-]. by exists [].
  - destruct (isspace c) eqn:Hc.
    + rewrite elem_of_app, list_elem_of_singleton.
      intros [(sp & -> & Hsp)%IH | [= _ <-]]; [exists (c :: sp); by split; [|constructor]|].
      by exists [].
    + rewrite list_elem_of_singleton. intros [= _ <-]. by exists [].
Qed.

(** The first match of [\s+] takes the whole run of whitespace: what is
    left starts with a non-space character or is empty. *)
Lemma m_spaces_first sp rest :
  Forall (fun c => isspace c = true) sp ->
  (forall c rest', rest = c :: rest' -> isspace c = false) ->
  yields (fun s => m_spaces s) (sp ++ rest) tt rest.
Proof.
  intros Hsp Hrest. unfold yields. induction Hsp as [|c sp Hc Hsp IH]; simpl.
  - destruct rest as [|c rest]; simpl; [by exists []|].
    rewrite (Hrest c rest eq_refl). by exists [].
  - rewrite Hc. destruct IH as [tl ->]. by eexists.
Qed.

End Regex.
