(* ===== verification/Strptime.v ===== *)
(** * Strptime: calendar dates and the parsing of a [DateField] input

    [datetime.date] is a record of year, month and day with Python's
    validity check ([MINYEAR] to [MAXYEAR], month 1 to 12, day within the
    month, leap years of the Gregorian calendar) and Python's ordering of
    dates (lexicographic on the three fields).

    [time.strptime] ([_strptime]) compiles the format into a regular
    expression ([TimeRE.pattern]): each directive becomes its group, each
    run of whitespace [\s+], any other character a literal, the whole
    compiled with [re.IGNORECASE]; it takes the FIRST match [re.match]
    finds (the head of the list of a [Regex] matcher), raises
    [ValueError] when that match leaves characters unread ("unconverted
    data remains"), and builds the date from the groups in order.  The
    directives are those of Django's input formats: [%Y] ([\d\d\d\d]),
    [%y] ([\d\d], 69-99 in the 1900s, 00-68 in the 2000s), [%m], [%d],
    and the month names [%b] and [%B], each the alternation of the
    lower-cased names of [calendar], longest first.

    The theorems: every parsed date is valid; [isoformat] is read back by
    the [%Y-%m-%d] format (a round trip); a date read with [%y] lies in
    1969-2068; the date order is a total preorder. *)

From S2P Require Import Prelude PyStr Regex.

Module Strptime.
Import PyStr Regex.

(** ** [datetime.date] *)

Record date := mkdate { year : nat; month : nat; day : nat }.

#[export] Instance date_eq_dec : EqDecision date.
Proof. solve_decision. Defined.

Definition MINYEAR := 1.
(** [9999], written so that [lia] reads it as a constant. *)
Definition MAXYEAR := 10 * 1000 - 1.

Definition is_leap (y : nat) : bool :=
  (y mod 4 =? 0) && (negb (y mod 100 =? 0) || (y mod 400 =? 0)).

Definition days_in_month (y m : nat) : nat :=
  match m with
  | 1 | 3 | 5 | 7 | 8 | 10 | 12 => 31
  | 4 | 6 | 9 | 11 => 30
  | 2 => if is_leap y then 29 else 28
  | _ => 0
  end.

(** The checks of [datetime.date(year, month, day)]. *)
Definition valid_date (d : date) : bool :=
  (MINYEAR <=? year d) && (year d <=? MAXYEAR) &&
  (1 <=? month d) && (month d <=? 12) &&
  (1 <=? day d) && (day d <=? days_in_month (year d) (month d)).

(** Python compares dates as the tuples [(year, month, day)]. *)
Definition date_le (d1 d2 : date) : bool :=
  (year d1 <? year d2) ||
  ((year d1 =? year d2) &&
   ((month d1 <? month d2) || ((month d1 =? month d2) && (day d1 <=? day d2)))).

(** ** The directives *)

(** [%Y]: [(?P<Y>\d\d\d\d)]. *)
Definition re_Y : matcher nat :=
  a <-- m_digit ;; b <-- m_digit ;; c <-- m_digit ;; e <-- m_digit ;;
  m_ret (1000 * a + 100 * b + 10 * c + e).

(** [%y]: [(?P<y>\d\d)]. *)
Definition re_y : matcher nat :=
  a <-- m_digit ;; b <-- m_digit ;; m_ret (10 * a + b).

(** [%m]: [(?P<m>1[0-2]|0[1-9]|[1-9])]. *)
Definition re_m : matcher nat :=
  m_alt (_ <-- m_lit "1" ;; b <-- m_digit_in 0 2 ;; m_ret (10 + b))
  (m_alt (_ <-- m_lit "0" ;; b <-- m_digit_in 1 9 ;; m_ret b)
         (m_digit_in 1 9)).

(** [%d]: [(?P<d>3[01]|[12]\d|0[1-9]|[1-9]| [1-9])]. *)
Definition re_d : matcher nat :=
  m_alt (_ <-- m_lit "3" ;; b <-- m_digit_in 0 1 ;; m_ret (30 + b))
  (m_alt (a <-- m_digit_in 1 2 ;; b <-- m_digit ;; m_ret (10 * a + b))
  (m_alt (_ <-- m_lit "0" ;; b <-- m_digit_in 1 9 ;; m_ret b)
  (m_alt (m_digit_in 1 9)
         (_ <-- m_lit " " ;; b <-- m_digit_in 1 9 ;; m_ret b)))).

(** [%b] and [%B]: [LocaleTime]'s [a_month] and [f_month], the month
    names of [calendar] lower-cased (the C and [en] locales), index 0
    being the empty string. *)
Definition a_month : list string :=
  [""; "jan"; "feb"; "mar"; "apr"; "may"; "jun"; "jul"; "aug"; "sep"; "oct"; "nov"; "dec"].

Definition f_month : list string :=
  [""; "january"; "february"; "march"; "april"; "may"; "june"; "july"; "august";
   "september"; "october"; "november"; "december"].

(** [sorted(to_convert, key=len, reverse=True)]: longest first, names of
    one length in their order (Python's sort is stable, also reversed). *)
Fixpoint insert_by_len (w : string) (l : list string) : list string :=
  match l with
  | [] => [w]
  | w' :: l' => if String.length w' <=? String.length w then w :: l else w' :: insert_by_len w l'
  end.

Fixpoint sort_by_len_desc (l : list string) : list string :=
  match l with
  | [] => []
  | w :: l' => insert_by_len w (sort_by_len_desc l')
  end.

(** [list.index(x)]; [0] when absent (the matched name is always present). *)
Fixpoint str_index (x : string) (l : list string) : nat :=
  match l with
  | [] => 0
  | w :: l' => if String.eqb x w then 0 else S (str_index x l')
  end.

(** [TimeRE.__seqToRE(names[1:], ...)]: the alternation of the names,
    longest first; the value is the month, [names.index(found.lower())]. *)
Definition re_month_names (names : list string) : matcher nat :=
  m_alts (map (fun w => _ <-- m_word_ci (list_ascii_of_string w) ;; m_ret (str_index w names))
              (sort_by_len_desc (tail names))).

Inductive directive :=
| Dir_Y | Dir_y | Dir_m | Dir_d | Dir_b | Dir_B
| Lit (c : ascii)
| Space.   (* a run of whitespace of the format, [\s+] *)

#[export] Instance directive_eq_dec : EqDecision directive.
Proof. solve_decision. Defined.

(** The format string as [TimeRE.pattern] reads it: [%] followed by a
    directive letter, a whitespace character a [\s+] (a run of them is
    merged below), any other character a literal.  Directives other than
    these six are not modelled: the format is then rejected, as
    [_strptime] rejects an unknown one ([ValueError]). *)
Fixpoint format_tokens (l : list ascii) : option (list directive) :=
  match l with
  | [] => Some []
  | c :: l' =>
      if decide (c = "%"%char) then
        match l' with
        | d :: l'' =>
            let dir :=
              if decide (d = "Y"%char) then Some Dir_Y
              else if decide (d = "y"%char) then Some Dir_y
              else if decide (d = "m"%char) then Some Dir_m
              else if decide (d = "d"%char) then Some Dir_d
              else if decide (d = "b"%char) then Some Dir_b
              else if decide (d = "B"%char) then Some Dir_B
              else None in
            match dir, format_tokens l'' with
            | Some x, Some f => Some (x :: f)
            | _, _ => None
            end
        | [] => None
        end
      else if isspace c then (fun f => Space :: f) <$> format_tokens l'
      else (fun f => Lit c :: f) <$> format_tokens l'
  end.

(** [re.sub(r'\s+', r'\\s+', format)]: a run of whitespace is one [\s+]. *)
Fixpoint merge_spaces (f : list directive) : list directive :=
  match f with
  | Space :: (Space :: _) as f' => merge_spaces f'
  | x :: f' => x :: merge_spaces f'
  | [] => []
  end.

Definition format_of (l : list ascii) : option (list directive) :=
  merge_spaces <$> format_tokens l.

(** The pattern of each directive ([TimeRE.__init__]); the whole pattern is
    compiled with [re.IGNORECASE], which matters for the literals and the
    month names. *)
Definition re_directive (dir : directive) : matcher nat :=
  match dir with
  | Dir_Y => re_Y
  | Dir_y => re_y
  | Dir_m => re_m
  | Dir_d => re_d
  | Dir_b => re_month_names a_month
  | Dir_B => re_month_names f_month
  | Lit c => _ <-- m_lit_ci c ;; m_ret 0
  | Space => _ <-- m_space ;; m_ret 0
  end.

(** The compiled format: the directives in sequence, each group recorded
    with its value (the [groupdict] of the match). *)
Fixpoint compile (fmt : list directive) : matcher (list (directive * nat)) :=
  match fmt with
  | [] => m_ret []
  | dir :: fmt' =>
      v <-- re_directive dir ;; found <-- compile fmt' ;; m_ret ((dir, v) :: found)
  end.

(** [_strptime]'s loop over [found.groupdict()], in the order of the
    groups, from [year = None] and [month = day = 1]: [%y] reads years
    69-99 in the 1900s and 00-68 in the 2000s; a later group overrides an
    earlier one. *)
Definition set_group (acc : option nat * nat * nat) (g : directive * nat) : option nat * nat * nat :=
  let '(y, m, d) := acc in
  match g with
  | (Dir_y, v) => (Some (if v <=? 68 then v + 2000 else v + 1900), m, d)
  | (Dir_Y, v) => (Some v, m, d)
  | (Dir_m, v) | (Dir_b, v) | (Dir_B, v) => (y, v, d)
  | (Dir_d, v) => (y, m, v)
  | _ => acc
  end.

(** The date of the groups, with the default year 1900, checked as
    [datetime.date] checks it. *)
Definition build_date (found : list (directive * nat)) : option date :=
  let '(y, m, d) := foldl set_group (None, 1, 1) found in
  let dt := mkdate (default 1900 y) m d in
  if valid_date dt then Some dt else None.

(** [datetime.strptime(s, fmt).date()]: [None] is the [ValueError]. *)
Definition strptime (fmt : list directive) (s : string) : option date :=
  match compile fmt (list_ascii_of_string s) with
  | (found, []) :: _ => build_date found
  | _ => None
  end.

(** Django's [DATE_INPUT_FORMATS] ([django/conf/locale/en/formats.py],
    also the global default). *)
Definition DATE_INPUT_FORMATS : list string :=
  ["%Y-%m-%d"; "%m/%d/%Y"; "%m/%d/%y"; "%b %d %Y"; "%b %d, %Y"; "%d %b %Y"; "%d %b, %Y";
   "%B %d %Y"; "%B %d, %Y"; "%d %B %Y"; "%d %B, %Y"]%string.

(** [BaseTemporalField.to_python]'s loop: the first format that parses. *)
Fixpoint try_formats (fmts : list string) (v : string) : option date :=
  match fmts with
  | [] => None
  | f :: fs =>
      match format_of (list_ascii_of_string f) ≫= fun fmt => strptime fmt v with
      | Some d => Some d
      | None => try_formats fs v
      end
  end.

(** [date.isoformat()]: ["%04d-%02d-%02d"]. *)
Definition pad2 (n : nat) : list ascii := [digit_char (n / 10); digit_char (n mod 10)].

Definition pad4 (n : nat) : list ascii :=
  [digit_char (n / 1000); digit_char (n / 100 mod 10);
   digit_char (n / 10 mod 10); digit_char (n mod 10)].

Definition isoformat (d : date) : string :=
  string_of_list_ascii (pad4 (year d) ++ ["-"%char] ++ pad2 (month d) ++ ["-"%char] ++ pad2 (day d)).

(** ** Lemmas on the date order *)

Lemma date_le_iff d1 d2 :
  date_le d1 d2 = true <->
  year d1 < year d2 \/
  (year d1 = year d2 /\ (month d1 < month d2 \/ (month d1 = month d2 /\ day d1 <= day d2))).
Proof.
  unfold date_le.
  rewrite orb_true_iff, andb_true_iff, orb_true_iff, andb_true_iff,
    !Nat.ltb_lt, !Nat.eqb_eq, Nat.leb_le.
  done.
Qed.

Lemma date_le_refl d : date_le d d = true.
Proof. apply date_le_iff. lia. Qed.

Lemma date_le_total d1 d2 : date_le d1 d2 = false -> date_le d2 d1 = true.
Proof.
  intros H. apply not_true_iff_false in H. rewrite date_le_iff in *. lia.
Qed.

Lemma date_le_trans d1 d2 d3 :
  date_le d1 d2 = true -> date_le d2 d3 = true -> date_le d1 d3 = true.
Proof. rewrite !date_le_iff. lia. Qed.

(** Two dates each below the other are equal. *)
Lemma date_le_antisym d1 d2 :
  date_le d1 d2 = true -> date_le d2 d1 = true -> d1 = d2.
Proof. destruct d1, d2. rewrite !date_le_iff. simpl. intros. f_equal; lia. Qed.

#[export] Hint Resolve date_le_refl date_le_total date_le_trans : taskmaster.

(** ** Every parsed date is valid *)

Lemma build_date_valid found d : build_date found = Some d -> valid_date d = true.
Proof. unfold build_date. destruct (foldl _ _ _) as [[y m] dd]. case_match; by intros; simplify_eq. Qed.

Lemma strptime_valid fmt s d : strptime fmt s = Some d -> valid_date d = true.
Proof. unfold strptime. repeat case_match; try done. apply build_date_valid. Qed.

Lemma try_formats_valid fmts v d : try_formats fmts v = Some d -> valid_date d = true.
Proof.
  induction fmts as [|f fs IH]; simpl; [done|].
  destruct (format_of _) as [fmt|]; simpl; [|apply IH].
  destruct (strptime fmt v) eqn:E; [intros; simplify_eq; by eapply strptime_valid | apply IH].
Qed.

(** ** The first match of each directive *)

Lemma pad4_arith y :
  y < 10 * 1000 ->
  y / 1000 < 10 /\
  1000 * (y / 1000) + 100 * (y / 100 mod 10) + 10 * (y / 10 mod 10) + y mod 10 = y.
Proof.
  intros Hy.
  replace (y / 100) with (y / 10 / 10) by (rewrite Nat.Div0.div_div; reflexivity).
  replace (y / 1000) with (y / 10 / 10 / 10) by (rewrite !Nat.Div0.div_div; reflexivity).
  pose proof (Nat.div_mod_eq y 10). pose proof (Nat.div_mod_eq (y / 10) 10).
  pose proof (Nat.div_mod_eq (y / 10 / 10) 10).
  pose proof (Nat.mod_upper_bound y 10). pose proof (Nat.mod_upper_bound (y / 10) 10).
  pose proof (Nat.mod_upper_bound (y / 10 / 10) 10).
  lia.
Qed.

Lemma re_Y_pad4 y rest : y < 10 * 1000 -> yields re_Y (pad4 y ++ rest) y rest.
Proof.
  intros Hy. destruct (pad4_arith y Hy) as [Hq Hv]. unfold re_Y, pad4. cbn [app].
  eapply yields_bind; [by apply yields_digit|].
  eapply yields_bind; [apply yields_digit, Nat.mod_upper_bound; lia|].
  eapply yields_bind; [apply yields_digit, Nat.mod_upper_bound; lia|].
  eapply yields_bind; [apply yields_digit, Nat.mod_upper_bound; lia|].
  exists []. unfold m_ret. by rewrite Hv.
Qed.

Lemma re_m_pad2 m rest : 1 <= m <= 12 -> yields re_m (pad2 m ++ rest) m rest.
Proof.
  intros Hm. do 13 (destruct m as [|m]; [try lia; eexists; reflexivity|]). lia.
Qed.

Lemma re_d_pad2 d rest : 1 <= d <= 31 -> yields re_d (pad2 d ++ rest) d rest.
Proof.
  intros Hd. do 32 (destruct d as [|d]; [try lia; eexists; reflexivity|]). lia.
Qed.

(** ** The ISO round trip *)

Definition iso_format : list directive := [Dir_Y; Lit "-"; Dir_m; Lit "-"; Dir_d].

Lemma format_of_iso : format_of (list_ascii_of_string "%Y-%m-%d") = Some iso_format.
Proof. reflexivity. Qed.

Lemma days_in_month_le y m : days_in_month y m <= 31.
Proof. unfold days_in_month. repeat case_match; lia. Qed.

Lemma valid_date_bounds d :
  valid_date d = true ->
  1 <= year d < 10 * 1000 /\ 1 <= month d <= 12 /\ 1 <= day d <= days_in_month (year d) (month d).
Proof.
  unfold valid_date, MINYEAR, MAXYEAR. rewrite !andb_true_iff, !Nat.leb_le. lia.
Qed.

Lemma yields_lit_directive c s : yields (re_directive (Lit c)) (c :: s) 0 s.
Proof. eapply yields_bind; [apply yields_lit_ci | apply yields_ret]. Qed.

Lemma yields_compile_cons dir fmt s v s' found s'' :
  yields (re_directive dir) s v s' -> yields (compile fmt) s' found s'' ->
  yields (compile (dir :: fmt)) s ((dir, v) :: found) s''.
Proof.
  intros Hd Hf. eapply yields_bind; [exact Hd|].
  eapply yields_bind; [exact Hf | apply yields_ret].
Qed.

Lemma compile_iso y m d :
  y < 10 * 1000 -> 1 <= m <= 12 -> 1 <= d <= 31 ->
  yields (compile iso_format) (pad4 y ++ ["-"%char] ++ pad2 m ++ ["-"%char] ++ pad2 d)
    [(Dir_Y, y); (Lit "-", 0); (Dir_m, m); (Lit "-", 0); (Dir_d, d)] [].
Proof.
  intros Hy Hm Hd. unfold iso_format.
  apply yields_compile_cons with (s' := ["-"%char] ++ pad2 m ++ ["-"%char] ++ pad2 d);
    [by apply re_Y_pad4|].
  apply yields_compile_cons with (s' := pad2 m ++ ["-"%char] ++ pad2 d);
    [apply yields_lit_directive|].
  apply yields_compile_cons with (s' := ["-"%char] ++ pad2 d); [by apply re_m_pad2|].
  apply yields_compile_cons with (s' := pad2 d); [apply yields_lit_directive|].
  apply yields_compile_cons with (s' := []);
    [rewrite <- (app_nil_r (pad2 d)) at 1; by apply re_d_pad2 | apply yields_ret].
Qed.

(** [strptime] with [%Y-%m-%d] reads back what [date.isoformat()] prints. *)
Lemma strptime_isoformat d : valid_date d = true -> strptime iso_format (isoformat d) = Some d.
Proof.
  intros Hv. pose proof (valid_date_bounds d Hv) as (Hy & Hm & Hd).
  pose proof (days_in_month_le (year d) (month d)).
  unfold strptime, isoformat. rewrite list_ascii_of_string_of_list_ascii.
  destruct (compile_iso (year d) (month d) (day d)) as [tl ->]; try lia.
  unfold build_date. simpl. destruct d. simpl in *. by rewrite Hv.
Qed.

Lemma try_formats_cons_Some f fs v fmt d :
  format_of (list_ascii_of_string f) = Some fmt -> strptime fmt v = Some d ->
  try_formats (f :: fs) v = Some d.
Proof. intros Hf Hs. cbn [try_formats]. rewrite Hf. simpl. by rewrite Hs. Qed.

Lemma pad2_nonspace n : n < 100 -> Forall (fun c => isspace c = false) (pad2 n).
Proof.
  intros Hn. unfold pad2.
  repeat constructor; apply digit_char_not_space;
    [apply Nat.Div0.div_lt_upper_bound; lia | apply Nat.mod_upper_bound; lia].
Qed.

Lemma pad4_nonspace n : n < 10 * 1000 -> Forall (fun c => isspace c = false) (pad4 n).
Proof.
  intros Hn. destruct (pad4_arith n Hn) as [Hq _]. unfold pad4.
  repeat constructor; apply digit_char_not_space; try done; apply Nat.mod_upper_bound; lia.
Qed.

Lemma isoformat_nonspace d :
  valid_date d = true -> Forall (fun c => isspace c = false) (list_ascii_of_string (isoformat d)).
Proof.
  intros Hv. pose proof (valid_date_bounds d Hv) as (Hy & Hm & Hd).
  pose proof (days_in_month_le (year d) (month d)).
  unfold isoformat. rewrite list_ascii_of_string_of_list_ascii.
  repeat (apply Forall_app; split); try (repeat constructor; done).
  - apply pad4_nonspace; lia.
  - apply pad2_nonspace; lia.
  - apply pad2_nonspace; lia.
Qed.

Lemma isoformat_nonempty d : isoformat d <> EmptyString.
Proof. unfold isoformat, pad4. cbn [app string_of_list_ascii]. done. Qed.

(** ** The month-first round trip *)

(** [date.strftime("%m/%d/%Y")]: the month first, as the [en] locale
    writes a date. *)
Definition us_format (d : date) : string :=
  string_of_list_ascii (pad2 (month d) ++ ["/"%char] ++ pad2 (day d) ++ ["/"%char] ++ pad4 (year d)).

Definition mdY_format : list directive := [Dir_m; Lit "/"; Dir_d; Lit "/"; Dir_Y].

Lemma format_of_mdY : format_of (list_ascii_of_string "%m/%d/%Y") = Some mdY_format.
Proof. reflexivity. Qed.

(** [%Y] needs four digits: a slash in third place stops it. *)
Lemma re_Y_slash a b rest : re_Y (a :: b :: "/"%char :: rest) = [].
Proof.
  unfold re_Y, m_bind, m_digit, m_digit_in. cbn [flat_map].
  destruct (isdigit a && _ && _); cbn [flat_map]; [|done].
  by destruct (isdigit b && _ && _).
Qed.

Lemma strptime_iso_slash a b rest : strptime iso_format (string_of_list_ascii (a :: b :: "/"%char :: rest)) = None.
Proof.
  unfold strptime. rewrite list_ascii_of_string_of_list_ascii.
  unfold iso_format. cbn [compile re_directive]. unfold m_bind at 1. by rewrite re_Y_slash.
Qed.

Lemma compile_mdY y m d :
  y < 10 * 1000 -> 1 <= m <= 12 -> 1 <= d <= 31 ->
  yields (compile mdY_format) (pad2 m ++ ["/"%char] ++ pad2 d ++ ["/"%char] ++ pad4 y)
    [(Dir_m, m); (Lit "/", 0); (Dir_d, d); (Lit "/", 0); (Dir_Y, y)] [].
Proof.
  intros Hy Hm Hd. unfold mdY_format.
  apply yields_compile_cons with (s' := ["/"%char] ++ pad2 d ++ ["/"%char] ++ pad4 y);
    [by apply re_m_pad2|].
  apply yields_compile_cons with (s' := pad2 d ++ ["/"%char] ++ pad4 y); [apply yields_lit_directive|].
  apply yields_compile_cons with (s' := ["/"%char] ++ pad4 y); [by apply re_d_pad2|].
  apply yields_compile_cons with (s' := pad4 y); [apply yields_lit_directive|].
  apply yields_compile_cons with (s' := []);
    [rewrite <- (app_nil_r (pad4 y)) at 1; by apply re_Y_pad4 | apply yields_ret].
Qed.

Lemma strptime_us_format d : valid_date d = true -> strptime mdY_format (us_format d) = Some d.
Proof.
  intros Hv. pose proof (valid_date_bounds d Hv) as (Hy & Hm & Hd).
  pose proof (days_in_month_le (year d) (month d)).
  unfold strptime, us_format. rewrite list_ascii_of_string_of_list_ascii.
  destruct (compile_mdY (year d) (month d) (day d)) as [tl ->]; try lia.
  unfold build_date. simpl. destruct d. simpl in *. by rewrite Hv.
Qed.

(** The first input format, [%Y-%m-%d], rejects a month-first date. *)
Lemma strptime_iso_us_format d : strptime iso_format (us_format d) = None.
Proof. apply strptime_iso_slash. Qed.

Lemma try_formats_cons_None f fs v fmt :
  format_of (list_ascii_of_string f) = Some fmt -> strptime fmt v = None ->
  try_formats (f :: fs) v = try_formats fs v.
Proof. intros Hf Hs. cbn [try_formats]. rewrite Hf. simpl. by rewrite Hs. Qed.

Lemma us_format_nonspace d :
  valid_date d = true -> Forall (fun c => isspace c = false) (list_ascii_of_string (us_format d)).
Proof.
  intros Hv. pose proof (valid_date_bounds d Hv) as (Hy & Hm & Hd).
  pose proof (days_in_month_le (year d) (month d)).
  unfold us_format. rewrite list_ascii_of_string_of_list_ascii.
  repeat (apply Forall_app; split); try (repeat constructor; done).
  - apply pad2_nonspace; lia.
  - apply pad2_nonspace; lia.
  - apply pad4_nonspace; lia.
Qed.

Lemma us_format_nonempty d : us_format d <> EmptyString.
Proof. unfold us_format, pad2. cbn [app string_of_list_ascii]. done. Qed.

(** ** The two-digit year *)

Lemma re_y_bound s v rest : (v, rest) ∈ re_y s -> v < 100.
Proof.
  unfold re_y. intros (a & s1 & Ha & (b & s2 & Hb & Hr)%elem_of_m_bind)%elem_of_m_bind.
  apply elem_of_m_ret in Hr as [-> _].
  apply m_digit_in_bound in Ha, Hb. lia.
Qed.

(** Every match of a compiled format has one group per directive, in
    order; a [%y] group holds two digits. *)
Lemma compile_groups fmt s found rest :
  (found, rest) ∈ compile fmt s ->
  map fst found = fmt /\ Forall (fun g => g.1 = Dir_y -> g.2 < 100) found.
Proof.
  revert s found rest. induction fmt as [|dir fmt IH]; intros s found rest; simpl.
  - by intros [-> _]%elem_of_m_ret.
  - intros (v & s1 & Hv & (f & s2 & Hf & Hr)%elem_of_m_bind)%elem_of_m_bind.
    apply elem_of_m_ret in Hr as [-> _]. destruct (IH _ _ _ Hf) as [Hm Hy].
    split; [by rewrite <- Hm|]. constructor; [|done]. simpl. intros ->. by eapply re_y_bound.
Qed.

Definition two_digit_year (y : option nat) : Prop :=
  match y with None => True | Some y => 1969 <= y <= 2068 end.

Lemma foldl_set_group_two_digit found acc :
  Forall (fun g => g.1 <> Dir_Y /\ (g.1 = Dir_y -> g.2 < 100)) found ->
  two_digit_year acc.1.1 -> two_digit_year (foldl set_group acc found).1.1.
Proof.
  revert acc. induction found as [|[dir v] found IH]; intros [[y m] d] Hf Hy; [done|].
  invc Hf. apply IH; [done|]. destruct dir; simpl in *; try done; [naive_solver|].
  destruct (Nat.leb_spec v 68); naive_solver lia.
Qed.

(** Once a group has set the year, it stays set. *)
Lemma foldl_set_group_year found acc :
  is_Some acc.1.1 \/ Dir_y ∈ map fst found -> is_Some (foldl set_group acc found).1.1.
Proof.
  revert acc. induction found as [|[dir v] found IH]; intros [[y m] d] H; simpl in *.
  - destruct H as [H|H]; [done | by apply elem_of_nil in H].
  - apply IH. rewrite elem_of_cons in H.
    destruct dir; simpl; naive_solver.
Qed.

(** [C29] A date parsed by a format with [%y] and without [%Y] lies in
    1969-2068: [_strptime] reads [00]-[68] as 2000-2068 and [69]-[99] as
    1969-1999. *)
Theorem strptime_two_digit_year fmt s d :
  Dir_Y ∉ fmt -> Dir_y ∈ fmt -> strptime fmt s = Some d -> 1969 <= year d <= 2068.
Proof.
  intros HY Hy. unfold strptime.
  destruct (compile fmt _) as [|[found [|c rest]] tl] eqn:E; try done.
  assert (Hin : (found, []) ∈ compile fmt (list_ascii_of_string s)) by (rewrite E; left).
  destruct (compile_groups _ _ _ _ Hin) as [<- Hg].
  assert (Hb := foldl_set_group_two_digit found (None, 1, 1)).
  assert (Hs := foldl_set_group_year found (None, 1, 1) (or_intror Hy)).
  unfold build_date. destruct (foldl set_group (None, 1, 1) found) as [[[y|] m] dd]; simpl in *;
    [|by destruct Hs].
  case_match; intros; simplify_eq; simpl. apply Hb; [|done].
  apply Forall_forall. intros g Hgin. split.
  - intros Hd. apply HY. rewrite <- Hd. by apply list_elem_of_fmap_2.
  - by rewrite Forall_forall in Hg; apply Hg.
Qed.

(** ** Witnesses *)

Lemma strptime_valid_witness :
  strptime iso_format "2024-02-29" = Some (mkdate 2024 2 29) /\
  valid_date (mkdate 2024 2 29) = true.
Proof.
  assert (H : strptime iso_format "2024-02-29" = Some (mkdate 2024 2 29)) by (vm_compute; reflexivity).
  split; [exact H | exact (strptime_valid _ _ _ H)].
Defined.

Lemma strptime_two_digit_year_witness :
  format_of (list_ascii_of_string "%m/%d/%y") = Some [Dir_m; Lit "/"; Dir_d; Lit "/"; Dir_y] /\
  strptime [Dir_m; Lit "/"; Dir_d; Lit "/"; Dir_y] "12/31/68" = Some (mkdate 2068 12 31) /\
  1969 <= year (mkdate 2068 12 31) <= 2068.
Proof.
  assert (H : strptime [Dir_m; Lit "/"; Dir_d; Lit "/"; Dir_y] "12/31/68" = Some (mkdate 2068 12 31))
    by (vm_compute; reflexivity).
  split; [reflexivity|]. split; [exact H|].
  apply (strptime_two_digit_year [Dir_m; Lit "/"; Dir_d; Lit "/"; Dir_y] "12/31/68" (mkdate 2068 12 31));
    [vm_compute; set_solver | by right; right; right; right; left | exact H].
Defined.

End Strptime.
