(* ===== verification/Models.v ===== *)
(** * Models: the datastore of [Category] and [Task]

    [tasks/models.py] is not among the sources; its two models are
    modelled from the specification (section 3): a [Category] has an id
    and a name; a [Task] has an id, a title, a due date, a [completed]
    flag (default [False]) and a foreign key to a category.  The store
    holds each table as the list of its rows in primary-key order with
    the table's auto-increment counter (ids start at 1 and are never
    reused).  [objects.create] inserts a row with the next id without
    running any validator (Django's [Model.save] does not call
    [full_clean]); the only check the database makes is the foreign key.
    The admin also updates rows in place ([save()] of an existing row),
    deletes tasks, and deletes categories under the [on_delete] policy of
    [Task.category]: [CASCADE] deletes the tasks of the category,
    [PROTECT] refuses while tasks point to it.

    The invariant [wf_store]: the ids of each table ascend strictly and
    stay below the counter, and no task points to a missing category.
    Every operation preserves it. *)

From S2P Require Import Prelude PyStr Strptime.

Module Models.
Import Strptime.

Record Category := mkCategory { cat_id : nat; cat_name : string }.

Record Task := mkTask {
  task_id : nat;
  title : string;
  due_date : date;
  completed : bool;
  category : nat   (* the column [category_id] *)
}.

#[export] Instance category_eq_dec : EqDecision Category.
Proof. solve_decision. Defined.
#[export] Instance task_eq_dec : EqDecision Task.
Proof. solve_decision. Defined.

Record Store := mkStore {
  categories : list Category;
  tasks : list Task;
  next_category_id : nat;
  next_task_id : nat
}.

Definition empty_store : Store := mkStore [] [] 1 1.

(** The model default of [Task.completed]. *)
Definition completed_default : bool := false.

(** [Category.objects.create(name=name)]. *)
Definition Category_objects_create (name : string) (st : Store) : Store * Category :=
  let c := mkCategory (next_category_id st) name in
  (mkStore (categories st ++ [c]) (tasks st) (S (next_category_id st)) (next_task_id st), c).

(** [Category.objects.filter(pk=k).exists()]. *)
Definition category_exists (k : nat) (st : Store) : bool :=
  bool_decide (k ∈ map cat_id (categories st)).

(** The store after the INSERT of the row [t] with the next id. *)
Definition add_task_row (st : Store) (t : Task) : Store :=
  mkStore (categories st) (tasks st ++ [t]) (next_category_id st) (S (next_task_id st)).

(** [Task.objects.create(title=..., due_date=..., completed=..., category=...)]:
    [None] is the [IntegrityError] of a foreign key to a missing row. *)
Definition Task_objects_create (ttl : string) (due : date) (done : bool) (cat : nat)
    (st : Store) : option (Store * Task) :=
  if category_exists cat st then
    let t := mkTask (next_task_id st) ttl due done cat in
    Some (add_task_row st t, t)
  else None.

(** [Category.objects.get(pk=k)] for the integer [k]; [None] is
    [DoesNotExist]. *)
Definition Category_objects_get (k : Z) (st : Store) : option Category :=
  find (fun c => bool_decide (Z.of_nat (cat_id c) = k)) (categories st).

(** [Task.objects.get(pk=k)] for the integer [k]; [None] is [DoesNotExist]. *)
Definition Task_objects_get (k : Z) (st : Store) : option Task :=
  find (fun t => bool_decide (Z.of_nat (task_id t) = k)) (tasks st).

(** [obj.save()] of a task read from the table: the UPDATE of the row with
    its primary key; [None] is the [IntegrityError] of a foreign key to a
    missing category. *)
Definition Task_objects_update (t : Task) (st : Store) : option Store :=
  if category_exists (category t) st then
    Some (mkStore (categories st)
            (map (fun u => if decide (task_id u = task_id t) then t else u) (tasks st))
            (next_category_id st) (next_task_id st))
  else None.

(** [obj.delete()] of a task. *)
Definition Task_objects_delete (k : nat) (st : Store) : Store :=
  mkStore (categories st) (filter (fun t => task_id t <> k) (tasks st))
    (next_category_id st) (next_task_id st).

(** [obj.save()] of a category read from the table. *)
Definition Category_objects_update (c : Category) (st : Store) : Store :=
  mkStore (map (fun u => if decide (cat_id u = cat_id c) then c else u) (categories st))
    (tasks st) (next_category_id st) (next_task_id st).

(** The [on_delete] of [Task.category]: [models.py] is not among the
    sources.  The two policies that keep every task's category (section
    3 of the specification) are modelled; [SET_NULL], [SET_DEFAULT] and
    [DO_NOTHING] would break that invariant. *)
Inductive on_delete := CASCADE | PROTECT.

#[export] Instance on_delete_eq_dec : EqDecision on_delete.
Proof. solve_decision. Defined.

(** The tasks that point to the category [k]: the objects the deletion
    [Collector] cascades to, or the [protected] ones. *)
Definition related_tasks (k : nat) (st : Store) : list Task :=
  filter (fun t => category t = k) (tasks st).

(** [obj.delete()] of a category: [None] is the [ProtectedError] of a
    protected category that tasks still point to. *)
Definition Category_objects_delete (policy : on_delete) (k : nat) (st : Store) : option Store :=
  let cats := filter (fun c => cat_id c <> k) (categories st) in
  match policy with
  | CASCADE =>
      Some (mkStore cats (filter (fun t => category t <> k) (tasks st))
              (next_category_id st) (next_task_id st))
  | PROTECT =>
      if decide (related_tasks k st = []) then
        Some (mkStore cats (tasks st) (next_category_id st) (next_task_id st))
      else None
  end.

(** [Category.objects.filter(pk__in=pks).delete()]: Django's deletion
    [Collector] collects the whole queryset at once.  Under [PROTECT] it
    raises [ProtectedError] as soon as a task points to one of the rows;
    under [CASCADE] it collects the tasks of all of them; then it deletes
    the collected tasks and the rows in one go. *)
Definition Category_queryset_delete (policy : on_delete) (pks : list nat) (st : Store)
    : option Store :=
  let cats := filter (fun c => cat_id c ∉ pks) (categories st) in
  match policy with
  | CASCADE =>
      Some (mkStore cats (filter (fun t => category t ∉ pks) (tasks st))
              (next_category_id st) (next_task_id st))
  | PROTECT =>
      if decide (filter (fun t => category t ∈ pks) (tasks st) = []) then
        Some (mkStore cats (tasks st) (next_category_id st) (next_task_id st))
      else None
  end.

(** [Task.objects.filter(pk__in=pks).delete()]: no model points to a
    task, so the [Collector] collects the rows alone. *)
Definition Task_queryset_delete (pks : list nat) (st : Store) : Store :=
  mkStore (categories st) (filter (fun t => task_id t ∉ pks) (tasks st))
    (next_category_id st) (next_task_id st).

(** ** The store invariant *)

Definition ids_below (ids : list nat) (next : nat) : Prop :=
  Forall (fun i => 1 <= i < next) ids /\ StronglySorted lt ids.

Definition wf_store (st : Store) : Prop :=
  ids_below (map cat_id (categories st)) (next_category_id st) /\
  ids_below (map task_id (tasks st)) (next_task_id st) /\
  1 <= next_category_id st /\ 1 <= next_task_id st /\
  Forall (fun t => category t ∈ map cat_id (categories st)) (tasks st).

(** ** Lemmas *)

Lemma empty_store_wf : wf_store empty_store.
Proof. repeat split; repeat constructor. Qed.

Lemma ids_below_snoc ids next :
  ids_below ids next -> 1 <= next -> ids_below (ids ++ [next]) (S next).
Proof.
  intros [Hlt Hs] H1. split.
  - apply Forall_app. split; [|constructor; [lia | constructor]].
    eapply Forall_impl; [exact Hlt|]. simpl. lia.
  - induction ids as [|i ids IH]; simpl; [repeat constructor|].
    invc Hs. invc Hlt. constructor; [by apply IH|].
    apply Forall_app. split; [done|]. constructor; [lia|constructor].
Qed.

Lemma ids_below_NoDup ids next : ids_below ids next -> NoDup ids.
Proof.
  intros [_ Hs]. induction Hs as [|i ids Hs IH Hall]; constructor; [|done].
  intros Hin. rewrite Forall_forall in Hall. specialize (Hall i Hin). lia.
Qed.

Lemma category_exists_spec k st :
  category_exists k st = true <-> k ∈ map cat_id (categories st).
Proof. apply bool_decide_eq_true. Qed.

Lemma Category_objects_create_wf name st :
  wf_store st -> wf_store (Category_objects_create name st).1.
Proof.
  intros (Hc & Ht & H1 & H2 & Hfk). split_and!; simpl; try done; try lia.
  - by rewrite map_app; apply ids_below_snoc.
  - eapply Forall_impl; [exact Hfk|]. intros t Ht'. rewrite map_app, elem_of_app. by left.
Qed.

Lemma Task_objects_create_Some ttl due done cat st st' t :
  Task_objects_create ttl due done cat st = Some (st', t) ->
  category_exists cat st = true /\
  t = mkTask (next_task_id st) ttl due done cat /\
  st' = add_task_row st t.
Proof. unfold Task_objects_create. case_match; intros; simplify_eq; auto. Qed.

Lemma Task_objects_create_wf ttl due done cat st st' t :
  wf_store st -> Task_objects_create ttl due done cat st = Some (st', t) -> wf_store st'.
Proof.
  intros (Hc & Ht & H1 & H2 & Hfk) (Hex & -> & ->)%Task_objects_create_Some.
  apply category_exists_spec in Hex.
  split_and!; simpl; try done; try lia.
  - by rewrite map_app; apply ids_below_snoc.
  - apply Forall_app. split; [done|]. by constructor.
Qed.

(** [Category.objects.get] finds exactly the category with that id. *)
Lemma Category_objects_get_Some k st c :
  Category_objects_get k st = Some c -> c ∈ categories st /\ Z.of_nat (cat_id c) = k.
Proof.
  unfold Category_objects_get. intros Hf.
  apply find_some in Hf as [Hin Hp]. apply bool_decide_eq_true in Hp.
  split; [by apply list_elem_of_In | done].
Qed.

Lemma Category_objects_get_None k st :
  Category_objects_get k st = None <-> forall c, c ∈ categories st -> Z.of_nat (cat_id c) <> k.
Proof.
  unfold Category_objects_get. split.
  - intros Hn c Hc%list_elem_of_In Heq.
    eapply find_none in Hn; [|exact Hc]. by apply bool_decide_eq_false in Hn.
  - intros Hall. destruct (find _ _) as [c|] eqn:Hf; [|done].
    apply find_some in Hf as [Hin Hp]. apply bool_decide_eq_true in Hp.
    exfalso. apply (Hall c); [by apply list_elem_of_In | done].
Qed.

(** [Task.objects.get(pk=t.id)] finds the row of [t]'s id. *)
Lemma Task_objects_get_in t st :
  t ∈ tasks st -> exists u, Task_objects_get (Z.of_nat (task_id t)) st = Some u /\ task_id u = task_id t.
Proof.
  intros Ht. unfold Task_objects_get.
  destruct (find _ _) as [u|] eqn:Hf.
  - apply find_some in Hf as [_ Hp]. apply bool_decide_eq_true in Hp. exists u. split; [done | lia].
  - eapply find_none in Hf; [|by apply list_elem_of_In]. by apply bool_decide_eq_false in Hf.
Qed.

#[export] Hint Resolve Category_objects_create_wf Task_objects_create_wf : taskmaster.

(** ** The operations of the admin preserve the invariant *)

Lemma ids_below_filter {A} (id : A -> nat) (P : A -> Prop) `{!forall x, Decision (P x)} l next :
  ids_below (map id l) next -> ids_below (map id (filter P l)) next.
Proof.
  intros [Hb Hs]. split.
  - apply Forall_forall. intros i (x & -> & (_ & Hx)%list_elem_of_filter)%list_elem_of_fmap.
    rewrite Forall_forall in Hb. apply Hb, list_elem_of_fmap_2, Hx.
  - induction l as [|x l IH]; [constructor|]. simpl in Hb, Hs. invc Hb. invc Hs.
    rewrite filter_cons. case_decide; [|by apply IH]. simpl. constructor; [by apply IH|].
    apply Forall_forall. intros i (y & -> & (_ & Hy)%list_elem_of_filter)%list_elem_of_fmap.
    match goal with H : Forall _ (map id l) |- _ => rewrite Forall_forall in H; apply H end.
    by apply list_elem_of_fmap_2.
Qed.

(** Replacing rows by rows of the same key keeps the keys. *)
Lemma map_replace_ids {A} (id : A -> nat) (x : A) l :
  map id (map (fun u => if decide (id u = id x) then x else u) l) = map id l.
Proof. rewrite map_map. apply map_ext. intros u. by case_decide. Qed.

Lemma Task_objects_update_wf t st st' :
  wf_store st -> Task_objects_update t st = Some st' -> wf_store st'.
Proof.
  intros (Hc & Ht & H1 & H2 & Hfk). unfold Task_objects_update.
  case_match eqn:Hex; intros; simplify_eq. apply category_exists_spec in Hex.
  split_and!; simpl; try done; [by rewrite map_replace_ids|].
  apply Forall_forall. intros u (v & -> & Hv)%list_elem_of_fmap.
  case_decide; [done|]. rewrite Forall_forall in Hfk. by apply Hfk.
Qed.

Lemma Task_objects_delete_wf k st : wf_store st -> wf_store (Task_objects_delete k st).
Proof.
  intros (Hc & Ht & H1 & H2 & Hfk). split_and!; simpl; try done.
  - by apply ids_below_filter.
  - apply Forall_filter. eapply Forall_impl; [exact Hfk|]. done.
Qed.

Lemma Category_objects_update_wf c st : wf_store st -> wf_store (Category_objects_update c st).
Proof.
  intros (Hc & Ht & H1 & H2 & Hfk). split_and!; simpl; try done; [by rewrite map_replace_ids|].
  by rewrite map_replace_ids.
Qed.

(** A category that no remaining task points to can go: its removal
    leaves no task without its category. *)
Lemma category_filter_fk k cats ts :
  Forall (fun t => category t ∈ map cat_id cats) ts -> Forall (fun t => category t <> k) ts ->
  Forall (fun t => category t ∈ map cat_id (filter (fun c => cat_id c <> k) cats)) ts.
Proof.
  intros Hfk Hk. apply Forall_forall. intros t Ht.
  rewrite Forall_forall in Hfk, Hk.
  pose proof (Hfk t Ht) as (c & Hid & Hc)%list_elem_of_fmap.
  apply list_elem_of_fmap. exists c. split; [done|]. apply list_elem_of_filter.
  split; [|done]. rewrite <- Hid. by apply Hk.
Qed.

Lemma Category_objects_delete_wf policy k st st' :
  wf_store st -> Category_objects_delete policy k st = Some st' -> wf_store st'.
Proof.
  intros (Hc & Ht & H1 & H2 & Hfk) Hd. destruct policy; simpl in Hd; [|case_decide; [|done]];
    simplify_eq; split_and!; simpl; try done; try by apply ids_below_filter.
  - apply category_filter_fk.
    + apply Forall_filter. eapply Forall_impl; [exact Hfk|]. done.
    + apply Forall_filter_self.
  - apply category_filter_fk; [done|]. apply Forall_forall. intros t Ht' Hk.
    assert (Hr : t ∈ related_tasks k st) by (apply list_elem_of_filter; done).
    match goal with H : related_tasks k st = [] |- _ => rewrite H in Hr end.
    by apply elem_of_nil in Hr.
Qed.

#[export] Hint Resolve Task_objects_update_wf Task_objects_delete_wf Category_objects_update_wf
  Category_objects_delete_wf : taskmaster.

(** ** Witnesses *)

Lemma Task_objects_create_wf_witness :
  let st := (Category_objects_create "Home" empty_store).1 in
  wf_store st /\
  Task_objects_create "Buy milk" (Strptime.mkdate 2024 12 31) false 1 st =
    Some (add_task_row st (mkTask 1 "Buy milk" (Strptime.mkdate 2024 12 31) false 1),
          mkTask 1 "Buy milk" (Strptime.mkdate 2024 12 31) false 1) /\
  wf_store (add_task_row st (mkTask 1 "Buy milk" (Strptime.mkdate 2024 12 31) false 1)).
Proof.
  intros st.
  assert (Hwf : wf_store st) by (apply Category_objects_create_wf, empty_store_wf).
  assert (Hc : Task_objects_create "Buy milk" (Strptime.mkdate 2024 12 31) false 1 st =
    Some (add_task_row st (mkTask 1 "Buy milk" (Strptime.mkdate 2024 12 31) false 1),
          mkTask 1 "Buy milk" (Strptime.mkdate 2024 12 31) false 1)) by reflexivity.
  split_and!; [exact Hwf | exact Hc | exact (Task_objects_create_wf _ _ _ _ _ _ _ Hwf Hc)].
Defined.

End Models.
