(* ===== verification/QuerySet.v ===== *)
(** * QuerySet: [Task.objects.filter(completed=b).order_by('due_date')]

    A queryset is lazy: [views.py] builds it as a description, and the
    rows are read when the template iterates over it.  The description is
    the inductive [QuerySet] (the chain of calls of the source), and
    [eval] reads it against a store.  [filter(completed=b)] keeps the rows
    whose flag is [b]; [order_by('due_date')] sorts by the due date.  The
    database does not fix the order of rows with the same due date; the
    model reads the table in primary-key order and sorts stably, the
    deterministic choice the specification recommends (section 4.2).

    The theorems: both querysets of the view are sorted by due date, hold
    exactly the rows of their flag, and together partition the table.
    Nothing is proved about the order of rows with the same due date,
    which the code leaves to the database. *)

From S2P Require Import Prelude PyStr Strptime Models.

Module QuerySet.
Import Strptime Models.

Inductive QuerySet :=
| objects_all                                  (* Task.objects *)
| filter_completed (b : bool) (q : QuerySet)   (* q.filter(completed=b) *)
| order_by_due_date (q : QuerySet).            (* q.order_by('due_date') *)

(** Insertion keeping earlier rows first among equal due dates. *)
Fixpoint insert_by_due (t : Task) (ts : list Task) : list Task :=
  match ts with
  | [] => [t]
  | t' :: ts' =>
      if date_le (due_date t) (due_date t') then t :: t' :: ts'
      else t' :: insert_by_due t ts'
  end.

Fixpoint sort_by_due (ts : list Task) : list Task :=
  match ts with
  | [] => []
  | t :: ts' => insert_by_due t (sort_by_due ts')
  end.

Fixpoint eval (q : QuerySet) (st : Store) : list Task :=
  match q with
  | objects_all => tasks st
  | filter_completed b q' => filter (fun t => completed t = b) (eval q' st)
  | order_by_due_date q' => sort_by_due (eval q' st)
  end.

(** The two querysets of [index]. *)
Definition to_do_tasks_qs : QuerySet := order_by_due_date (filter_completed false objects_all).
Definition done_tasks_qs : QuerySet := order_by_due_date (filter_completed true objects_all).

(** Sorted by due date, non-decreasing. *)
Definition due_sorted : list Task -> Prop :=
  Sorted (fun t1 t2 => date_le (due_date t1) (due_date t2) = true).

(** ** Lemmas on the sort *)

Lemma insert_by_due_perm t ts : insert_by_due t ts ≡ₚ t :: ts.
Proof.
  induction ts as [|t' ts IH]; simpl; [done|].
  case_test; [done|]. rewrite IH. by constructor.
Qed.

Lemma sort_by_due_perm ts : sort_by_due ts ≡ₚ ts.
Proof.
  induction ts as [|t ts IH]; simpl; [done|].
  by rewrite insert_by_due_perm, IH.
Qed.

Lemma insert_by_due_sorted t ts : due_sorted ts -> due_sorted (insert_by_due t ts).
Proof.
  unfold due_sorted. induction 1 as [|t' ts Hs IH Hhd]; simpl; [repeat constructor|].
  destruct (date_le (due_date t) (due_date t')) eqn:E.
  - by repeat constructor.
  - constructor; [done|]. apply date_le_total in E.
    destruct ts as [|t'' ts]; simpl in *; [by repeat constructor|].
    invc Hhd. destruct (date_le (due_date t) (due_date t'')); by constructor.
Qed.

Lemma sort_by_due_sorted ts : due_sorted (sort_by_due ts).
Proof.
  induction ts as [|t ts IH]; simpl; [constructor|]. by apply insert_by_due_sorted.
Qed.

(** Stability: among the rows of one due date the sort keeps the input
    order.  [insert_by_due] only moves [t] past rows strictly earlier. *)
Lemma insert_by_due_same_date d t ts :
  filter (fun u => due_date u = d) (insert_by_due t ts) =
  filter (fun u => due_date u = d) (t :: ts).
Proof.
  induction ts as [|t' ts IH]; simpl; [done|].
  destruct (date_le (due_date t) (due_date t')) eqn:E; [done|].
  rewrite filter_cons, IH, !filter_cons.
  destruct (decide (due_date t' = d)) as [H1|], (decide (due_date t = d)) as [H2|]; try done.
  rewrite H2, <- H1, date_le_refl in E. done.

Qed.

Lemma sort_by_due_same_date d ts :
  filter (fun u => due_date u = d) (sort_by_due ts) = filter (fun u => due_date u = d) ts.
Proof.
  induction ts as [|t ts IH]; simpl; [done|].
  by rewrite insert_by_due_same_date, !filter_cons, IH.
Qed.

(** ** The querysets of the view *)

Lemma eval_filter_order b st :
  eval (order_by_due_date (filter_completed b objects_all)) st =
  sort_by_due (filter (fun t => completed t = b) (tasks st)).
Proof. reflexivity. Qed.

Lemma eval_filter_order_elem b st t :
  t ∈ eval (order_by_due_date (filter_completed b objects_all)) st <->
  t ∈ tasks st /\ completed t = b.
Proof. rewrite eval_filter_order, sort_by_due_perm, list_elem_of_filter. tauto. Qed.

Lemma eval_filter_order_sorted' b st :
  due_sorted (eval (order_by_due_date (filter_completed b objects_all)) st).
Proof. apply sort_by_due_sorted. Qed.

(** [C5] [Task.objects.filter(completed=b).order_by('due_date')] lists its
    rows by non-decreasing due date. *)
Lemma eval_filter_order_sorted b st :
  due_sorted (eval (order_by_due_date (filter_completed b objects_all)) st).
Proof. exact (@eval_filter_order_sorted' b st). Qed.

Lemma eval_filter_order_flag b st :
  Forall (fun t => completed t = b) (eval (order_by_due_date (filter_completed b objects_all)) st).
Proof. apply Forall_forall. intros t Ht. by apply eval_filter_order_elem in Ht as [_ ?]. Qed.

Lemma view_querysets_partition' st :
  eval to_do_tasks_qs st ++ eval done_tasks_qs st ≡ₚ tasks st.
Proof.
  unfold to_do_tasks_qs, done_tasks_qs. rewrite !eval_filter_order, !sort_by_due_perm.
  apply filter_bool_partition.
Qed.

(** [C4] The to-do and done lists together are the task table, each task
    once. *)
Lemma view_querysets_partition st :
  eval to_do_tasks_qs st ++ eval done_tasks_qs st ≡ₚ tasks st.
Proof. exact (@view_querysets_partition' st). Qed.

End QuerySet.
