(* ===== verification/Fields.v ===== *)
(** * Fields: the form fields of [TaskForm] and how each cleans its value

    [TaskForm.Meta.fields = ['title', 'due_date', 'category']] makes
    Django generate one form field per model field: a [CharField] with
    the model's [max_length=100] for [title], a [DateField] for
    [due_date] and a [ModelChoiceField] over [Category.objects.all()] for
    the foreign key [category]; all three are required (the model fields
    are not [blank=True]).  [Field.clean] runs [to_python], then
    [validate] (the [required] check), then the validators; the first
    [ValidationError] becomes the field's error.

    - [CharField]: [None] and [''] become [''], other values are
      [str.strip]ped; an empty result is [required]; a result longer than
      [max_length] is [max_length].
    - [DateField]: [None] and [''] are [required]; other values are
      stripped and parsed with the input formats; no format is [invalid].
    - [ModelChoiceField]: [None] and [''] are [required]; other values
      go through [int()] and [Category.objects.get(pk=...)]; a
      [ValueError] or a missing row is [invalid_choice].

    The raw value is what the widget reads from the POST data:
    [data.get(name)] for the [TextInput], [DateInput] and [Select]
    widgets alike.

    The theorems: the success and error cases of each field; [DateField]
    reads back [date.isoformat()], and also every date written month
    first as [%m/%d/%Y], a format of the [en] locale. *)

From S2P Require Import Prelude PyStr Strptime Models.

Module Fields.
Import PyStr Strptime Models.

(** The error codes Django attaches to the field errors. *)
Inductive field_error :=
| Required                                       (* 'required' *)
| Max_length (limit_value show_value : nat)      (* 'max_length' *)
| Invalid                                        (* 'invalid' *)
| Invalid_choice.                                (* 'invalid_choice' *)

#[export] Instance field_error_eq_dec : EqDecision field_error.
Proof. solve_decision. Defined.

(** The messages Django renders next to the field. *)
Definition message (e : field_error) : string :=
  match e with
  | Required => "This field is required."
  | Max_length l n =>
      "Ensure this value has at most " ++ str_nat l ++ " characters (it has " ++ str_nat n ++ ")."
  | Invalid => "Enter a valid date."
  | Invalid_choice => "Select a valid choice. That choice is not one of the available choices."
  end.

(** The form fields generated from the model fields. *)
Inductive Field :=
| CharField (max_length : nat)
| DateField
| BooleanField        (* required=False: the model field has a default *)
| ModelChoiceField.   (* queryset = Category.objects.all() *)

(** The value a field cleans to, keyed by field name in [cleaned_data]. *)
Inductive field_value :=
| V_str (s : string)
| V_date (d : date)
| V_bool (b : bool)
| V_category (c : Category).

Definition TITLE_MAX_LENGTH : nat := 100.

(** [CharField(max_length=m, strip=True, required=True).clean(raw)]. *)
Definition clean_char (max_length : nat) (raw : option string) : result string field_error :=
  let v := match raw with None => EmptyString | Some s => strip s end in
  if String.eqb v EmptyString then Err Required
  else if max_length <? len v then Err (Max_length max_length (len v))
  else Ok v.

(** [DateField(required=True).clean(raw)]. *)
Definition clean_date (raw : option string) : result date field_error :=
  match raw with
  | None => Err Required
  | Some s =>
      if String.eqb s EmptyString then Err Required
      else match try_formats DATE_INPUT_FORMATS (strip s) with
           | Some d => Ok d
           | None => Err Invalid
           end
  end.

(** [BooleanField(required=False).clean(raw)]: the strings ['false'] (in
    any case) and ['0'] and the empty string are [False]. *)
Definition clean_bool (raw : option string) : result bool field_error :=
  match raw with
  | None => Ok false
  | Some s => Ok (negb (String.eqb (lower s) "false" || String.eqb s "0" || String.eqb s ""))
  end.

(** [ModelChoiceField(queryset=Category.objects.all()).clean(raw)], the
    lookup reading the store. *)
Definition clean_model_choice (st : Store) (raw : option string) : result Category field_error :=
  match raw with
  | None => Err Required
  | Some s =>
      if String.eqb s EmptyString then Err Required
      else match int_of_string s ≫= fun k => Category_objects_get k st with
           | Some c => Ok c
           | None => Err Invalid_choice
           end
  end.

Definition clean_field (f : Field) (st : Store) (raw : option string) : result field_value field_error :=
  match f with
  | CharField m => result_map V_str (clean_char m raw)
  | DateField => result_map V_date (clean_date raw)
  | BooleanField => result_map V_bool (clean_bool raw)
  | ModelChoiceField => result_map V_category (clean_model_choice st raw)
  end.

(** ** Lemmas on the cleaning of each field *)

Lemma string_eqb_empty s : String.eqb s EmptyString = true <-> s = EmptyString.
Proof. apply String.eqb_eq. Qed.

(** The raw value a [CharField] validates: [None] reads as the empty string. *)
Definition char_value (raw : option string) : string :=
  match raw with None => EmptyString | Some s => strip s end.

Lemma clean_char_unfold m raw :
  clean_char m raw =
  if String.eqb (char_value raw) EmptyString then Err Required
  else if m <? len (char_value raw) then Err (Max_length m (len (char_value raw)))
  else Ok (char_value raw).
Proof. reflexivity. Qed.

(** [CharField.clean] accepts exactly the values whose stripped form is
    non-empty and at most [max_length] long, and returns that form. *)
Lemma clean_char_spec m raw v :
  clean_char m raw = Ok v <->
  v = char_value raw /\ v <> EmptyString /\ len v <= m.
Proof.
  rewrite clean_char_unfold.
  destruct (String.eqb_spec (char_value raw) EmptyString) as [He|Hne].
  - split; [done|]. intros (-> & ? & _). done.
  - destruct (Nat.ltb_spec m (len (char_value raw))); split; intros; simplify_eq; naive_solver lia.
Qed.


(** The errors of [CharField.clean]: [required] for a blank value,
    [max_length] for a long one. *)
Lemma clean_char_Err m raw e :
  clean_char m raw = Err e <->
  (char_value raw = EmptyString /\ e = Required) \/
  (char_value raw <> EmptyString /\ m < len (char_value raw) /\
   e = Max_length m (len (char_value raw))).
Proof.
  rewrite clean_char_unfold.
  destruct (String.eqb_spec (char_value raw) EmptyString); [naive_solver|].
  destruct (Nat.ltb_spec m (len (char_value raw))); split; intros; simplify_eq; naive_solver lia.
Qed.

(** A cleaned title has no surrounding whitespace. *)
Lemma clean_char_stripped m raw v : clean_char m raw = Ok v -> strip v = v.
Proof.
  intros (-> & _ & _)%clean_char_spec. destruct raw; simpl; [apply strip_idempotent | done].
Qed.

(** [DateField.clean] returns valid dates only. *)
Lemma clean_date_valid raw d : clean_date raw = Ok d -> valid_date d = true.
Proof.
  unfold clean_date. repeat case_match; intros; simplify_eq; eauto using try_formats_valid.
Qed.

Lemma clean_date_isoformat' d : valid_date d = true -> clean_date (Some (isoformat d)) = Ok d.
Proof.
  intros Hv. unfold clean_date.
  rewrite (strip_nonspace _ (isoformat_nonspace d Hv)).
  destruct (String.eqb_spec (isoformat d) EmptyString) as [He|_];
    [by apply isoformat_nonempty in He|].
  unfold DATE_INPUT_FORMATS.
  by rewrite (try_formats_cons_Some _ _ _ _ _ format_of_iso (strptime_isoformat d Hv)).
Qed.

(** [C27] [DateField.clean] reads back [date.isoformat()]: the value a
    [DateInput] of type [date] submits. *)
Lemma clean_date_isoformat d : valid_date d = true -> clean_date (Some (isoformat d)) = Ok d.
Proof. exact (@clean_date_isoformat' d). Qed.

(** [ModelChoiceField.clean] returns a row of the category table. *)
Lemma clean_model_choice_in st raw c :
  clean_model_choice st raw = Ok c -> c ∈ categories st.
Proof.
  unfold clean_model_choice. repeat case_match; intros; simplify_eq.
  match goal with H : _ ≫= _ = Some _ |- _ => apply bind_Some in H as (k & _ & Hg) end.
  by apply Category_objects_get_Some in Hg as [? _].
Qed.

(** The decimal id of an existing category cleans to that category. *)
Lemma clean_model_choice_str_nat st k :
  k ∈ map cat_id (categories st) ->
  exists c, clean_model_choice st (Some (str_nat k)) = Ok c /\ cat_id c = k.
Proof.
  intros Hk. unfold clean_model_choice.
  destruct (String.eqb_spec (str_nat k) EmptyString) as [He|_]; [by apply str_nat_nonempty in He|].
  rewrite int_of_string_str_nat. simpl.
  destruct (Category_objects_get (Z.of_nat k) st) as [c|] eqn:Hg.
  - apply Category_objects_get_Some in Hg as [_ Hid]. exists c. split; [done | lia].
  - apply list_elem_of_fmap in Hk as (c & -> & Hc).
    by destruct (proj1 (Category_objects_get_None _ _) Hg c Hc).
Qed.

(** [ModelChoiceField] reads the category table only. *)
Lemma clean_model_choice_categories st1 st2 raw :
  categories st1 = categories st2 -> clean_model_choice st1 raw = clean_model_choice st2 raw.
Proof. intros Hc. unfold clean_model_choice, Category_objects_get. by rewrite Hc. Qed.

(** A stripped, non-empty title of at most [max_length] characters
    cleans to itself. *)
Lemma clean_char_id m s :
  s <> EmptyString -> len s <= m -> strip s = s -> clean_char m (Some s) = Ok s.
Proof. intros Hne Hle Hs. apply clean_char_spec. simpl. by rewrite Hs. Qed.
(** [C28] [DateField.clean] also reads back every valid date written month
    first, [MM/DD/YYYY]: the first input format [%Y-%m-%d] rejects it
    and the second, [%m/%d/%Y], reads month, day and year in that order,
    so such a value is never taken day first. *)
Theorem clean_date_us_format d : valid_date d = true -> clean_date (Some (us_format d)) = Ok d.
Proof.
  intros Hv. unfold clean_date.
  rewrite (strip_nonspace _ (us_format_nonspace d Hv)).
  destruct (String.eqb_spec (us_format d) EmptyString) as [He|_];
    [by apply us_format_nonempty in He|].
  unfold DATE_INPUT_FORMATS.
  rewrite (try_formats_cons_None _ _ _ _ format_of_iso (strptime_iso_us_format d)).
  by rewrite (try_formats_cons_Some _ _ _ _ _ format_of_mdY (strptime_us_format d Hv)).
Qed.

(** ** Witnesses *)

Lemma clean_date_isoformat_witness :
  valid_date (mkdate 2024 2 29) = true /\
  isoformat (mkdate 2024 2 29) = "2024-02-29" /\
  clean_date (Some (isoformat (mkdate 2024 2 29))) = Ok (mkdate 2024 2 29).
Proof.
  assert (Hv : valid_date (mkdate 2024 2 29) = true) by reflexivity.
  split_and!; [exact Hv | reflexivity | exact (clean_date_isoformat _ Hv)].
Defined.
Lemma clean_model_choice_in_witness :
  let st := (Category_objects_create "Home" empty_store).1 in
  clean_model_choice st (Some " 1 ") = Ok (mkCategory 1 "Home") /\
  mkCategory 1 "Home" ∈ categories st.
Proof.
  intros st.
  assert (H : clean_model_choice st (Some " 1 ") = Ok (mkCategory 1 "Home")) by (vm_compute; reflexivity).
  split; [exact H | exact (clean_model_choice_in _ _ _ H)].
Defined.

Lemma clean_date_us_format_witness :
  valid_date (mkdate 2024 3 4) = true /\
  us_format (mkdate 2024 3 4) = "03/04/2024" /\
  clean_date (Some (us_format (mkdate 2024 3 4))) = Ok (mkdate 2024 3 4).
Proof.
  assert (Hv : valid_date (mkdate 2024 3 4) = true) by reflexivity.
  split; [exact Hv|]. split; [reflexivity | exact (clean_date_us_format _ Hv)].
Defined.

End Fields.
