(* ===== verification/Forms.v ===== *)
(** * Forms: [TaskForm] ([src/tasks/forms.py])

    A [ModelForm] is bound to a [QueryDict] ([TaskForm(request.POST)]) or
    unbound ([TaskForm()]).  [full_clean] runs [_clean_fields]: for every
    form field in order, the widget reads the raw value from the data, the
    field cleans it, and the value goes to [cleaned_data] or the error to
    [errors] under the field's name.  Every field is cleaned whatever the
    others give: the errors of all invalid fields are collected.
    [_post_clean] then runs the model's own validation on the fields of
    the form that are still valid: for [Task] these are the same checks
    (the length of the title, the existence of the category), so it adds
    no error and is not modelled separately.  [is_valid] is
    [is_bound and not errors]; [save] builds the instance from
    [cleaned_data] ([construct_instance]: the model fields that are not in
    the form keep their defaults) and inserts it.

    [fields_for_model] generates the form fields from the model fields
    named in [Meta.fields], with the widget [Meta.widgets] gives, or the
    default one.  The model fields of [Task] and their form fields are
    spec-modelled: [models.py] is not among the sources. *)

From S2P Require Import Prelude PyStr Strptime Models Fields.

Module Forms.
Import PyStr Strptime Models Fields.

(** ** Widgets *)

Inductive Widget :=
| TextInput
| DateInput (attrs : list (string * string))
| Select
| CheckboxInput.

(** [widget.value_from_datadict(data, files, name)]: the text widgets and
    [Select] return [data.get(name)]; [CheckboxInput] returns [False] for
    an absent key, and otherwise the boolean of the value, with the
    strings ['true'] and ['false'] read case-insensitively. *)
Definition value_from_datadict (w : Widget) (data : list (string * string)) (name : string)
    : option string :=
  match w with
  | CheckboxInput =>
      match data @? name with
      | None => Some "False"
      | Some v =>
          if String.eqb (lower v) "false" || String.eqb v "" then Some "False" else Some "True"
      end
  | _ => data @? name
  end.

(** ** The model fields of [Task] and their default form fields *)

Inductive ModelField :=
| Model_CharField (max_length : nat)
| Model_DateField
| Model_BooleanField (default : bool)
| Model_ForeignKey.

(** [Task]'s fields as the specification lists them (section 3). *)
Definition Task_model_fields : list (string * ModelField) :=
  [("title", Model_CharField TITLE_MAX_LENGTH); ("due_date", Model_DateField);
   ("completed", Model_BooleanField completed_default); ("category", Model_ForeignKey)].

(** [model_field.formfield()]: the form field and its default widget. *)
Definition formfield (mf : ModelField) : Field * Widget :=
  match mf with
  | Model_CharField m => (CharField m, TextInput)
  | Model_DateField => (DateField, DateInput [])
  | Model_BooleanField _ => (BooleanField, CheckboxInput)
  | Model_ForeignKey => (ModelChoiceField, Select)
  end.

Record FormField := mkFormField { ff_name : string; ff_field : Field; ff_widget : Widget }.

(** [fields_for_model(model, fields, widgets)]: the named model fields in
    the order of [fields], each with the widget of [widgets] if given. *)
Definition fields_for_model (model : list (string * ModelField)) (fields : list string)
    (widgets : list (string * Widget)) : list FormField :=
  omap (fun name =>
          (fun mf => let '(f, w) := formfield mf in
                     mkFormField name f (default w (widgets @? name))) <$> model @? name)
       fields.

(** ** [TaskForm] *)

(** [class Meta: model = Task; fields = ['title', 'due_date', 'category'];
    widgets = {'due_date': forms.DateInput(attrs={'type': 'date'})}]. *)
Definition TaskForm_Meta_fields : list string := ["title"; "due_date"; "category"].

Definition TaskForm_Meta_widgets : list (string * Widget) :=
  [("due_date", DateInput [("type", "date")])].

Definition TaskForm_fields : list FormField :=
  fields_for_model Task_model_fields TaskForm_Meta_fields TaskForm_Meta_widgets.

(** [form.fields[name]]. *)
Definition list_find_name (name : string) (ffs : list FormField) : option FormField :=
  find (fun ff => String.eqb (ff_name ff) name) ffs.

(** A form instance: the data it is bound to, if any. *)
Record Form := mkForm { form_fields : list FormField; form_data : option (list (string * string)) }.

Definition TaskForm_bound (data : list (string * string)) : Form := mkForm TaskForm_fields (Some data).
Definition TaskForm_unbound : Form := mkForm TaskForm_fields None.

(** ** Validation *)

Definition cleaned_data := list (string * field_value).
Definition form_errors := list (string * field_error).

(** [_clean_fields]: every field is cleaned; values and errors are kept
    in field order. *)
Fixpoint clean_fields (ffs : list FormField) (st : Store) (data : list (string * string))
    : cleaned_data * form_errors :=
  match ffs with
  | [] => ([], [])
  | ff :: ffs' =>
      let '(cd, errs) := clean_fields ffs' st data in
      match clean_field (ff_field ff) st (value_from_datadict (ff_widget ff) data (ff_name ff)) with
      | Ok v => ((ff_name ff, v) :: cd, errs)
      | Err e => (cd, (ff_name ff, e) :: errs)
      end
  end.

(** [form.errors] (empty for an unbound form) and [form.is_valid()]. *)
Definition errors (st : Store) (f : Form) : form_errors :=
  match form_data f with
  | None => []
  | Some data => (clean_fields (form_fields f) st data).2
  end.

Definition is_valid (st : Store) (f : Form) : bool :=
  match form_data f with
  | None => false
  | Some _ => bool_decide (errors st f = [])
  end.

(** [construct_instance]: the values of the model fields from
    [cleaned_data]; a field absent from it keeps the model default
    ([completed] defaults to [False]; the others have no default and are
    required). *)
Definition construct_instance (cd : cleaned_data) : option (string * date * bool * nat) :=
  match cd @? "title", cd @? "due_date", cd @? "category" with
  | Some (V_str t), Some (V_date d), Some (V_category c) =>
      let done := match cd @? "completed" with Some (V_bool b) => b | _ => completed_default end in
      Some (t, d, done, cat_id c)
  | _, _, _ => None
  end.

(** [form.save()]: [None] when the form is not valid (Django raises
    [ValueError]) or the row cannot be inserted. *)
Definition save (st : Store) (f : Form) : option (Store * Task) :=
  match form_data f with
  | Some data =>
      if is_valid st f then
        construct_instance (clean_fields (form_fields f) st data).1 ≫=
          fun '(t, d, done, c) => Task_objects_create t d done c st
      else None
  | None => None
  end.

(** ** The fields of [TaskForm] *)

Lemma TaskForm_fields_eq :
  TaskForm_fields =
  [mkFormField "title" (CharField TITLE_MAX_LENGTH) TextInput;
   mkFormField "due_date" DateField (DateInput [("type", "date")]);
   mkFormField "category" ModelChoiceField Select].
Proof. reflexivity. Qed.

(** What one field contributes to [cleaned_data] and [errors]. *)
Definition field_outcome {A} (name : string) (inj : A -> field_value) (r : result A field_error)
    : cleaned_data * form_errors :=
  match r with
  | Ok v => ([(name, inj v)], [])
  | Err e => ([], [(name, e)])
  end.

Definition merge_outcomes (p q : cleaned_data * form_errors) : cleaned_data * form_errors :=
  (p.1 ++ q.1, p.2 ++ q.2).

(** [_clean_fields] on [TaskForm]: each field is cleaned on its own. *)
Lemma clean_fields_TaskForm st data :
  clean_fields TaskForm_fields st data =
  merge_outcomes (field_outcome "title" V_str (clean_char TITLE_MAX_LENGTH (data @? "title")))
    (merge_outcomes (field_outcome "due_date" V_date (clean_date (data @? "due_date")))
       (field_outcome "category" V_category (clean_model_choice st (data @? "category")))).
Proof.
  rewrite TaskForm_fields_eq. cbn [clean_fields ff_field ff_widget ff_name value_from_datadict].
  unfold clean_field.
  destruct (clean_char _ _), (clean_date _), (clean_model_choice _ _); reflexivity.
Qed.

Definition field_errors {A} (name : string) (r : result A field_error) : form_errors :=
  match r with Ok _ => [] | Err e => [(name, e)] end.

Lemma TaskForm_errors' st data :
  errors st (TaskForm_bound data) =
  field_errors "title" (clean_char TITLE_MAX_LENGTH (data @? "title")) ++
  field_errors "due_date" (clean_date (data @? "due_date")) ++
  field_errors "category" (clean_model_choice st (data @? "category")).
Proof.
  unfold errors, TaskForm_bound. cbn [form_data form_fields]. rewrite clean_fields_TaskForm.
  destruct (clean_char _ _), (clean_date _), (clean_model_choice _ _); reflexivity.
Qed.

(** [C8] The errors of a bound [TaskForm] are the errors of its three
    fields, in the order of [Meta.fields], each field contributing at most
    one: [title] checked by the [CharField], [due_date] by the [DateField],
    [category] by the [ModelChoiceField]; the [completed] key is ignored. *)
Lemma TaskForm_errors st data :
  errors st (TaskForm_bound data) =
  field_errors "title" (clean_char TITLE_MAX_LENGTH (data @? "title")) ++
  field_errors "due_date" (clean_date (data @? "due_date")) ++
  field_errors "category" (clean_model_choice st (data @? "category")).
Proof. exact (@TaskForm_errors' st data). Qed.

Lemma TaskForm_is_valid st data :
  is_valid st (TaskForm_bound data) = true <->
  is_ok (clean_char TITLE_MAX_LENGTH (data @? "title")) = true /\
  is_ok (clean_date (data @? "due_date")) = true /\
  is_ok (clean_model_choice st (data @? "category")) = true.
Proof.
  unfold is_valid at 1, TaskForm_bound at 1. cbn [form_data].
  rewrite bool_decide_eq_true, TaskForm_errors'.
  destruct (clean_char _ _), (clean_date _), (clean_model_choice _ _); simpl; naive_solver.
Qed.

Lemma TaskForm_save' st data st' t :
  save st (TaskForm_bound data) = Some (st', t) <->
  exists ttl d c,
    clean_char TITLE_MAX_LENGTH (data @? "title") = Ok ttl /\
    clean_date (data @? "due_date") = Ok d /\
    clean_model_choice st (data @? "category") = Ok c /\
    t = mkTask (next_task_id st) ttl d completed_default (cat_id c) /\
    st' = add_task_row st t.
Proof.
  pose proof (TaskForm_is_valid st data) as Hv.
  unfold save, TaskForm_bound at 1. cbn [form_data form_fields].
  rewrite clean_fields_TaskForm.
  destruct (clean_char _ _) as [ttl|], (clean_date _) as [d|], (clean_model_choice st _) as [c|] eqn:Hc;
    simpl in *; try (destruct (is_valid _ _); [naive_solver | naive_solver]).
  rewrite (proj2 Hv) by done. unfold construct_instance. simpl.
  unfold Task_objects_create.
  rewrite (proj2 (category_exists_spec _ _)) by (apply list_elem_of_fmap_2, (clean_model_choice_in st _ _ Hc)).
  naive_solver.
Qed.

(** [C9] [form.save()] on a bound [TaskForm]: it succeeds exactly when the
    three fields clean, and inserts the task built from their cleaned
    values with [completed] at its model default. *)
Lemma TaskForm_save st data st' t :
  save st (TaskForm_bound data) = Some (st', t) <->
  exists ttl d c,
    clean_char TITLE_MAX_LENGTH (data @? "title") = Ok ttl /\
    clean_date (data @? "due_date") = Ok d /\
    clean_model_choice st (data @? "category") = Ok c /\
    t = mkTask (next_task_id st) ttl d completed_default (cat_id c) /\
    st' = add_task_row st t.
Proof. exact (@TaskForm_save' st data st' t). Qed.

(** A valid [TaskForm] always saves. *)
Lemma TaskForm_save_valid st data :
  is_valid st (TaskForm_bound data) = true ->
  exists t, save st (TaskForm_bound data) = Some (add_task_row st t, t) /\
    task_id t = next_task_id st /\ category t ∈ map cat_id (categories st).
Proof.
  intros Hv. apply TaskForm_is_valid in Hv as (H1 & H2 & H3).
  destruct (clean_char _ _) as [ttl|] eqn:E1, (clean_date _) as [d|] eqn:E2,
    (clean_model_choice _ _) as [c|] eqn:E3; try done.
  exists (mkTask (next_task_id st) ttl d completed_default (cat_id c)).
  split_and!; [apply TaskForm_save'; naive_solver | done |].
  simpl. apply list_elem_of_fmap_2. by eapply clean_model_choice_in.
Qed.

(** A task as [TaskForm] cleans it: a non-empty stripped title of at
    most 100 characters, a valid date, and [completed] at its default. *)
Definition cleaned_task (t : Task) : Prop :=
  title t <> EmptyString /\ len (title t) <= TITLE_MAX_LENGTH /\ strip (title t) = title t /\
  valid_date (due_date t) = true /\ completed t = false.

Lemma TaskForm_save_cleaned st data st' t :
  save st (TaskForm_bound data) = Some (st', t) -> cleaned_task t.
Proof.
  intros (ttl & d & c & Ht & Hd & Hc & -> & _)%TaskForm_save'.
  pose proof (clean_char_stripped _ _ _ Ht). apply clean_char_spec in Ht as (_ & ? & ?).
  apply clean_date_valid in Hd. by split_and!.
Qed.

(** The outcome of a bound [TaskForm] depends on the POST data only
    through the values of its three fields. *)
Lemma TaskForm_same_fields st data1 data2 :
  data1 @? "title" = data2 @? "title" ->
  data1 @? "due_date" = data2 @? "due_date" ->
  data1 @? "category" = data2 @? "category" ->
  clean_fields TaskForm_fields st data1 = clean_fields TaskForm_fields st data2.
Proof. intros H1 H2 H3. by rewrite !clean_fields_TaskForm, H1, H2, H3. Qed.

(** ** The interface a view relies on *)

(** What the view does with a model form: bind it to the POST data or
    leave it unbound, ask whether it is valid, read its errors, save it. *)
Class ModelFormOps (F : Type) := {
  mf_bound : list (string * string) -> F;
  mf_unbound : F;
  mf_is_valid : Store -> F -> bool;
  mf_errors : Store -> F -> form_errors;
  mf_save : Store -> F -> option (Store * Task)
}.

(** What the view's theorems need of it. *)
Class ModelFormLaws (F : Type) `{!ModelFormOps F} : Prop := {
  mf_unbound_invalid st : mf_is_valid st mf_unbound = false;
  mf_unbound_no_errors st : mf_errors st mf_unbound = [];
  mf_invalid_errors st data :
    mf_is_valid st (mf_bound data) = false -> mf_errors st (mf_bound data) <> [];
  mf_save_valid st f :
    mf_is_valid st f = true ->
    exists t, mf_save st f = Some (add_task_row st t, t) /\
      task_id t = next_task_id st /\ category t ∈ map cat_id (categories st)
}.

(** A [TaskForm] object: the data it is bound to, if any; its fields are
    [TaskForm_fields]. *)
Record TaskForm := mkTaskForm { taskform_data : option (list (string * string)) }.

Definition as_form (tf : TaskForm) : Form := mkForm TaskForm_fields (taskform_data tf).

#[export] Instance TaskForm_ops : ModelFormOps TaskForm := {|
  mf_bound data := mkTaskForm (Some data);
  mf_unbound := mkTaskForm None;
  mf_is_valid st tf := is_valid st (as_form tf);
  mf_errors st tf := errors st (as_form tf);
  mf_save st tf := save st (as_form tf)
|}.

#[export] Instance TaskForm_laws : ModelFormLaws TaskForm.
Proof.
  split.
  - done.
  - done.
  - intros st data Hv. simpl in *. unfold is_valid in Hv. simpl in Hv.
    by apply bool_decide_eq_false in Hv.
  - intros st [[data|]] Hv; [|done]. by apply (TaskForm_save_valid st data).
Qed.

End Forms.
