(* ===== verification/Views.v ===== *)
(** * Views: the [index] view ([src/tasks/views.py])

    [index(request)] builds the two lazy querysets of to-do and done
    tasks; on a POST it binds a [TaskForm] to [request.POST] and, when the
    form is valid, saves it and answers with a redirect to [tasks:index];
    on any other method it makes an unbound form.  A POST whose form is
    not valid falls through to the render of [tasks/index.html] with the
    bound form and its errors.  The querysets are read when the template
    renders, i.e. against the store as it is after the request.

    The view is written against the [ModelForm] interface of [Forms] (a
    Section over any form type with its laws), and [index] is its
    instance at [TaskForm].  A request cycle is the step of a relation on
    stores (together with the creation of a category, which the admin
    does); reachable stores are those the empty store steps to.

    The theorems: the three branches of the view (redirect and exactly one
    new row; render with the bound form and no change; render with an
    unbound form and no change); the title rule (the limit applies to the
    stripped title); a category no row has is rejected; the view refines
    the service contract of the specification (sections 4.2 and 6); every
    task of a reachable store was cleaned by the form (a non-empty
    stripped title of at most 100 characters, a valid date,
    [completed = False]), so the done list of the page alone stays
    empty. *)

From S2P Require Import Prelude PyStr Strptime Models QuerySet Fields Forms.

Module Views.
Import PyStr Strptime Models QuerySet Fields Forms.

(** An HTTP request: its method and its parsed POST body. *)
Record Request := mkRequest { method : string; POST : list (string * string) }.

(** The template context [{'to_do_tasks': ..., 'done_tasks': ..., 'form': ...}]. *)
Record Context (F : Type) := mkContext {
  to_do_tasks : QuerySet;
  done_tasks : QuerySet;
  form : F
}.
Arguments mkContext {F}.
Arguments to_do_tasks {F}.
Arguments done_tasks {F}.
Arguments form {F}.

Inductive Response (F : Type) :=
| HttpResponseRedirect (url_name : string)             (* redirect('tasks:index') *)
| Render (template_name : string) (context : Context F) (* render(request, ...) *)
| HttpResponseServerError.                             (* an exception escaped *)
Arguments HttpResponseRedirect {F}.
Arguments Render {F}.
Arguments HttpResponseServerError {F}.

Definition status_code {F} (r : Response F) : nat :=
  match r with
  | HttpResponseRedirect _ => 302
  | Render _ _ => 200
  | HttpResponseServerError => 500
  end.

Section View.
Context {F : Type} `{ModelFormLaws F}.

(** [def index(request)]. *)
Definition index_view (st : Store) (request : Request) : Store * Response F :=
  let to_do_tasks := to_do_tasks_qs in
  let done_tasks := done_tasks_qs in
  if String.eqb (method request) "POST" then
    let form := mf_bound (POST request) in
    if mf_is_valid st form then
      match mf_save st form with
      | Some (st', _) => (st', HttpResponseRedirect "tasks:index")
      | None => (st, HttpResponseServerError)
      end
    else (st, Render "tasks/index.html" (mkContext to_do_tasks done_tasks form))
  else
    let form := mf_unbound in
    (st, Render "tasks/index.html" (mkContext to_do_tasks done_tasks form)).

(** *** The three branches of the view *)

Lemma index_view_post_valid st request :
  method request = "POST" ->
  mf_is_valid st (mf_bound (POST request)) = true ->
  exists t,
    index_view st request = (add_task_row st t, HttpResponseRedirect "tasks:index") /\
    task_id t = next_task_id st /\ category t ∈ map cat_id (categories st).
Proof.
  intros Hm Hv. destruct (mf_save_valid st _ Hv) as (t & Hs & Hid & Hc).
  exists t. unfold index_view. rewrite Hm, Hv, Hs. done.
Qed.

Lemma index_view_post_invalid st request :
  method request = "POST" ->
  mf_is_valid st (mf_bound (POST request)) = false ->
  index_view st request =
    (st, Render "tasks/index.html" (mkContext to_do_tasks_qs done_tasks_qs (mf_bound (POST request)))) /\
  mf_errors st (mf_bound (POST request)) <> [].
Proof.
  intros Hm Hv. split; [unfold index_view; by rewrite Hm, Hv | by apply mf_invalid_errors].
Qed.

(** Every method other than POST (GET, HEAD, PUT, DELETE, ...) is
    served like a GET: the store is unchanged and the page is rendered
    with an unbound form. *)
Lemma index_view_not_post st request :
  method request <> "POST" ->
  index_view st request =
    (st, Render "tasks/index.html" (mkContext to_do_tasks_qs done_tasks_qs mf_unbound)).
Proof.
  intros Hm. unfold index_view. by destruct (String.eqb_spec (method request) "POST").
Qed.


(** The store after a request: unchanged, or one row more. *)
Lemma index_view_store st request :
  (index_view st request).1 = st \/
  exists t, (index_view st request).1 = add_task_row st t /\
    task_id t = next_task_id st /\ category t ∈ map cat_id (categories st) /\
    mf_save st (mf_bound (POST request)) = Some (add_task_row st t, t).
Proof.
  destruct (String.eqb_spec (method request) "POST") as [Hm|Hm];
    [|left; by rewrite index_view_not_post].
  destruct (mf_is_valid st (mf_bound (POST request))) eqn:Hv.
  - right. destruct (mf_save_valid st _ Hv) as (t & Hs & Hid & Hc).
    exists t. unfold index_view. rewrite Hm, Hv, Hs. done.
  - left. by rewrite (proj1 (index_view_post_invalid st request Hm Hv)).
Qed.

Lemma index_view_wf st request : wf_store st -> wf_store (index_view st request).1.
Proof.
  intros Hwf. destruct (index_view_store st request) as [->|(t & -> & Hid & Hc & _)]; [done|].
  destruct t as [id ttl d done c]. simpl in *. subst id.
  apply (Task_objects_create_wf ttl d done c st _ (mkTask (next_task_id st) ttl d done c) Hwf).
  unfold Task_objects_create. by rewrite (proj2 (category_exists_spec c st) Hc).
Qed.

(** *** The service contract of the specification *)

(** What the client sees of a response: a redirect, or the page with the
    two lists as the template reads them (against the store after the
    request) and the form. *)
Inductive Observation :=
| Obs_redirect (url_name : string)
| Obs_page (to_do done : list Task) (f : F)
| Obs_server_error.

Definition observe (st : Store) (r : Response F) : Observation :=
  match r with
  | HttpResponseRedirect u => Obs_redirect u
  | Render _ ctx => Obs_page (eval (to_do_tasks ctx) st) (eval (done_tasks ctx) st) (form ctx)
  | HttpResponseServerError => Obs_server_error
  end.

(** [list()] of section 4.2: the to-do and done groups partition the
    tasks by their flag, each ordered by due date. *)
Definition list_contract (st : Store) (to_do done : list Task) : Prop :=
  to_do ++ done ≡ₚ tasks st /\
  Forall (fun t => completed t = false) to_do /\ Forall (fun t => completed t = true) done /\
  due_sorted to_do /\ due_sorted done.

(** The single endpoint of section 6: a read lists with an empty form; a
    valid write persists one new task and redirects; an invalid write
    changes nothing and lists with the bound form and its errors. *)
Inductive service_contract (st : Store) (request : Request) : Store -> Observation -> Prop :=
| contract_read to_do done :
    method request <> "POST" -> list_contract st to_do done ->
    service_contract st request st (Obs_page to_do done mf_unbound)
| contract_created t :
    method request = "POST" -> mf_is_valid st (mf_bound (POST request)) = true ->
    task_id t = next_task_id st -> category t ∈ map cat_id (categories st) ->
    service_contract st request (add_task_row st t) (Obs_redirect "tasks:index")
| contract_rejected to_do done :
    method request = "POST" -> mf_is_valid st (mf_bound (POST request)) = false ->
    mf_errors st (mf_bound (POST request)) <> [] -> list_contract st to_do done ->
    service_contract st request st (Obs_page to_do done (mf_bound (POST request))).

Lemma view_list_contract st : list_contract st (eval to_do_tasks_qs st) (eval done_tasks_qs st).
Proof.
  split_and!; [apply view_querysets_partition' | apply eval_filter_order_flag
    | apply eval_filter_order_flag | apply eval_filter_order_sorted' | apply eval_filter_order_sorted'].
Qed.

(** [C3] The view implements the contract of the single endpoint, for any
    form satisfying [ModelFormLaws]: a non-POST request lists the tasks and
    changes nothing; a valid POST stores one new row, with the next id and
    an existing category, and redirects; an invalid POST changes nothing
    and lists the tasks with the bound form, which has errors. *)
Theorem index_view_refines st request :
  service_contract st request (index_view st request).1
    (observe (index_view st request).1 (index_view st request).2).
Proof.
  destruct (String.eqb_spec (method request) "POST") as [Hm|Hm].
  - destruct (mf_is_valid st (mf_bound (POST request))) eqn:Hv.
    + destruct (index_view_post_valid st request Hm Hv) as (t & -> & Hid & Hc).
      by apply contract_created.
    + destruct (index_view_post_invalid st request Hm Hv) as [-> He].
      apply contract_rejected; auto using view_list_contract.
  - rewrite index_view_not_post by done. apply contract_read; auto using view_list_contract.
Qed.

End View.

(** The view of the application, with its form. *)
Definition index : Store -> Request -> Store * Response TaskForm := index_view.

(** ** The view with [TaskForm] *)

Lemma index_post_creates' st request ttl d c :
  method request = "POST" ->
  clean_char TITLE_MAX_LENGTH (POST request @? "title") = Ok ttl ->
  clean_date (POST request @? "due_date") = Ok d ->
  clean_model_choice st (POST request @? "category") = Ok c ->
  index st request =
    (add_task_row st (mkTask (next_task_id st) ttl d false (cat_id c)),
     HttpResponseRedirect "tasks:index").
Proof.
  intros Hm Ht Hd Hc.
  assert (Hv : is_valid st (TaskForm_bound (POST request)) = true)
    by (apply TaskForm_is_valid; by rewrite Ht, Hd, Hc).
  assert (Hs : save st (TaskForm_bound (POST request)) =
               Some (add_task_row st (mkTask (next_task_id st) ttl d false (cat_id c)),
                     mkTask (next_task_id st) ttl d false (cat_id c)))
    by (apply TaskForm_save'; naive_solver).
  unfold index, index_view. rewrite Hm. simpl. unfold as_form. simpl.
  change (mkForm TaskForm_fields (Some (POST request))) with (TaskForm_bound (POST request)).
  by rewrite Hv, Hs.
Qed.

(** [C1] A POST whose three fields clean redirects and inserts exactly the
    task built from the cleaned values, with [completed] false. *)
Theorem index_post_creates st request ttl d c :
  method request = "POST" ->
  clean_char TITLE_MAX_LENGTH (POST request @? "title") = Ok ttl ->
  clean_date (POST request @? "due_date") = Ok d ->
  clean_model_choice st (POST request @? "category") = Ok c ->
  index st request =
    (add_task_row st (mkTask (next_task_id st) ttl d false (cat_id c)),
     HttpResponseRedirect "tasks:index").
Proof. exact (@index_post_creates' st request ttl d c). Qed.

Lemma index_post_rejects' st request :
  method request = "POST" ->
  errors st (TaskForm_bound (POST request)) <> [] ->
  index st request =
    (st, Render "tasks/index.html"
           (mkContext to_do_tasks_qs done_tasks_qs (mkTaskForm (Some (POST request))))).
Proof.
  intros Hm He. unfold index, index_view. rewrite Hm. simpl. unfold as_form. simpl.
  change (mkForm TaskForm_fields (Some (POST request))) with (TaskForm_bound (POST request)).
  unfold is_valid at 1. simpl. by rewrite bool_decide_eq_false_2.
Qed.

(** [C2] A POST with an invalid field changes nothing and renders the page
    with the bound form, whose errors name every invalid field. *)
Theorem index_post_rejects st request :
  method request = "POST" ->
  errors st (TaskForm_bound (POST request)) <> [] ->
  index st request =
    (st, Render "tasks/index.html"
           (mkContext to_do_tasks_qs done_tasks_qs (mkTaskForm (Some (POST request))))).
Proof. exact (@index_post_rejects' st request). Qed.

(** [C6] The [completed] key of a POST body has no effect on the store: the
    form does not list the field, so a task created through the page is
    never created done. *)
Theorem index_ignores_completed st m data v :
  (index st (mkRequest m (data ++ [("completed", v)]))).1 = (index st (mkRequest m data)).1.
Proof.
  assert (Hcf : clean_fields TaskForm_fields st (data ++ [("completed", v)]) =
                clean_fields TaskForm_fields st data)
    by (apply TaskForm_same_fields; by apply lookup_last_snoc_ne).
  unfold index, index_view. cbn [method POST]. case_test; [|done].
  cbn [mf_is_valid mf_save mf_bound TaskForm_ops].
  unfold as_form, save, is_valid, errors. cbn [form_data form_fields taskform_data].
  rewrite Hcf. by destruct (bool_decide _).
Qed.

(** [C7] The title rule of the page: with a valid date and category, a
    POST is saved exactly when its title, once stripped, is non-empty and
    at most 100 characters long, and the stripped title is stored;
    otherwise the page is rendered again with the bound form.  The limit
    applies to the stripped title, not to the submitted one. *)
Theorem index_title_rule st request raw d c :
  method request = "POST" -> POST request @? "title" = Some raw ->
  clean_date (POST request @? "due_date") = Ok d ->
  clean_model_choice st (POST request @? "category") = Ok c ->
  index st request =
    if decide (strip raw <> EmptyString /\ len (strip raw) <= TITLE_MAX_LENGTH) then
      (add_task_row st (mkTask (next_task_id st) (strip raw) d false (cat_id c)),
       HttpResponseRedirect "tasks:index")
    else
      (st, Render "tasks/index.html"
             (mkContext to_do_tasks_qs done_tasks_qs (mkTaskForm (Some (POST request))))).
Proof.
  intros Hm Ht Hd Hc. case_decide as Hok.
  - apply index_post_creates'; [done | | done | done].
    rewrite Ht. apply clean_char_spec. simpl. naive_solver.
  - apply index_post_rejects'; [done|]. rewrite TaskForm_errors', Ht.
    destruct (clean_char _ (Some raw)) eqn:E; [|done].
    apply clean_char_spec in E. simpl in E. naive_solver.
Qed.

(** [C30] A POST naming a category that does not exist (an id no row has,
    or text [int()] does not read) is rejected with the [invalid_choice]
    error on [category], whatever the other fields, and nothing is
    stored. *)
Theorem index_unknown_category st request raw :
  method request = "POST" -> POST request @? "category" = Some raw -> raw <> EmptyString ->
  (forall c, c ∈ categories st -> int_of_string raw <> Some (Z.of_nat (cat_id c))) ->
  (index st request).1 = st /\ ("category", Invalid_choice) ∈ errors st (TaskForm_bound (POST request)).
Proof.
  intros Hm Hr Hne Hno.
  assert (Hc : clean_model_choice st (Some raw) = Err Invalid_choice).
  { unfold clean_model_choice. destruct (String.eqb_spec raw EmptyString); [done|].
    destruct (int_of_string raw) as [k|] eqn:Ek; simpl; [|done].
    destruct (Category_objects_get k st) as [c|] eqn:Hg; [|done].
    apply Category_objects_get_Some in Hg as [Hin <-]. by destruct (Hno c Hin). }
  assert (He : ("category", Invalid_choice) ∈ errors st (TaskForm_bound (POST request))).
  { rewrite TaskForm_errors', Hr, Hc, !elem_of_app. right; right. by left. }
  split; [|done]. rewrite index_post_rejects'; [done | done |].
  intros Hnil. rewrite Hnil in He. by apply elem_of_nil in He.
Qed.


(** ** Reachable stores *)

(** One request cycle, or the creation of a category (by the admin). *)
Inductive step : Store -> Store -> Prop :=
| step_request st request : step st (index st request).1
| step_create_category st name : step st (Category_objects_create name st).1.

Definition reachable (st : Store) : Prop := rtc step empty_store st.
Lemma index_tasks st request :
  tasks (index st request).1 = tasks st \/
  exists t, tasks (index st request).1 = tasks st ++ [t] /\ cleaned_task t.
Proof.
  destruct (index_view_store (F := TaskForm) st request) as [Heq|(t & Heq & _ & _ & Hs)];
    unfold index; rewrite Heq; [by left|right].
  exists t. split; [done|]. exact (TaskForm_save_cleaned st (POST request) _ t Hs).
Qed.

Lemma step_cleaned st st' :
  step st st' -> Forall cleaned_task (tasks st) -> Forall cleaned_task (tasks st').
Proof.
  intros [st0 request | st0 name] Hall; [|done].
  destruct (index_tasks st0 request) as [-> | (t & -> & Ht)]; [done|].
  apply Forall_app. by split; [|constructor].
Qed.
Lemma reachable_tasks_cleaned' st : reachable st -> Forall cleaned_task (tasks st).
Proof.
  intros Hr. refine (rtc_invariant step (fun s => Forall cleaned_task (tasks s)) step_cleaned _ _ Hr _).
  constructor.
Qed.

(** [C10] Every task of a reachable store was cleaned by the form: the page
    alone never stores a long, blank or padded title, an invalid date or
    a completed task. *)
Theorem reachable_tasks_cleaned st : reachable st -> Forall cleaned_task (tasks st).
Proof. exact (@reachable_tasks_cleaned' st). Qed.

(** [C11] Hence the done list of a reachable store is empty: only an edit in
    the admin can complete a task. *)
Corollary reachable_done_empty st : reachable st -> eval done_tasks_qs st = [].
Proof.
  intros Hr%reachable_tasks_cleaned'.
  destruct (eval done_tasks_qs st) as [|t ts] eqn:E; [done|].
  assert (Ht : t ∈ eval done_tasks_qs st) by (rewrite E; constructor).
  apply eval_filter_order_elem in Ht as [Hin Hc].
  rewrite Forall_forall in Hr. destruct (Hr t Hin) as (_ & _ & _ & _ & Hf). congruence.
Qed.

(** ** Witnesses *)

Lemma index_post_creates_witness :
  let st := (Category_objects_create "Home" empty_store).1 in
  let request := mkRequest "POST" [("title", " Buy milk "); ("due_date", "2024-12-31"); ("category", "1")] in
  method request = "POST" /\
  clean_char TITLE_MAX_LENGTH (POST request @? "title") = Ok "Buy milk" /\
  clean_date (POST request @? "due_date") = Ok (mkdate 2024 12 31) /\
  clean_model_choice st (POST request @? "category") = Ok (mkCategory 1 "Home") /\
  index st request =
    (add_task_row st (mkTask (next_task_id st) "Buy milk" (mkdate 2024 12 31) false 1),
     HttpResponseRedirect "tasks:index").
Proof.
  intros st request.
  assert (Ht : clean_char TITLE_MAX_LENGTH (POST request @? "title") = Ok "Buy milk")
    by (vm_compute; reflexivity).
  assert (Hd : clean_date (POST request @? "due_date") = Ok (mkdate 2024 12 31))
    by (vm_compute; reflexivity).
  assert (Hc : clean_model_choice st (POST request @? "category") = Ok (mkCategory 1 "Home"))
    by (vm_compute; reflexivity).
  split_and!; [reflexivity | exact Ht | exact Hd | exact Hc |].
  exact (index_post_creates st request _ _ _ eq_refl Ht Hd Hc).
Defined.

Lemma index_post_rejects_witness :
  let st := (Category_objects_create "Home" empty_store).1 in
  let request := mkRequest "POST" [("title", "   "); ("due_date", "2024-02-30"); ("category", "7")] in
  method request = "POST" /\
  errors st (TaskForm_bound (POST request)) =
    [("title", Required); ("due_date", Invalid); ("category", Invalid_choice)] /\
  index st request =
    (st, Render "tasks/index.html"
           (mkContext to_do_tasks_qs done_tasks_qs (mkTaskForm (Some (POST request))))).
Proof.
  intros st request.
  assert (He : errors st (TaskForm_bound (POST request)) =
    [("title", Required); ("due_date", Invalid); ("category", Invalid_choice)])
    by (vm_compute; reflexivity).
  split_and!; [reflexivity | exact He |].
  apply (index_post_rejects st request eq_refl). rewrite He. discriminate.
Defined.

Lemma index_view_refines_witness :
  let st := (Category_objects_create "Home" empty_store).1 in
  let request := mkRequest "GET" [] in
  service_contract (F := TaskForm) st request (index_view st request).1
    (observe (index_view st request).1 (index_view st request).2).
Proof. intros st request. apply (index_view_refines (F := TaskForm)). Defined.

Lemma index_view_not_post_witness :
  let st := (Category_objects_create "Home" empty_store).1 in
  let request := mkRequest "DELETE" [("title", "x")] in
  method request <> "POST" /\
  index_view (F := TaskForm) st request =
    (st, Render "tasks/index.html" (mkContext to_do_tasks_qs done_tasks_qs (mkTaskForm None))).
Proof.
  intros st request.
  assert (Hm : method request <> "POST") by discriminate.
  split; [exact Hm | exact (index_view_not_post (F := TaskForm) st request Hm)].
Defined.

(** A store reached by creating a category and posting one task. *)
Lemma reachable_demo :
  reachable (index (Category_objects_create "Home" empty_store).1
                   (mkRequest "POST" [("title", "Buy milk"); ("due_date", "2024-12-31");
                                      ("category", "1")])).1.
Proof.
  eapply rtc_l; [apply step_create_category|].
  eapply rtc_l; [apply step_request | apply rtc_refl].
Qed.
Lemma reachable_tasks_cleaned_witness :
  let st := (index (Category_objects_create "Home" empty_store).1
                   (mkRequest "POST" [("title", "Buy milk"); ("due_date", "2024-12-31");
                                      ("category", "1")])).1 in
  reachable st /\ length (tasks st) = 1 /\ Forall cleaned_task (tasks st).
Proof.
  split_and!; [apply reachable_demo | vm_compute; reflexivity |].
  apply reachable_tasks_cleaned, reachable_demo.
Defined.

Lemma reachable_done_empty_witness :
  let st := (index (Category_objects_create "Home" empty_store).1
                   (mkRequest "POST" [("title", "Buy milk"); ("due_date", "2024-12-31");
                                      ("category", "1"); ("completed", "True")])).1 in
  reachable st /\ eval done_tasks_qs st = [].
Proof.
  assert (Hr : reachable (index (Category_objects_create "Home" empty_store).1
                   (mkRequest "POST" [("title", "Buy milk"); ("due_date", "2024-12-31");
                                      ("category", "1"); ("completed", "True")])).1).
  { eapply rtc_l; [apply step_create_category|].
    eapply rtc_l; [apply step_request | apply rtc_refl]. }
  split; [exact Hr | exact (reachable_done_empty _ Hr)].
Defined.

Lemma index_title_rule_witness :
  let st := (Category_objects_create "Home" empty_store).1 in
  let raw := " AAAAAAAAAAAAAAAAAAAAAAAAAAAAAAAAAAAAAAAAAAAAAAAAAAAAAAAAAAAAAAAAAAAAAAAAAAAAAAAAAAAAAAAAAAAAAAAAAAAA" in
  let request := mkRequest "POST" [("title", raw); ("due_date", "2024-12-31"); ("category", "1")] in
  len raw = 101 /\ method request = "POST" /\ POST request @? "title" = Some raw /\
  clean_date (POST request @? "due_date") = Ok (mkdate 2024 12 31) /\
  clean_model_choice st (POST request @? "category") = Ok (mkCategory 1 "Home") /\
  index st request =
    (add_task_row st (mkTask 1 "AAAAAAAAAAAAAAAAAAAAAAAAAAAAAAAAAAAAAAAAAAAAAAAAAAAAAAAAAAAAAAAAAAAAAAAAAAAAAAAAAAAAAAAAAAAAAAAAAAAA" (mkdate 2024 12 31) false 1), HttpResponseRedirect "tasks:index").
Proof.
  intros st raw request.
  assert (Ht : POST request @? "title" = Some raw) by reflexivity.
  assert (Hd : clean_date (POST request @? "due_date") = Ok (mkdate 2024 12 31)) by (vm_compute; reflexivity).
  assert (Hc : clean_model_choice st (POST request @? "category") = Ok (mkCategory 1 "Home"))
    by (vm_compute; reflexivity).
  split_and!; [vm_compute; reflexivity | reflexivity | exact Ht | exact Hd | exact Hc |].
  rewrite (index_title_rule st request raw _ _ eq_refl Ht Hd Hc). vm_compute. reflexivity.
Defined.

Lemma index_unknown_category_witness :
  let st := (Category_objects_create "Home" empty_store).1 in
  let request := mkRequest "POST" [("title", "Buy milk"); ("due_date", "2024-12-31"); ("category", "999")] in
  method request = "POST" /\ POST request @? "category" = Some "999" /\ "999" <> EmptyString /\
  (forall c, c ∈ categories st -> int_of_string "999" <> Some (Z.of_nat (cat_id c))) /\
  (index st request).1 = st.
Proof.
  intros st request.
  assert (Hno : forall c, c ∈ categories st -> int_of_string "999" <> Some (Z.of_nat (cat_id c))).
  { intros c Hc. simpl in Hc. apply list_elem_of_singleton in Hc as ->. vm_compute. discriminate. }
  split_and!; [reflexivity | reflexivity | discriminate | exact Hno |].
  exact (proj1 (index_unknown_category st request "999" eq_refl eq_refl ltac:(discriminate) Hno)).
Defined.

End Views.
