(* ===== verification/Admin.v ===== *)
(** * Admin: the admin registrations ([src/tasks/admin.py])

    [@admin.register(Category)] and [@admin.register(Task)] install a
    [ModelAdmin] for each model whose only option is [list_display]: the
    columns of the change list.  The change list shows one row per table
    row; without an [ordering] option Django orders it by descending
    primary key.  A column names a model field; the [category] column
    holds the related [Category] row (its text, [str(category)], comes from
    [models.py], which is not among the sources, and is not modelled).
    The views the registrations install are in [AdminViews].

    The theorems: each change list has one row per table row, in
    descending id order, each with one cell per column; the [category]
    cell of a task of a well-formed store is a row of the category table. *)

From S2P Require Import Prelude PyStr Strptime Models.

Module Admin.
Import Strptime Models.

(** A cell of the change list: the value of one field of one row. *)
Inductive cell :=
| Cell_int (n : nat)
| Cell_str (s : string)
| Cell_date (d : date)
| Cell_bool (b : bool)
| Cell_fk (c : option Category).

(** [class CategoryAdmin(admin.ModelAdmin): list_display = ("id", "name")]. *)
Definition CategoryAdmin_list_display : list string := ["id"; "name"].

(** [class TaskAdmin(admin.ModelAdmin):
    list_display = ("id", "title", "due_date", "completed", "category")]. *)
Definition TaskAdmin_list_display : list string := ["id"; "title"; "due_date"; "completed"; "category"].

(** [lookup_field(name, obj)] for the two models; [None] for a name that
    is not a field. *)
Definition category_field (name : string) (c : Category) : option cell :=
  if String.eqb name "id" then Some (Cell_int (cat_id c))
  else if String.eqb name "name" then Some (Cell_str (cat_name c))
  else None.

Definition task_field (st : Store) (name : string) (t : Task) : option cell :=
  if String.eqb name "id" then Some (Cell_int (task_id t))
  else if String.eqb name "title" then Some (Cell_str (title t))
  else if String.eqb name "due_date" then Some (Cell_date (due_date t))
  else if String.eqb name "completed" then Some (Cell_bool (completed t))
  else if String.eqb name "category" then
    Some (Cell_fk (find (fun c => cat_id c =? category t) (categories st)))
  else None.

(** The rows of a change list, ordered by [-pk]. *)
Definition changelist {A} (fields : string -> A -> option cell) (list_display : list string)
    (rows : list A) : list (list (option cell)) :=
  map (fun r => map (fun name => fields name r) list_display) (rev rows).

Definition Category_changelist (st : Store) : list (list (option cell)) :=
  changelist category_field CategoryAdmin_list_display (categories st).

Definition Task_changelist (st : Store) : list (list (option cell)) :=
  changelist (task_field st) TaskAdmin_list_display (tasks st).

(** ** Lemmas *)

Lemma changelist_length {A} (fields : string -> A -> option cell) ld rows :
  length (changelist fields ld rows) = length rows.
Proof. unfold changelist. by rewrite length_map, length_rev. Qed.

Lemma changelist_row_width {A} (fields : string -> A -> option cell) ld rows r :
  r ∈ changelist fields ld rows -> length r = length ld.
Proof.
  unfold changelist. intros (x & -> & _)%list_elem_of_fmap. by rewrite length_map.
Qed.

(** The first column of the task change list: the ids, descending. *)
Lemma Task_changelist_ids st :
  map (fun row => head row) (Task_changelist st) =
  map (fun t => Some (Some (Cell_int (task_id t)))) (rev (tasks st)).
Proof.
  unfold Task_changelist, changelist. rewrite map_map. apply map_ext. done.
Qed.

(** The [category] cell of a task of a well-formed store is the category
    row the task points to. *)
Lemma Task_changelist_category st t :
  wf_store st -> t ∈ tasks st ->
  exists c, task_field st "category" t = Some (Cell_fk (Some c)) /\
    c ∈ categories st /\ cat_id c = category t.
Proof.
  intros (_ & _ & _ & _ & Hfk) Ht. rewrite Forall_forall in Hfk.
  pose proof (Hfk t Ht) as Hc. apply list_elem_of_fmap in Hc as (c0 & Hid & Hc0).
  destruct (find (fun c => cat_id c =? category t) (categories st)) as [c|] eqn:Hf.
  - exists c. unfold task_field. cbn. rewrite Hf.
    apply find_some in Hf as [Hin Heq]. apply Nat.eqb_eq in Heq.
    split_and!; [done | by apply list_elem_of_In | done].
  - eapply find_none in Hf; [|by apply list_elem_of_In].
    simpl in Hf. apply Nat.eqb_neq in Hf. congruence.
Qed.

(** ** Witnesses *)

Lemma Task_changelist_category_witness :
  let st := add_task_row (Category_objects_create "Home" empty_store).1
              (mkTask 1 "Buy milk" (mkdate 2024 12 31) false 1) in
  wf_store st /\ mkTask 1 "Buy milk" (mkdate 2024 12 31) false 1 ∈ tasks st /\
  task_field st "category" (mkTask 1 "Buy milk" (mkdate 2024 12 31) false 1) =
    Some (Cell_fk (Some (mkCategory 1 "Home"))).
Proof.
  intros st.
  assert (Hwf : wf_store st).
  { apply (Task_objects_create_wf "Buy milk" (mkdate 2024 12 31) false 1
             (Category_objects_create "Home" empty_store).1 st (mkTask 1 "Buy milk" (mkdate 2024 12 31) false 1)).
    - apply Category_objects_create_wf, empty_store_wf.
    - reflexivity. }
  assert (Hin : mkTask 1 "Buy milk" (mkdate 2024 12 31) false 1 ∈ tasks st) by (simpl; constructor).
  split_and!; [exact Hwf | exact Hin |].
  destruct (Task_changelist_category st _ Hwf Hin) as (c & Hc & Hcin & _). rewrite Hc.
  simpl in Hcin. apply list_elem_of_singleton in Hcin. by subst c.
Defined.


End Admin.
