(* ===== verification/AdminViews.v ===== *)
(** * AdminViews: the views the admin registrations install

    Each [@admin.register] of [src/tasks/admin.py] installs the views
    [ModelAdmin] defines, here for a superuser: [add_view] and
    [change_view] ([_changeform_view]) bind the form of every editable
    field of the model to the POST data and, when it is valid, save a new
    row or update the row in place, then redirect as [response_add] and
    [response_change] say; [delete_view] deletes the row once confirmed by
    POST data, unless it is protected.  The views are written once over
    [ModelAdminOps], the operations of one model, and instantiated for
    [TaskAdmin] and [CategoryAdmin]; the record [AdminPreserves] is the law
    an instance gives for a property of stores, and the views keep the
    property for any instance that has it.

    The theorems: a valid add or change writes exactly the cleaned row,
    [completed] included; a protected category is never deleted and a
    cascading delete removes exactly its tasks; a GET deletes nothing. *)

From S2P Require Import Prelude PyStr Strptime Models Fields Forms Views.

Module AdminViews.
Import PyStr Strptime Models Fields Forms Views.

(** ** The add, change and delete views the registrations install *)

(** What an admin view answers. *)
Inductive AdminResponse :=
| Admin_redirect (url_name : string) (args : list nat)   (* HttpResponseRedirect: 302 *)
| Admin_popup_response (pk : nat)                        (* popup_response.html: 200 *)
| Admin_change_form (errs : form_errors)                 (* change_form.html: 200 *)
| Admin_delete_confirmation (protected : bool)           (* delete_confirmation.html: 200 *)
| Admin_changelist_page                                  (* change_list.html: 200 *)
| Admin_server_error.                                    (* an exception escaped: 500 *)

Definition admin_status_code (r : AdminResponse) : nat :=
  match r with
  | Admin_redirect _ _ => 302
  | Admin_server_error => 500
  | _ => 200
  end.

(** What [ModelAdmin]'s views need of one model: the names of its URLs,
    the fields of its form, [get_object], the saving and deletion of a
    row, and the primary keys of the change list's queryset in its order
    (no [ordering] option: [-pk]). *)
Record ModelAdminOps := mkModelAdminOps {
  ma_model_name : string;                                (* [opts.model_name] *)
  ma_form_fields : list FormField;                       (* [get_form(request)] *)
  ma_get : Z -> Store -> option nat;                     (* [get_object]: the pk *)
  ma_create : cleaned_data -> Store -> option (Store * nat);  (* save of a new row *)
  ma_update : nat -> cleaned_data -> Store -> option Store;   (* save of a row *)
  ma_delete : nat -> Store -> option Store;              (* [None]: protected *)
  ma_pks : Store -> list nat                             (* the change list's rows, by [-pk] *)
}.

Definition url_name (ops : ModelAdminOps) (view : string) : string :=
  "admin:tasks_" ++ ma_model_name ops ++ "_" ++ view.

(** [key in request.POST]. *)
Definition has_key (data : list (string * string)) (key : string) : bool :=
  bool_decide (is_Some (data @? key)).

(** [ModelAdmin.response_add] (an unset [save_as_continue] is [True]). *)
Definition response_add (ops : ModelAdminOps) (data : list (string * string)) (pk : nat)
    : AdminResponse :=
  if has_key data "_popup" then Admin_popup_response pk
  else if has_key data "_continue" || has_key data "_saveasnew" then
    Admin_redirect (url_name ops "change") [pk]
  else if has_key data "_addanother" then Admin_redirect (url_name ops "add") []
  else Admin_redirect (url_name ops "changelist") [].

(** [ModelAdmin.response_change]. *)
Definition response_change (ops : ModelAdminOps) (data : list (string * string)) (pk : nat)
    : AdminResponse :=
  if has_key data "_popup" then Admin_popup_response pk
  else if has_key data "_continue" then Admin_redirect (url_name ops "change") [pk]
  else if has_key data "_addanother" then Admin_redirect (url_name ops "add") []
  else Admin_redirect (url_name ops "changelist") [].

(** [get_object(request, object_id)]: [AutoField.to_python] is [int()],
    whose [ValueError] and the [DoesNotExist] of the lookup give [None]. *)
Definition get_object (ops : ModelAdminOps) (object_id : string) (st : Store) : option nat :=
  int_of_string object_id ≫= fun k => ma_get ops k st.

(** [ModelAdmin._changeform_view] for a superuser ([add_view] when
    [object_id] is [None], [change_view] otherwise); the admin has no
    inlines, so [all_valid(formsets)] holds. *)
Definition changeform_view (ops : ModelAdminOps) (st : Store) (object_id : option string)
    (request : Request) : Store * AdminResponse :=
  let is_post := String.eqb (method request) "POST" in
  let object_id := if is_post && has_key (POST request) "_saveasnew" then None else object_id in
  let form := mkForm (ma_form_fields ops) (Some (POST request)) in
  let cd := (clean_fields (ma_form_fields ops) st (POST request)).1 in
  match object_id with
  | None =>
      if is_post then
        if is_valid st form then
          match ma_create ops cd st with
          | Some (st', pk) => (st', response_add ops (POST request) pk)
          | None => (st, Admin_server_error)
          end
        else (st, Admin_change_form (errors st form))
      else (st, Admin_change_form [])
  | Some oid =>
      match get_object ops oid st with
      | None => (st, Admin_redirect "admin:index" [])
      | Some pk =>
          if is_post then
            if is_valid st form then
              match ma_update ops pk cd st with
              | Some st' => (st', response_change ops (POST request) pk)
              | None => (st, Admin_server_error)
              end
            else (st, Admin_change_form (errors st form))
          else (st, Admin_change_form [])
      end
  end.

(** [ModelAdmin._delete_view] for a superuser: [if request.POST and not
    protected] deletes; otherwise the confirmation page, which lists the
    protected objects. *)
Definition delete_view (ops : ModelAdminOps) (st : Store) (object_id : string)
    (request : Request) : Store * AdminResponse :=
  match get_object ops object_id st with
  | None => (st, Admin_redirect "admin:index" [])
  | Some pk =>
      match ma_delete ops pk st with
      | Some st' =>
          if decide (POST request <> []) then (st', Admin_redirect (url_name ops "changelist") [])
          else (st, Admin_delete_confirmation false)
      | None => (st, Admin_delete_confirmation true)
      end
  end.

(** ** [TaskAdmin] *)

(** [ModelAdmin.get_form]: with no [fields], [fieldsets], [exclude] or
    [form] option the form has every editable field of the model, in the
    model's order, with the widgets of [formfield_for_dbfield]: the
    [AdminDateWidget] of a date is a [DateInput]; the text input and the
    [Select] wrapped in [RelatedFieldWidgetWrapper] read [data.get(name)]
    as the plain widgets do. *)
Definition admin_widgets : list (string * Widget) :=
  [("due_date", DateInput [("class", "vDateField"); ("size", "10")])].

Definition TaskAdmin_form_fields : list FormField :=
  fields_for_model Task_model_fields (map fst Task_model_fields) admin_widgets.

(** The row the form saves: [construct_instance] on the instance [pk]
    (every field of the model is in the form). *)
Definition task_of_cleaned (pk : nat) (cd : cleaned_data) : option Task :=
  (fun '(t, d, done, c) => mkTask pk t d done c) <$> construct_instance cd.

Definition TaskAdmin_ops : ModelAdminOps := {|
  ma_model_name := "task";
  ma_form_fields := TaskAdmin_form_fields;
  ma_get := fun k st => task_id <$> Task_objects_get k st;
  ma_create := fun cd st =>
    construct_instance cd ≫= fun '(t, d, done, c) =>
    (fun '(st', row) => (st', task_id row)) <$> Task_objects_create t d done c st;
  ma_update := fun pk cd st => task_of_cleaned pk cd ≫= fun row => Task_objects_update row st;
  ma_delete := fun pk st => Some (Task_objects_delete pk st);
  ma_pks := fun st => rev (task_id <$> tasks st)
|}.

(** ** [CategoryAdmin] *)

Section CategoryAdmin.
(** [models.py] is not among the sources: the [max_length] of
    [Category.name] and the [on_delete] of [Task.category] are parameters
    of the model. *)
Variable name_max_length : nat.
Variable policy : on_delete.

Definition Category_model_fields : list (string * ModelField) :=
  [("name", Model_CharField name_max_length)].

Definition CategoryAdmin_form_fields : list FormField :=
  fields_for_model Category_model_fields (map fst Category_model_fields) admin_widgets.

Definition CategoryAdmin_ops : ModelAdminOps := {|
  ma_model_name := "category";
  ma_form_fields := CategoryAdmin_form_fields;
  ma_get := fun k st => cat_id <$> Category_objects_get k st;
  ma_create := fun cd st =>
    match cd @? "name" with
    | Some (V_str n) => Some (let '(st', c) := Category_objects_create n st in (st', cat_id c))
    | _ => None
    end;
  ma_update := fun pk cd st =>
    match cd @? "name" with
    | Some (V_str n) => Some (Category_objects_update (mkCategory pk n) st)
    | _ => None
    end;
  ma_delete := Category_objects_delete policy;
  ma_pks := fun st => rev (cat_id <$> categories st)
|}.

End CategoryAdmin.

(** ** What the admin keeps *)

(** A task row as both forms clean it: a non-empty stripped title of at
    most 100 characters and a valid date; the admin sets [completed]
    freely. *)
Definition valid_task (t : Task) : Prop :=
  title t <> EmptyString /\ len (title t) <= TITLE_MAX_LENGTH /\ strip (title t) = title t /\
  valid_date (due_date t) = true.

(** The table of tasks of a store holds valid rows only. *)
Definition tasks_valid (st : Store) : Prop := Forall valid_task (tasks st).

(** The laws of a [ModelAdminOps] for a property [P] of stores: saving the
    cleaned data of a valid form, and deleting a row, keep [P] on a
    well-formed store. *)
Record AdminPreserves (ops : ModelAdminOps) (P : Store -> Prop) : Prop := {
  ma_create_preserves st data st' pk :
    wf_store st -> P st -> is_valid st (mkForm (ma_form_fields ops) (Some data)) = true ->
    ma_create ops (clean_fields (ma_form_fields ops) st data).1 st = Some (st', pk) -> P st';
  ma_update_preserves st data pk st' :
    wf_store st -> P st -> is_valid st (mkForm (ma_form_fields ops) (Some data)) = true ->
    ma_update ops pk (clean_fields (ma_form_fields ops) st data).1 st = Some st' -> P st';
  ma_delete_preserves st pk st' :
    wf_store st -> P st -> ma_delete ops pk st = Some st' -> P st'
}.

(** ** The admin views *)

Section Views.
Context (ops : ModelAdminOps) (P : Store -> Prop) (HP : AdminPreserves ops P).

Lemma changeform_view_preserves st oid request :
  wf_store st -> P st -> P (changeform_view ops st oid request).1.
Proof.
  intros Hwf Hp. unfold changeform_view.
  repeat (case_match; simpl; try done);
    first [by eapply (ma_create_preserves _ _ HP) | by eapply (ma_update_preserves _ _ HP)].
Qed.

Lemma delete_view_preserves st oid request :
  wf_store st -> P st -> P (delete_view ops st oid request).1.
Proof.
  intros Hwf Hp. unfold delete_view.
  repeat (case_match; simpl; try done). by eapply (ma_delete_preserves _ _ HP).
Qed.

End Views.

(** The admin's task form: its four fields, in the model's order. *)
Lemma TaskAdmin_form_fields_eq :
  TaskAdmin_form_fields =
  [mkFormField "title" (CharField TITLE_MAX_LENGTH) TextInput;
   mkFormField "due_date" DateField (DateInput [("class", "vDateField"); ("size", "10")]);
   mkFormField "completed" BooleanField CheckboxInput;
   mkFormField "category" ModelChoiceField Select].
Proof. reflexivity. Qed.

(** A valid admin task form cleans its four fields, and the instance it
    builds holds their values. *)
Lemma TaskAdmin_valid st data :
  is_valid st (mkForm TaskAdmin_form_fields (Some data)) = true ->
  exists ttl d b c,
    clean_char TITLE_MAX_LENGTH (data @? "title") = Ok ttl /\
    clean_date (data @? "due_date") = Ok d /\
    clean_bool (value_from_datadict CheckboxInput data "completed") = Ok b /\
    clean_model_choice st (data @? "category") = Ok c /\
    construct_instance (clean_fields TaskAdmin_form_fields st data).1 = Some (ttl, d, b, cat_id c).
Proof.
  unfold is_valid, errors. cbn [form_data form_fields]. rewrite TaskAdmin_form_fields_eq.
  cbn [clean_fields ff_field ff_widget ff_name value_from_datadict]. unfold clean_field.
  destruct (clean_char _ _) as [ttl|], (clean_date _) as [d|],
    (clean_bool _) as [b|], (clean_model_choice _ _) as [c|]; simpl;
    rewrite ?bool_decide_eq_true; try done.
  intros _. by exists ttl, d, b, c.
Qed.

Lemma valid_task_of_clean pk ttl d b c raw_t raw_d :
  clean_char TITLE_MAX_LENGTH raw_t = Ok ttl -> clean_date raw_d = Ok d ->
  valid_task (mkTask pk ttl d b c).
Proof.
  intros Ht Hd. pose proof (clean_char_stripped _ _ _ Ht).
  apply clean_char_spec in Ht as (_ & ? & ?). apply clean_date_valid in Hd.
  by split_and!.
Qed.

(** The row a valid admin task form inserts. *)
Lemma TaskAdmin_create_Some st data st' pk :
  is_valid st (mkForm TaskAdmin_form_fields (Some data)) = true ->
  ma_create TaskAdmin_ops (clean_fields TaskAdmin_form_fields st data).1 st = Some (st', pk) ->
  exists ttl d b c row,
    clean_char TITLE_MAX_LENGTH (data @? "title") = Ok ttl /\ clean_date (data @? "due_date") = Ok d /\
    Task_objects_create ttl d b (cat_id c) st = Some (st', row) /\ pk = task_id row.
Proof.
  intros Hv Hc. destruct (TaskAdmin_valid _ _ Hv) as (ttl & d & b & c & Ht & Hd & _ & _ & Hci).
  cbn [ma_create TaskAdmin_ops] in Hc. rewrite Hci in Hc. simpl in Hc.
  apply fmap_Some in Hc as ([st1 row] & E & [= -> ->]). by exists ttl, d, b, c, row.
Qed.

(** The store a valid admin task form writes: the row [pk] replaced. *)
Lemma TaskAdmin_update_Some st data pk st' :
  is_valid st (mkForm TaskAdmin_form_fields (Some data)) = true ->
  ma_update TaskAdmin_ops pk (clean_fields TaskAdmin_form_fields st data).1 st = Some st' ->
  exists ttl d b c,
    clean_char TITLE_MAX_LENGTH (data @? "title") = Ok ttl /\ clean_date (data @? "due_date") = Ok d /\
    Task_objects_update (mkTask pk ttl d b (cat_id c)) st = Some st'.
Proof.
  intros Hv Hu. destruct (TaskAdmin_valid _ _ Hv) as (ttl & d & b & c & Ht & Hd & _ & _ & Hci).
  cbn [ma_update TaskAdmin_ops] in Hu. unfold task_of_cleaned in Hu. rewrite Hci in Hu.
  do 4 eexists. split_and!; [exact Ht | exact Hd | exact Hu].
Qed.

Lemma TaskAdmin_wf : AdminPreserves TaskAdmin_ops wf_store.
Proof.
  split; cbn [ma_form_fields TaskAdmin_ops].
  - intros st data st' pk Hwf _ Hv (? & ? & ? & ? & ? & _ & _ & Hc & _)%TaskAdmin_create_Some; [|done].
    by eapply Task_objects_create_wf.
  - intros st data pk st' Hwf _ Hv (? & ? & ? & ? & _ & _ & Hu)%TaskAdmin_update_Some; [|done].
    by eapply Task_objects_update_wf.
  - intros st pk st' Hwf _ [= <-]. by apply Task_objects_delete_wf.
Qed.

Lemma TaskAdmin_tasks_valid : AdminPreserves TaskAdmin_ops tasks_valid.
Proof.
  unfold tasks_valid. split; cbn [ma_form_fields TaskAdmin_ops].
  - intros st data st' pk Hwf Hp Hv (? & ? & ? & ? & ? & Ht & Hd & Hc & _)%TaskAdmin_create_Some; [|done].
    apply Task_objects_create_Some in Hc as (_ & -> & ->). simpl.
    apply Forall_app. split; [done|]. constructor; [|done]. by eapply valid_task_of_clean.
  - intros st data pk st' Hwf Hp Hv (? & ? & ? & ? & Ht & Hd & Hu)%TaskAdmin_update_Some; [|done].
    unfold Task_objects_update in Hu. case_match; simplify_eq. simpl.
    apply Forall_fmap, Forall_forall. intros u Hu. simpl.
    case_decide; [by eapply valid_task_of_clean | by rewrite Forall_forall in Hp; apply Hp].
  - intros st pk st' Hwf Hp [= <-]. by apply Forall_filter.
Qed.

(** What the category form saves. *)
Lemma CategoryAdmin_create_Some m policy cd st st' pk :
  ma_create (CategoryAdmin_ops m policy) cd st = Some (st', pk) ->
  exists n, st' = (Category_objects_create n st).1.
Proof.
  cbn [ma_create CategoryAdmin_ops]. repeat case_match; intros; simplify_eq.
  match goal with H : Category_objects_create ?n _ = _ |- _ => exists n; by rewrite H end.
Qed.

Lemma CategoryAdmin_wf m policy : AdminPreserves (CategoryAdmin_ops m policy) wf_store.
Proof.
  split.
  - intros st data st' pk Hwf _ _ (n & ->)%CategoryAdmin_create_Some. by apply Category_objects_create_wf.
  - cbn [ma_update CategoryAdmin_ops]. intros; repeat case_match; simplify_eq; try done.
    by apply Category_objects_update_wf.
  - intros st pk st' Hwf _. by apply Category_objects_delete_wf.
Qed.

Lemma CategoryAdmin_tasks_valid m policy : AdminPreserves (CategoryAdmin_ops m policy) tasks_valid.
Proof.
  unfold tasks_valid. split.
  - by intros st data st' pk Hwf Hp _ (n & ->)%CategoryAdmin_create_Some.
  - cbn [ma_update CategoryAdmin_ops]. intros; repeat case_match; by simplify_eq.
  - cbn [ma_delete CategoryAdmin_ops]. unfold Category_objects_delete.
    intros st pk st' _ Hp. destruct policy; [|case_decide]; intros; simplify_eq; simpl; [|done].
    by apply Forall_filter.
Qed.

#[export] Hint Resolve TaskAdmin_wf TaskAdmin_tasks_valid CategoryAdmin_wf CategoryAdmin_tasks_valid
  : taskmaster.

(** The admin task form on four cleaning fields. *)
Lemma TaskAdmin_clean st data ttl d b c :
  clean_char TITLE_MAX_LENGTH (data @? "title") = Ok ttl ->
  clean_date (data @? "due_date") = Ok d ->
  clean_bool (value_from_datadict CheckboxInput data "completed") = Ok b ->
  clean_model_choice st (data @? "category") = Ok c ->
  clean_fields TaskAdmin_form_fields st data =
    ([("title", V_str ttl); ("due_date", V_date d); ("completed", V_bool b); ("category", V_category c)], []).
Proof.
  intros Ht Hd Hb Hc. rewrite TaskAdmin_form_fields_eq.
  cbn [clean_fields ff_field ff_widget ff_name clean_field]. rewrite Hb.
  cbn [value_from_datadict]. by rewrite Ht, Hd, Hc.
Qed.

Lemma TaskAdmin_change_updates' st oid request pk ttl d b c :
  method request = "POST" -> has_key (POST request) "_saveasnew" = false ->
  get_object TaskAdmin_ops oid st = Some pk ->
  clean_char TITLE_MAX_LENGTH (POST request @? "title") = Ok ttl ->
  clean_date (POST request @? "due_date") = Ok d ->
  clean_bool (value_from_datadict CheckboxInput (POST request) "completed") = Ok b ->
  clean_model_choice st (POST request @? "category") = Ok c ->
  changeform_view TaskAdmin_ops st (Some oid) request =
    (mkStore (categories st)
       (map (fun u => if decide (task_id u = pk) then mkTask pk ttl d b (cat_id c) else u) (tasks st))
       (next_category_id st) (next_task_id st),
     response_change TaskAdmin_ops (POST request) pk).
Proof.
  intros Hm Hs Hg Ht Hd Hb Hc.
  pose proof (TaskAdmin_clean _ _ _ _ _ _ Ht Hd Hb Hc) as Hcl.
  unfold changeform_view. rewrite Hm, Hs, andb_false_r. cbv beta iota zeta.
  rewrite Hg. cbn [String.eqb ma_form_fields TaskAdmin_ops].
  unfold is_valid, errors. cbn [form_data form_fields]. rewrite Hcl. simpl.
  unfold task_of_cleaned, Task_objects_update. simpl.
  rewrite (proj2 (category_exists_spec _ _)) by (apply list_elem_of_fmap_2; by eapply clean_model_choice_in).
  done.
Qed.

(** [C16] A valid change of a task in the admin replaces its row, in place
    and under the same id, by the cleaned values of the four fields,
    [completed] included, and answers as [response_change] does. *)
Theorem TaskAdmin_change_updates st oid request pk ttl d b c :
  method request = "POST" -> has_key (POST request) "_saveasnew" = false ->
  get_object TaskAdmin_ops oid st = Some pk ->
  clean_char TITLE_MAX_LENGTH (POST request @? "title") = Ok ttl ->
  clean_date (POST request @? "due_date") = Ok d ->
  clean_bool (value_from_datadict CheckboxInput (POST request) "completed") = Ok b ->
  clean_model_choice st (POST request @? "category") = Ok c ->
  changeform_view TaskAdmin_ops st (Some oid) request =
    (mkStore (categories st)
       (map (fun u => if decide (task_id u = pk) then mkTask pk ttl d b (cat_id c) else u) (tasks st))
       (next_category_id st) (next_task_id st),
     response_change TaskAdmin_ops (POST request) pk).
Proof. exact (@TaskAdmin_change_updates' st oid request pk ttl d b c). Qed.

(** [C17] A valid add of a task in the admin inserts the row built from the
    cleaned values of the four fields, with the [completed] the form
    gives, under the next id. *)
Theorem TaskAdmin_add_creates st request ttl d b c :
  method request = "POST" ->
  clean_char TITLE_MAX_LENGTH (POST request @? "title") = Ok ttl ->
  clean_date (POST request @? "due_date") = Ok d ->
  clean_bool (value_from_datadict CheckboxInput (POST request) "completed") = Ok b ->
  clean_model_choice st (POST request @? "category") = Ok c ->
  changeform_view TaskAdmin_ops st None request =
    (add_task_row st (mkTask (next_task_id st) ttl d b (cat_id c)),
     response_add TaskAdmin_ops (POST request) (next_task_id st)).
Proof.
  intros Hm Ht Hd Hb Hc.
  pose proof (TaskAdmin_clean _ _ _ _ _ _ Ht Hd Hb Hc) as Hcl.
  unfold changeform_view. rewrite Hm. cbv beta iota zeta.
  replace (if String.eqb "POST" "POST" && has_key (POST request) "_saveasnew" then None else None)
    with (@None string) by (by destruct (_ && _)).
  cbn [String.eqb ma_form_fields TaskAdmin_ops].
  unfold is_valid, errors. cbn [form_data form_fields]. rewrite Hcl. simpl.
  unfold Task_objects_create.
  rewrite (proj2 (category_exists_spec _ _)) by (apply list_elem_of_fmap_2; by eapply clean_model_choice_in).
  done.
Qed.

(** [C18] A category that tasks point to cannot be deleted under
    [PROTECT]: the delete view shows the "cannot delete" confirmation and
    the store is unchanged, whatever the request. *)
Theorem CategoryAdmin_delete_protected m st oid request pk :
  get_object (CategoryAdmin_ops m PROTECT) oid st = Some pk -> related_tasks pk st <> [] ->
  delete_view (CategoryAdmin_ops m PROTECT) st oid request = (st, Admin_delete_confirmation true).
Proof.
  intros Hg Hr. unfold delete_view. rewrite Hg. cbn [ma_delete CategoryAdmin_ops].
  unfold Category_objects_delete. by rewrite decide_False.
Qed.

(** [C19] A confirmed delete of a category under [CASCADE] removes the
    category and exactly the tasks that point to it. *)
Theorem CategoryAdmin_delete_cascade m st oid request pk :
  get_object (CategoryAdmin_ops m CASCADE) oid st = Some pk -> POST request <> [] ->
  let st' := (delete_view (CategoryAdmin_ops m CASCADE) st oid request).1 in
  pk ∉ map cat_id (categories st') /\
  tasks st' = filter (fun t => category t <> pk) (tasks st) /\ related_tasks pk st' = [].
Proof.
  intros Hg Hp st'. unfold st', delete_view. rewrite Hg. cbn [ma_delete CategoryAdmin_ops].
  unfold Category_objects_delete. rewrite decide_True by done. simpl. split_and!.
  - intros (c & Hc & (Hne & _)%list_elem_of_filter)%list_elem_of_fmap. congruence.
  - done.
  - unfold related_tasks. simpl. apply filter_empty_iff, Forall_forall.
    intros t [? _]%list_elem_of_filter. done.
Qed.

(** The delete view deletes nothing without POST data: a GET only
    shows the confirmation page. *)
Theorem delete_view_get_safe ops st oid request :
  POST request = [] -> (delete_view ops st oid request).1 = st.
Proof.
  intros Hp. unfold delete_view. repeat case_match; simpl; try done.
Qed.

(** ** Witnesses *)
Lemma TaskAdmin_change_updates_witness :
  let st := add_task_row (Category_objects_create "Home" empty_store).1
              (mkTask 1 "Milk" (mkdate 2024 10 25) false 1) in
  let request := mkRequest "POST" [("title", "Milk"); ("due_date", "2024-10-25");
                                   ("completed", "on"); ("category", "1")] in
  changeform_view TaskAdmin_ops st (Some "1") request =
    (mkStore (categories st) [mkTask 1 "Milk" (mkdate 2024 10 25) true 1] 2 2,
     Admin_redirect "admin:tasks_task_changelist" []).
Proof.
  intros st request.
  rewrite (TaskAdmin_change_updates st "1" request 1 "Milk" (mkdate 2024 10 25) true (mkCategory 1 "Home"))
    by (vm_compute; reflexivity).
  vm_compute. reflexivity.
Defined.

Lemma TaskAdmin_add_creates_witness :
  let st := (Category_objects_create "Home" empty_store).1 in
  let request := mkRequest "POST" [("title", "Milk"); ("due_date", "Oct 25 2024");
                                   ("completed", "on"); ("category", "1"); ("_addanother", "")] in
  changeform_view TaskAdmin_ops st None request =
    (add_task_row st (mkTask 1 "Milk" (mkdate 2024 10 25) true 1),
     Admin_redirect "admin:tasks_task_add" []).
Proof.
  intros st request.
  rewrite (TaskAdmin_add_creates st request "Milk" (mkdate 2024 10 25) true (mkCategory 1 "Home"))
    by (vm_compute; reflexivity).
  vm_compute. reflexivity.
Defined.

Lemma CategoryAdmin_delete_protected_witness :
  let st := add_task_row (Category_objects_create "Home" empty_store).1
              (mkTask 1 "Milk" (mkdate 2024 10 25) false 1) in
  get_object (CategoryAdmin_ops 100 PROTECT) "1" st = Some 1 /\ related_tasks 1 st <> [] /\
  delete_view (CategoryAdmin_ops 100 PROTECT) st "1" (mkRequest "POST" [("post", "yes")]) =
    (st, Admin_delete_confirmation true).
Proof.
  intros st.
  assert (Hg : get_object (CategoryAdmin_ops 100 PROTECT) "1" st = Some 1) by (vm_compute; reflexivity).
  assert (Hr : related_tasks 1 st <> []) by (vm_compute; discriminate).
  split_and!; [exact Hg | exact Hr | exact (CategoryAdmin_delete_protected _ _ _ _ _ Hg Hr)].
Defined.

Lemma CategoryAdmin_delete_cascade_witness :
  let st := add_task_row (Category_objects_create "Home" empty_store).1
              (mkTask 1 "Milk" (mkdate 2024 10 25) false 1) in
  let request := mkRequest "POST" [("post", "yes")] in
  get_object (CategoryAdmin_ops 100 CASCADE) "1" st = Some 1 /\ POST request <> [] /\
  tasks (delete_view (CategoryAdmin_ops 100 CASCADE) st "1" request).1 = [].
Proof.
  intros st request.
  assert (Hg : get_object (CategoryAdmin_ops 100 CASCADE) "1" st = Some 1) by (vm_compute; reflexivity).
  assert (Hp : POST request <> []) by discriminate.
  split_and!; [exact Hg | exact Hp |].
  destruct (CategoryAdmin_delete_cascade 100 st "1" request 1 Hg Hp) as (_ & -> & _).
  vm_compute. reflexivity.
Defined.

Lemma delete_view_get_safe_witness :
  let st := add_task_row (Category_objects_create "Home" empty_store).1
              (mkTask 1 "Milk" (mkdate 2024 10 25) false 1) in
  POST (mkRequest "GET" []) = [] /\
  (delete_view TaskAdmin_ops st "1" (mkRequest "GET" [])).1 = st.
Proof.
  intros st. split; [reflexivity | exact (delete_view_get_safe TaskAdmin_ops st "1" (mkRequest "GET" []) eq_refl)].
Defined.


End AdminViews.
