(* ===== verification/AdminActions.v ===== *)
(** * AdminActions: the bulk action of the admin's change lists

    Each [ModelAdmin] that [src/tasks/admin.py] registers serves a change
    list whose rows carry a checkbox ([_selected_action]) and an action
    menu with the one site-wide action, [delete_selected].  A POST to the
    change list runs the chosen action on the checked rows:
    [ModelAdmin.changelist_view] picks one of its two action branches (the
    button of the action bar, which posts [index], or the confirmation
    page, which does not), [ModelAdmin.response_action] builds the action
    form from the posted data and filters the queryset by [pk__in], and
    [actions.delete_selected] either renders the confirmation page or,
    once confirmed by [post] and when nothing is protected, deletes the
    rows with [delete_queryset].  The views are written over the
    [ModelAdminOps] of [AdminViews], so that they serve both models.

    The theorems: the action keeps any property the deletion of a row
    keeps; a confirmed bulk delete of categories removes exactly the
    selected categories and, under [CASCADE], their tasks; under
    [PROTECT] it deletes nothing when one of them still has a task; no
    row is deleted before the confirmation; a selected value [int()]
    rejects is a server error; the action form reads the action of the
    button that was pushed, Python's negative indices included; "Select
    all" ([select_across]) applies the action to every row; the
    row-by-row [delete_queryset] equals the [Collector]'s deletion of the
    whole queryset ([Models.Category_queryset_delete]); and every request
    to the category change list refines [changelist_contract]: no change,
    or one such deletion of rows the change list shows. *)

From S2P Require Import Prelude PyStr Strptime Models Fields Forms Views AdminViews.

Module AdminActions.
Import PyStr Strptime Models Fields Forms Views AdminViews.

(** ** The posted data *)

(** [request.POST.getlist(key)]: every value posted under [key], in order. *)
Definition getlist (data : list (string * string)) (key : string) : list string :=
  snd <$> filter (fun kv => kv.1 = key) data.

(** [helpers.ACTION_CHECKBOX_NAME]. *)
Definition ACTION_CHECKBOX_NAME : string := "_selected_action".

(** [request.POST.get(key)] is truthy: posted, and not the empty string. *)
Definition truthy (v : option string) : bool :=
  match v with
  | Some s => negb (String.eqb s "")
  | None => false
  end.

(** Python's [l[i]]: a negative index counts from the end; [None] is the
    [IndexError]. *)
Definition py_index {A} (l : list A) (i : Z) : option A :=
  if decide (0 <= i)%Z then l !! Z.to_nat i
  else if decide (0 <= Z.of_nat (length l) + i)%Z then l !! Z.to_nat (Z.of_nat (length l) + i)
  else None.

(** ** [ModelAdmin.response_action] *)

(** [int(request.POST.get("index", 0))], and [0] on [ValueError]. *)
Definition action_index (post : list (string * string)) : Z :=
  match post @? "index" with
  | None => 0%Z
  | Some s => default 0%Z (int_of_string s)
  end.

(** The data of the action form: [request.POST.copy()] without the
    checkboxes and [index]; then [data.update({"action": ...})] with the
    action of the pushed button, which [MultiValueDict.update] appends
    after the posted ones; on [IndexError] the data is left as it is. *)
Definition action_form_data (post : list (string * string)) : list (string * string) :=
  let data := filter (fun kv => kv.1 <> ACTION_CHECKBOX_NAME /\ kv.1 <> "index") post in
  match py_index (getlist data "action") (action_index post) with
  | Some a => data ++ [("action", a)]
  | None => data
  end.

(** [ModelAdmin.get_actions] for a superuser outside a popup: the
    site-wide [delete_selected]. *)
Definition actions : list string := ["delete_selected"].

(** [ActionForm(data)] cleaned: [action] is a required [ChoiceField] over
    [BLANK_CHOICE_DASH] and the actions, so the blank choice is an error;
    [select_across] is a [BooleanField] read through a [HiddenInput].
    [None] is an invalid form ("No action selected."). *)
Definition clean_action_form (data : list (string * string)) : option (string * bool) :=
  match data @? "action" with
  | Some a =>
      if decide (a ∈ actions) then
        match clean_bool (data @? "select_across") with
        | Ok b => Some (a, b)
        | Err _ => None
        end
      else None
  | None => None
  end.

(** [queryset.filter(pk__in=selected)] on the change list's queryset: the
    lookup passes each selected value through [int()], whose [ValueError]
    escapes ([None]: a 500); the rows keep the change list's order. *)
Definition filter_pk_in (ops : ModelAdminOps) (st : Store) (selected : list string)
    : option (list nat) :=
  (fun ks => filter (fun pk => Z.of_nat pk ∈ ks) (ma_pks ops st)) <$> mapM int_of_string selected.

(** [modeladmin.delete_queryset(request, queryset)]: [queryset.delete()],
    row after row; [None] when one of the rows is protected. *)
Definition delete_queryset (ops : ModelAdminOps) (pks : list nat) (st : Store) : option Store :=
  foldl (fun acc pk => acc ≫= ma_delete ops pk) (Some st) pks.

(** [actions.delete_selected] for a superuser: the rows are deleted when
    [request.POST.get("post")] is truthy and nothing is protected, and the
    action returns [None]; otherwise the confirmation page, which lists
    the protected objects. *)
Definition delete_selected (ops : ModelAdminOps) (st : Store) (post : list (string * string))
    (pks : list nat) : Store * option AdminResponse :=
  match delete_queryset ops pks st with
  | Some st' =>
      if truthy (post @? "post") then (st', None) else (st, Some (Admin_delete_confirmation false))
  | None => (st, Some (Admin_delete_confirmation true))
  end.

(** [ModelAdmin.response_action]: [None] when the action form is invalid
    or nothing is selected without [select_across]; an action that
    returns [None] is answered by a redirect to the change list. *)
Definition response_action (ops : ModelAdminOps) (st : Store) (post : list (string * string))
    : Store * option AdminResponse :=
  match clean_action_form (action_form_data post) with
  | None => (st, None)
  | Some (_, select_across) =>
      let selected := getlist post ACTION_CHECKBOX_NAME in
      if bool_decide (selected = []) && negb select_across then (st, None)
      else
        match (if select_across then Some (ma_pks ops st) else filter_pk_in ops st selected) with
        | None => (st, Some Admin_server_error)
        | Some pks =>
            let '(st', r) := delete_selected ops st post pks in
            (st', Some (default (Admin_redirect (url_name ops "changelist") []) r))
        end
  end.

(** ** [ModelAdmin.changelist_view] *)

(** A POST with [index] (the button of the action bar) and without
    [_save] runs the action on a non-empty selection; a POST with
    checkboxes and neither [index] nor [_save] (the confirmation page)
    also does.  An action that answers nothing, and an empty selection
    under the action bar, redirect back to the change list ([action_failed]).
    Anything else renders the change list: without [list_editable] a
    POST of [_save] changes nothing. *)
Definition changelist_view (ops : ModelAdminOps) (st : Store) (request : Request)
    : Store * AdminResponse :=
  let post := POST request in
  let is_post := String.eqb (method request) "POST" in
  let selected := getlist post ACTION_CHECKBOX_NAME in
  let run_action :=
    match response_action ops st post with
    | (st', Some r) => (st', r)
    | (st', None) => (st', Admin_redirect (url_name ops "changelist") [])
    end in
  if is_post && has_key post "index" && negb (has_key post "_save") then
    if bool_decide (selected = []) then (st, Admin_redirect (url_name ops "changelist") [])
    else run_action
  else if is_post && has_key post ACTION_CHECKBOX_NAME && negb (has_key post "index")
          && negb (has_key post "_save") then
    if bool_decide (selected = []) then (st, Admin_changelist_page) else run_action
  else (st, Admin_changelist_page).

(** The checkboxes of the selected rows, as the change list posts them. *)
Definition checkboxes (selected : list string) : list (string * string) :=
  (fun v => (ACTION_CHECKBOX_NAME, v)) <$> selected.

(** The POST of the action bar: the checked rows, the action chosen in its
    menu, the hidden [select_across] and the button's [index]. *)
Definition action_bar_post (action : string) (selected : list string) : list (string * string) :=
  checkboxes selected ++ [("action", action); ("select_across", "0"); ("index", "0")].

(** The POST of the confirmation page [delete_selected_confirmation.html]:
    a hidden checkbox per row, the action, and [post=yes]. *)
Definition confirmation_post (selected : list string) : list (string * string) :=
  checkboxes selected ++ [("action", "delete_selected"); ("post", "yes")].

(** The POST of the action bar after "Select all": [select_across=1]. *)
Definition select_all_post (action : string) (selected : list string) : list (string * string) :=
  checkboxes selected ++ [("action", action); ("select_across", "1"); ("index", "0")].

(** ** The contract of the change list *)

(** What a request to a change list may do to the store, given the
    deletion [del] of a queryset: leave it as it is, or delete rows of
    the change list in one queryset deletion. *)
Definition changelist_contract (ops : ModelAdminOps) (del : list nat -> Store -> option Store)
    (st st' : Store) : Prop :=
  st' = st \/ exists pks, pks ⊆ ma_pks ops st /\ del pks st = Some st'.

(** Two categories, each with one task. *)
Definition demo_store : Store :=
  mkStore [mkCategory 1 "Home"; mkCategory 2 "Work"]
    [mkTask 1 "Milk" (mkdate 2024 10 25) false 1; mkTask 2 "Report" (mkdate 2024 11 1) false 2] 3 3.

(** ** Lemmas on the posted data *)

Lemma checkboxes_absent k selected :
  k <> ACTION_CHECKBOX_NAME -> Forall (fun p => p.1 <> k) (checkboxes selected).
Proof. intros Hk. apply Forall_fmap, Forall_forall. naive_solver. Qed.

(** Every key but the checkboxes' is read past them. *)
Lemma checkboxes_lookup k selected rest :
  k <> ACTION_CHECKBOX_NAME -> (checkboxes selected ++ rest) @? k = rest @? k.
Proof. intros Hk. by apply lookup_last_app_absent, checkboxes_absent. Qed.

Lemma checkboxes_has_key selected rest :
  selected <> [] -> has_key (checkboxes selected ++ rest) ACTION_CHECKBOX_NAME = true.
Proof.
  intros Hs. apply bool_decide_eq_true. rewrite lookup_last_app.
  destruct (rest @? _); [done|]. destruct selected as [|v sel] using rev_ind; [done|].
  exists v. unfold checkboxes. rewrite fmap_app, lookup_last_app. simpl.
  done.
Qed.

Lemma getlist_checkboxes selected rest :
  getlist (checkboxes selected ++ rest) ACTION_CHECKBOX_NAME =
  selected ++ getlist rest ACTION_CHECKBOX_NAME.
Proof.
  induction selected as [|v sel IH]; [done|].
  unfold getlist in *. cbn [checkboxes fmap list_fmap app]. rewrite filter_cons_True by done.
  cbn. by f_equal.
Qed.

(** The checkboxes take no part in the action form. *)
Lemma action_form_data_checkboxes selected rest :
  action_form_data (checkboxes selected ++ rest) = action_form_data rest.
Proof.
  unfold action_form_data, action_index. rewrite checkboxes_lookup by done.
  rewrite filter_app, (proj2 (filter_empty_iff _ _)); [done|].
  apply Forall_fmap, Forall_forall. intros v _ [Hk _]. by apply Hk.
Qed.

Lemma mapM_int_of_string_str_nat ks :
  mapM int_of_string (str_nat <$> ks) = Some (Z.of_nat <$> ks).
Proof. induction ks as [|k ks IH]; [done|]. rewrite !fmap_cons. cbn [mapM]. by rewrite int_of_string_str_nat, IH. Qed.

(** The rows [pk__in] selects from the printed primary keys. *)
Lemma filter_pk_in_str_nat ops st ks :
  filter_pk_in ops st (str_nat <$> ks) = Some (filter (fun pk => pk ∈ ks) (ma_pks ops st)).
Proof.
  unfold filter_pk_in. rewrite mapM_int_of_string_str_nat. simpl. f_equal.
  apply list_filter_iff. intros pk. rewrite list_elem_of_fmap.
  split; [intros (k & Hk & ?); by apply Nat2Z.inj in Hk as -> | eauto].
Qed.

(** With the action menu shown twice ([actions_on_bottom]), the form
    reads the menu of the pushed button: [index=1] and [index=-1] pick
    the second menu, [index=0] the first (here blank, an invalid form),
    and an index out of range falls back to the last posted menu. *)
Lemma action_form_pushed_button :
  let post i := checkboxes ["1"] ++ [("action", ""); ("action", "delete_selected"); ("index", i)] in
  clean_action_form (action_form_data (post "1")) = Some ("delete_selected", false) /\
  clean_action_form (action_form_data (post "-1")) = Some ("delete_selected", false) /\
  clean_action_form (action_form_data (post "0")) = None /\
  clean_action_form (action_form_data (post "7")) = Some ("delete_selected", false).
Proof. split_and!; reflexivity. Qed.

(** ** [delete_queryset] *)

Lemma delete_queryset_cons ops pk pks st :
  delete_queryset ops (pk :: pks) st = ma_delete ops pk st ≫= delete_queryset ops pks.
Proof.
  unfold delete_queryset. simpl. destruct (ma_delete ops pk st); simpl; [done|].
  apply foldl_bind_None.
Qed.

Section Preserve.
Context (ops : ModelAdminOps) (P : Store -> Prop).
Context (HW : AdminPreserves ops wf_store) (HP : AdminPreserves ops P).

Lemma delete_queryset_preserves pks st st' :
  wf_store st -> P st -> delete_queryset ops pks st = Some st' -> wf_store st' /\ P st'.
Proof.
  revert st. induction pks as [|pk pks IH]; intros st Hwf Hp; [by intros [= <-]|].
  rewrite delete_queryset_cons. destruct (ma_delete ops pk st) as [st1|] eqn:E; [|done].
  apply IH; [by eapply (ma_delete_preserves _ _ HW) | by eapply (ma_delete_preserves _ _ HP)].
Qed.

Lemma response_action_preserves st post :
  wf_store st -> P st -> wf_store (response_action ops st post).1 /\ P (response_action ops st post).1.
Proof.
  intros Hwf Hp. unfold response_action, delete_selected.
  repeat (case_match; simplify_eq/=; try done); by eapply delete_queryset_preserves.
Qed.

(** The change list keeps every property that the deletion of a row
    keeps: only the bulk action writes, and it only deletes. *)
Lemma changelist_view_preserves st request :
  wf_store st -> P st -> wf_store (changelist_view ops st request).1 /\ P (changelist_view ops st request).1.
Proof.
  intros Hwf Hp. pose proof (response_action_preserves st (POST request) Hwf Hp) as Hr.
  unfold changelist_view. repeat (case_match; simplify_eq/=; try done).
Qed.

End Preserve.

(** ** The two requests of a bulk delete *)

Lemma getlist_action_bar_post a selected :
  getlist (action_bar_post a selected) ACTION_CHECKBOX_NAME = selected.
Proof. unfold action_bar_post. rewrite getlist_checkboxes. apply app_nil_r. Qed.

Lemma getlist_confirmation_post selected :
  getlist (confirmation_post selected) ACTION_CHECKBOX_NAME = selected.
Proof. unfold confirmation_post. rewrite getlist_checkboxes. apply app_nil_r. Qed.

(** The action form of the action bar holds the chosen action, and is
    valid exactly when it is one of the actions. *)
Lemma action_bar_action_form a selected :
  clean_action_form (action_form_data (action_bar_post a selected)) =
  if decide (a ∈ actions) then Some (a, false) else None.
Proof.
  unfold action_bar_post. rewrite action_form_data_checkboxes.
  unfold action_form_data, clean_action_form. simpl. done.
Qed.

Lemma confirmation_action_form selected :
  clean_action_form (action_form_data (confirmation_post selected)) = Some ("delete_selected", false).
Proof. unfold confirmation_post. by rewrite action_form_data_checkboxes. Qed.

Lemma str_nat_selected_nonempty ks : ks <> [] -> bool_decide (str_nat <$> ks = []) = false.
Proof. intros Hks. apply bool_decide_eq_false_2. by destruct ks. Qed.

(** The confirmation page posted back: the selected rows that exist are
    deleted, unless one of them is protected. *)
Lemma response_action_confirmation ops st ks :
  ks <> [] ->
  response_action ops st (confirmation_post (str_nat <$> ks)) =
  match delete_queryset ops (filter (fun pk => pk ∈ ks) (ma_pks ops st)) st with
  | Some st' => (st', Some (Admin_redirect (url_name ops "changelist") []))
  | None => (st, Some (Admin_delete_confirmation true))
  end.
Proof.
  intros Hks. unfold response_action.
  rewrite confirmation_action_form, getlist_confirmation_post, str_nat_selected_nonempty by done.
  simpl. rewrite filter_pk_in_str_nat. unfold delete_selected.
  destruct (delete_queryset _ _ _); [|done].
  unfold confirmation_post. by rewrite checkboxes_lookup.
Qed.

(** The action bar with [delete_selected]: never a deletion, the
    confirmation page. *)
Lemma response_action_action_bar ops st ks :
  ks <> [] ->
  response_action ops st (action_bar_post "delete_selected" (str_nat <$> ks)) =
  (st, Some (Admin_delete_confirmation
               (bool_decide (delete_queryset ops (filter (fun pk => pk ∈ ks) (ma_pks ops st)) st = None)))).
Proof.
  intros Hks. unfold response_action.
  rewrite action_bar_action_form, decide_True by (by left).
  rewrite getlist_action_bar_post, str_nat_selected_nonempty by done.
  simpl. rewrite filter_pk_in_str_nat. unfold delete_selected.
  destruct (delete_queryset _ _ _); [|done].
  unfold action_bar_post. by rewrite checkboxes_lookup.
Qed.

Lemma has_key_checkboxes k selected rest :
  k <> ACTION_CHECKBOX_NAME -> has_key (checkboxes selected ++ rest) k = has_key rest k.
Proof. intros Hk. unfold has_key. by rewrite checkboxes_lookup. Qed.

(** [changelist_view] on the confirmation page posted back. *)
Lemma changelist_view_confirmation ops st ks :
  ks <> [] ->
  changelist_view ops st (mkRequest "POST" (confirmation_post (str_nat <$> ks))) =
  match delete_queryset ops (filter (fun pk => pk ∈ ks) (ma_pks ops st)) st with
  | Some st' => (st', Admin_redirect (url_name ops "changelist") [])
  | None => (st, Admin_delete_confirmation true)
  end.
Proof.
  intros Hks. unfold changelist_view. cbn [POST method].
  rewrite getlist_confirmation_post, str_nat_selected_nonempty, response_action_confirmation by done.
  unfold confirmation_post. rewrite !has_key_checkboxes, checkboxes_has_key by (by destruct ks).
  simpl. by destruct (delete_queryset _ _ _).
Qed.

(** ** Bulk deletes of categories *)

Lemma Category_delete_queryset_cascade n pks st :
  delete_queryset (CategoryAdmin_ops n CASCADE) pks st =
  Some (mkStore (filter (fun c => cat_id c ∉ pks) (categories st))
          (filter (fun t => category t ∉ pks) (tasks st)) (next_category_id st) (next_task_id st)).
Proof.
  revert st. induction pks as [|k pks IH]; intros st.
  - rewrite !filter_not_in_nil. by destruct st.
  - rewrite delete_queryset_cons. simpl. rewrite IH. simpl. by rewrite !filter_not_in_cons.
Qed.

Lemma Category_delete_queryset_protect n pks st :
  Forall (fun k => related_tasks k st = []) pks ->
  delete_queryset (CategoryAdmin_ops n PROTECT) pks st =
  Some (mkStore (filter (fun c => cat_id c ∉ pks) (categories st)) (tasks st)
          (next_category_id st) (next_task_id st)).
Proof.
  revert st. induction pks as [|k pks IH]; intros st Hr.
  - rewrite !filter_not_in_nil. by destruct st.
  - apply Forall_cons in Hr as [Hk Hr]. rewrite delete_queryset_cons. simpl.
    rewrite decide_True by done. simpl. rewrite IH by exact Hr. simpl. by rewrite filter_not_in_cons.
Qed.

Lemma Category_delete_queryset_protected n pks st :
  Exists (fun k => related_tasks k st <> []) pks ->
  delete_queryset (CategoryAdmin_ops n PROTECT) pks st = None.
Proof.
  revert st. induction pks as [|k pks IH]; intros st Hr; [by apply Exists_nil in Hr|].
  rewrite delete_queryset_cons. simpl. case_decide as Hk; simpl.
  - apply IH. apply Exists_cons in Hr as [? | Hr]; [done | exact Hr].
  - done.
Qed.

(** No task points to any of [pks] exactly when each of them has no
    related task. *)
Lemma related_tasks_none pks st :
  filter (fun t => category t ∈ pks) (tasks st) = [] <-> Forall (fun k => related_tasks k st = []) pks.
Proof.
  unfold related_tasks. rewrite filter_empty_iff, !Forall_forall.
  setoid_rewrite filter_empty_iff. setoid_rewrite Forall_forall. naive_solver.
Qed.

(** The row-by-row deletion of categories is the [Collector]'s deletion
    of the whole queryset. *)
Lemma Category_delete_queryset_collector n policy pks st :
  delete_queryset (CategoryAdmin_ops n policy) pks st = Category_queryset_delete policy pks st.
Proof.
  destruct policy; [apply Category_delete_queryset_cascade|]. unfold Category_queryset_delete.
  case_decide as H.
  - by apply Category_delete_queryset_protect, related_tasks_none.
  - apply Category_delete_queryset_protected.
    rewrite related_tasks_none in H. by apply not_Forall_Exists in H; [|apply _].
Qed.

(** ** Bulk deletes of tasks *)

Lemma Task_delete_queryset pks st :
  delete_queryset TaskAdmin_ops pks st = Some (Task_queryset_delete pks st).
Proof.
  unfold Task_queryset_delete. revert st. induction pks as [|k pks IH]; intros st.
  - rewrite filter_not_in_nil. by destruct st.
  - rewrite delete_queryset_cons. simpl. rewrite IH. simpl. by rewrite filter_not_in_cons.
Qed.

(** The confirmation page of a bulk delete of every task of the change
    list, posted back, empties the task table. *)
Lemma changelist_delete_all_tasks st :
  tasks st <> [] ->
  tasks (changelist_view TaskAdmin_ops st
           (mkRequest "POST" (confirmation_post (str_nat <$> ma_pks TaskAdmin_ops st)))).1 = [].
Proof.
  intros Ht. rewrite changelist_view_confirmation.
  - rewrite filter_all_in by done. rewrite Task_delete_queryset. simpl. unfold Task_queryset_delete.
    apply filter_empty_iff, Forall_forall. intros t Ht' Hn. apply Hn, elem_of_rev, list_elem_of_fmap.
    by exists t.
  - cbn [ma_pks TaskAdmin_ops]. destruct (tasks st) as [|t ts]; [done|]. simpl.
    by intros [? ?]%app_eq_nil.
Qed.

(** ** The contract and "Select all" *)

Lemma response_action_contract ops st post :
  changelist_contract ops (delete_queryset ops) st (response_action ops st post).1.
Proof.
  unfold response_action, delete_selected, filter_pk_in, changelist_contract.
  repeat (case_match; simplify_eq/=; try by left).
  all: right; repeat match goal with H : _ <$> _ = Some _ |- _ => apply fmap_Some in H as (? & _ & ->) end.
  all: eexists; split; [|eassumption]; intros y Hy; try apply list_elem_of_filter in Hy as [_ Hy]; done.
Qed.

Lemma changelist_view_contract ops st request :
  changelist_contract ops (delete_queryset ops) st (changelist_view ops st request).1.
Proof.
  pose proof (response_action_contract ops st (POST request)) as Hr.
  unfold changelist_view. repeat (case_match; simplify_eq/=; try by left).
  all: done.
Qed.

Lemma select_all_action_form a selected :
  clean_action_form (action_form_data (select_all_post a selected)) =
  if decide (a ∈ actions) then Some (a, true) else None.
Proof.
  unfold select_all_post. rewrite action_form_data_checkboxes.
  unfold action_form_data, clean_action_form. simpl. done.
Qed.

Lemma getlist_select_all_post a selected :
  getlist (select_all_post a selected) ACTION_CHECKBOX_NAME = selected.
Proof. unfold select_all_post. rewrite getlist_checkboxes. apply app_nil_r. Qed.

(** ** The bulk action *)

(** [C20] A confirmed bulk delete of categories under [on_delete=CASCADE]
    removes exactly the selected categories and every task that points to
    one of them, leaves the counters alone, and redirects to the change
    list. *)
Theorem CategoryAdmin_bulk_delete_cascade n st ks :
  wf_store st -> ks <> [] ->
  changelist_view (CategoryAdmin_ops n CASCADE) st (mkRequest "POST" (confirmation_post (str_nat <$> ks))) =
  (mkStore (filter (fun c => cat_id c ∉ ks) (categories st))
     (filter (fun t => category t ∉ ks) (tasks st)) (next_category_id st) (next_task_id st),
   Admin_redirect "admin:tasks_category_changelist" []).
Proof.
  intros (_ & _ & _ & _ & Hfk) Hks.
  rewrite changelist_view_confirmation, Category_delete_queryset_cascade by done.
  cbn [ma_pks CategoryAdmin_ops]. do 2 f_equal; apply filter_ext_in.
  - intros c Hc. apply not_in_filter_in, elem_of_rev, list_elem_of_fmap. by exists c.
  - intros t Ht. apply not_in_filter_in, elem_of_rev. rewrite Forall_forall in Hfk. by apply Hfk.
Qed.

(** [C21] Under [on_delete=PROTECT], a confirmed bulk delete of categories
    one of which a task still points to deletes nothing, not even the
    unprotected ones, and shows the confirmation page with the protected
    objects. *)
Theorem CategoryAdmin_bulk_delete_protected n st ks k :
  wf_store st -> k ∈ ks -> related_tasks k st <> [] ->
  changelist_view (CategoryAdmin_ops n PROTECT) st (mkRequest "POST" (confirmation_post (str_nat <$> ks))) =
  (st, Admin_delete_confirmation true).
Proof.
  intros (_ & _ & _ & _ & Hfk) Hk Hr.
  assert (Hks : ks <> []) by (intros ->; by apply elem_of_nil in Hk).
  rewrite changelist_view_confirmation by done. rewrite Category_delete_queryset_protected; [done|].
  apply Exists_exists. exists k. split; [|done].
  apply list_elem_of_filter. split; [done|]. cbn [ma_pks CategoryAdmin_ops]. apply elem_of_rev.
  destruct (related_tasks k st) as [|t ts] eqn:E; [done|].
  assert (Ht : t ∈ related_tasks k st) by (rewrite E; left).
  apply list_elem_of_filter in Ht as [<- Ht]. rewrite Forall_forall in Hfk. by apply Hfk.
Qed.

(** [C22] No row is deleted before the confirmation: the action bar's
    POST of [delete_selected] on a non-empty selection, for either model,
    leaves the store as it is and answers the confirmation page, which
    lists the protected objects when there are any. *)
Theorem changelist_action_bar_confirms ops st ks :
  ks <> [] ->
  changelist_view ops st (mkRequest "POST" (action_bar_post "delete_selected" (str_nat <$> ks))) =
  (st, Admin_delete_confirmation
         (bool_decide (delete_queryset ops (filter (fun pk => pk ∈ ks) (ma_pks ops st)) st = None))).
Proof.
  intros Hks. unfold changelist_view. cbn [POST method].
  rewrite getlist_action_bar_post, str_nat_selected_nonempty, response_action_action_bar by done.
  unfold action_bar_post. rewrite !has_key_checkboxes by done. done.
Qed.

(** [C23] A bulk action whose selection holds a value [int()] rejects
    fails with a server error (the [ValueError] of the [pk__in] lookup
    escapes) and deletes nothing. *)
Theorem changelist_bad_selection ops st selected :
  selected <> [] -> mapM int_of_string selected = None ->
  changelist_view ops st (mkRequest "POST" (confirmation_post selected)) = (st, Admin_server_error).
Proof.
  intros Hs Hm. unfold changelist_view. cbn [POST method].
  rewrite getlist_confirmation_post, bool_decide_eq_false_2 by done.
  unfold response_action. rewrite confirmation_action_form, getlist_confirmation_post.
  rewrite bool_decide_eq_false_2 by done. simpl. unfold filter_pk_in. rewrite Hm.
  unfold confirmation_post. by rewrite checkboxes_has_key, !has_key_checkboxes.
Qed.

(** [C24] The action bar posted with the blank choice, or with any name
    that is not an action, runs nothing: the store is left as it is and
    the change list is shown again ("No action selected."). *)
Theorem changelist_no_action ops st a selected :
  a ∉ actions -> selected <> [] ->
  changelist_view ops st (mkRequest "POST" (action_bar_post a selected)) =
  (st, Admin_redirect (url_name ops "changelist") []).
Proof.
  intros Ha Hs. unfold changelist_view. cbn [POST method].
  rewrite getlist_action_bar_post, bool_decide_eq_false_2 by done.
  unfold response_action. rewrite action_bar_action_form, decide_False by done.
  unfold action_bar_post. by rewrite (has_key_checkboxes "index"), (has_key_checkboxes "_save").
Qed.
(** [C25] The category change list refines its contract: whatever is
    posted to it, the store is either left as it is or changed by one
    [Collector] deletion of rows the change list shows. *)
Theorem CategoryAdmin_changelist_refines n policy st request :
  changelist_contract (CategoryAdmin_ops n policy) (Category_queryset_delete policy) st
    (changelist_view (CategoryAdmin_ops n policy) st request).1.
Proof.
  destruct (changelist_view_contract (CategoryAdmin_ops n policy) st request) as [He | (pks & Hs & Hd)];
    [by left | right].
  exists pks. split; [done|]. by rewrite <- (Category_delete_queryset_collector n).
Qed.

(** [C26] "Select all": the action bar posted with [select_across=1]
    applies the action to every row of the change list, whichever boxes
    are checked (their values are not even read by [int()]): it deletes
    nothing yet and shows the confirmation page for all rows. *)
Theorem changelist_select_across ops st selected :
  selected <> [] ->
  changelist_view ops st (mkRequest "POST" (select_all_post "delete_selected" selected)) =
  (st, Admin_delete_confirmation (bool_decide (delete_queryset ops (ma_pks ops st) st = None))).
Proof.
  intros Hs. unfold changelist_view. cbn [POST method].
  rewrite getlist_select_all_post, bool_decide_eq_false_2 by done.
  unfold response_action. rewrite select_all_action_form, decide_True by (by left).
  simpl. unfold delete_selected. unfold select_all_post.
  rewrite (has_key_checkboxes "index"), (has_key_checkboxes "_save"), checkboxes_lookup by done.
  rewrite andb_false_r. simpl. by destruct (delete_queryset _ _ _).
Qed.

(** ** Witnesses *)

Lemma demo_store_wf : wf_store demo_store.
Proof. unfold wf_store, ids_below. simpl. split_and!; repeat constructor; lia. Qed.

Lemma CategoryAdmin_bulk_delete_cascade_witness :
  wf_store demo_store /\ [1] <> [] /\
  changelist_view (CategoryAdmin_ops 100 CASCADE) demo_store
    (mkRequest "POST" (confirmation_post (str_nat <$> [1]))) =
  (mkStore [mkCategory 2 "Work"] [mkTask 2 "Report" (mkdate 2024 11 1) false 2] 3 3,
   Admin_redirect "admin:tasks_category_changelist" []).
Proof.
  split; [exact demo_store_wf|]. split; [done|].
  rewrite (CategoryAdmin_bulk_delete_cascade 100 demo_store [1] demo_store_wf ltac:(done)).
  vm_compute. reflexivity.
Defined.

Lemma CategoryAdmin_bulk_delete_protected_witness :
  wf_store demo_store /\ 2 ∈ [1; 2] /\ related_tasks 2 demo_store <> [] /\
  changelist_view (CategoryAdmin_ops 100 PROTECT) demo_store
    (mkRequest "POST" (confirmation_post (str_nat <$> [1; 2]))) =
  (demo_store, Admin_delete_confirmation true).
Proof.
  assert (Hk : 2 ∈ [1; 2]) by (right; left).
  assert (Hr : related_tasks 2 demo_store <> []) by (vm_compute; discriminate).
  split; [exact demo_store_wf|]. split; [exact Hk|]. split; [exact Hr|].
  exact (CategoryAdmin_bulk_delete_protected 100 demo_store [1; 2] 2 demo_store_wf Hk Hr).
Defined.

Lemma changelist_action_bar_confirms_witness :
  [2] <> [] /\
  changelist_view TaskAdmin_ops demo_store
    (mkRequest "POST" (action_bar_post "delete_selected" (str_nat <$> [2]))) =
  (demo_store, Admin_delete_confirmation false).
Proof.
  split; [done|]. rewrite (changelist_action_bar_confirms TaskAdmin_ops demo_store [2] ltac:(done)).
  vm_compute. reflexivity.
Defined.

Lemma changelist_bad_selection_witness :
  ["1"; "two"] <> [] /\ mapM int_of_string ["1"; "two"] = None /\
  changelist_view TaskAdmin_ops demo_store (mkRequest "POST" (confirmation_post ["1"; "two"])) =
  (demo_store, Admin_server_error).
Proof.
  assert (Hm : mapM int_of_string ["1"; "two"] = None) by (vm_compute; reflexivity).
  split; [done|]. split; [exact Hm|].
  exact (changelist_bad_selection TaskAdmin_ops demo_store ["1"; "two"] ltac:(done) Hm).
Defined.

Lemma changelist_no_action_witness :
  "" ∉ actions /\ ["1"] <> [] /\
  changelist_view TaskAdmin_ops demo_store (mkRequest "POST" (action_bar_post "" ["1"])) =
  (demo_store, Admin_redirect "admin:tasks_task_changelist" []).
Proof.
  assert (Ha : "" ∉ actions) by (unfold actions; set_solver).
  split; [exact Ha|]. split; [done|].
  exact (changelist_no_action TaskAdmin_ops demo_store "" ["1"] Ha ltac:(done)).
Defined.

Lemma changelist_select_across_witness :
  ["not a number"] <> [] /\
  changelist_view (CategoryAdmin_ops 100 PROTECT) demo_store
    (mkRequest "POST" (select_all_post "delete_selected" ["not a number"])) =
  (demo_store, Admin_delete_confirmation true).
Proof.
  split; [done|].
  rewrite (changelist_select_across (CategoryAdmin_ops 100 PROTECT) demo_store ["not a number"] ltac:(done)).
  vm_compute. reflexivity.
Defined.

End AdminActions.
