(* ===== verification/System.v ===== *)
(** * System: the page and the admin on one datastore

    The application serves two kinds of requests on one database: the
    [index] page of [src/tasks/views.py], and the add, change, delete and
    change-list views (with its bulk [delete_selected]) that
    [src/tasks/admin.py] installs for [Category] and [Task].
    A step of the system is one request to any of them; the stores it can
    reach are those the empty database steps to.  [serve] dispatches a
    request to the view it reaches (the URL configuration, not among the
    sources, decides which).  [models.py] is not among
    the sources, so the [max_length] of a category name and the
    [on_delete] policy of [Task.category] are the parameters of the
    Section: every theorem holds for each of them.

    The theorems: every reachable store satisfies the store invariant and
    holds only valid task rows (a non-empty stripped title of at most 100
    characters and a valid date), whichever view wrote them; and, the
    liveness of the done list, any task of a reachable store can be
    completed by one request to the admin, after which the page lists it
    among the done tasks; the task table can be emptied by one request;
    and no request of another method than POST changes the database,
    whichever view it reaches. *)

From S2P Require Import Prelude PyStr Strptime Models QuerySet Fields Forms Views AdminViews AdminActions.

Module System.
Import PyStr Strptime Models QuerySet Fields Forms Views AdminViews AdminActions.

Section System.
Variable name_max_length : nat.
Variable policy : on_delete.

(** One request, to the page or to one of the admin's views. *)
Inductive sys_step : Store -> Store -> Prop :=
| sys_index st request : sys_step st (index st request).1
| sys_task_changeform st oid request : sys_step st (changeform_view TaskAdmin_ops st oid request).1
| sys_task_delete st oid request : sys_step st (delete_view TaskAdmin_ops st oid request).1
| sys_category_changeform st oid request :
    sys_step st (changeform_view (CategoryAdmin_ops name_max_length policy) st oid request).1
| sys_category_delete st oid request :
    sys_step st (delete_view (CategoryAdmin_ops name_max_length policy) st oid request).1
| sys_task_changelist st request : sys_step st (changelist_view TaskAdmin_ops st request).1
| sys_category_changelist st request :
    sys_step st (changelist_view (CategoryAdmin_ops name_max_length policy) st request).1.

Definition sys_reachable (st : Store) : Prop := rtc sys_step empty_store st.

(** The views a request can reach, with the URL argument each takes: the
    page, and the change form, delete page and change list of each
    model. *)
Inductive view :=
| V_index
| V_task_change (object_id : option string)
| V_task_delete (object_id : string)
| V_task_changelist
| V_category_change (object_id : option string)
| V_category_delete (object_id : string)
| V_category_changelist.

(** The store after the view [v] has served [request]. *)
Definition serve (v : view) (st : Store) (request : Request) : Store :=
  match v with
  | V_index => (index st request).1
  | V_task_change oid => (changeform_view TaskAdmin_ops st oid request).1
  | V_task_delete oid => (delete_view TaskAdmin_ops st oid request).1
  | V_task_changelist => (changelist_view TaskAdmin_ops st request).1
  | V_category_change oid => (changeform_view (CategoryAdmin_ops name_max_length policy) st oid request).1
  | V_category_delete oid => (delete_view (CategoryAdmin_ops name_max_length policy) st oid request).1
  | V_category_changelist => (changelist_view (CategoryAdmin_ops name_max_length policy) st request).1
  end.

(** The admin request that marks the task [t] done: its change form
    posted back with its own values, the box [completed] ticked. *)
Definition complete_request (t : Task) : Request :=
  mkRequest "POST" [("title", title t); ("due_date", isoformat (due_date t));
                    ("completed", "on"); ("category", str_nat (category t))].

(** The row [t] once completed. *)
Definition completed_row (t : Task) : Task :=
  mkTask (task_id t) (title t) (due_date t) true (category t).

(** ** The invariant *)

Definition sys_inv (st : Store) : Prop := wf_store st /\ tasks_valid st.

Lemma cleaned_valid t : cleaned_task t -> valid_task t.
Proof. by intros (? & ? & ? & ? & _). Qed.

Lemma index_preserves st request : sys_inv st -> sys_inv (index st request).1.
Proof.
  intros [Hwf Hv]. split; [exact (index_view_wf (F := TaskForm) st request Hwf)|].
  unfold tasks_valid. destruct (index_tasks st request) as [-> | (t & -> & Ht)]; [done|].
  apply Forall_app. split; [done|]. constructor; [by apply cleaned_valid | constructor].
Qed.

Lemma sys_step_inv st st' : sys_step st st' -> sys_inv st -> sys_inv st'.
Proof.
  intros Hs Hi. destruct Hs; [by apply index_preserves|..]; destruct Hi as [Hwf Hv];
    first [apply changelist_view_preserves | split;
           first [eapply changeform_view_preserves | eapply delete_view_preserves]];
    eauto with taskmaster.
Qed.

Lemma sys_reachable_inv' st : sys_reachable st -> wf_store st /\ tasks_valid st.
Proof.
  intros Hr. refine (rtc_invariant sys_step sys_inv sys_step_inv _ _ Hr _).
  split; [apply empty_store_wf | constructor].
Qed.

(** [C12] Every store the page and the admin reach together satisfies the
    store invariant (ascending ids below the counters, no task without its
    category, under either [on_delete] policy) and holds only valid task
    rows. *)
Theorem sys_reachable_inv st : sys_reachable st -> wf_store st /\ tasks_valid st.
Proof. exact (@sys_reachable_inv' st). Qed.

(** ** Any task can be completed *)

(** The admin's change form posted back by [complete_request] cleans to
    the row's own values with [completed] set. *)
Lemma complete_request_changes st t :
  sys_inv st -> t ∈ tasks st ->
  changeform_view TaskAdmin_ops st (Some (str_nat (task_id t))) (complete_request t) =
    (mkStore (categories st)
       (map (fun u => if decide (task_id u = task_id t) then completed_row t else u) (tasks st))
       (next_category_id st) (next_task_id st),
     response_change TaskAdmin_ops (POST (complete_request t)) (task_id t)).
Proof.
  intros [Hwf Hv] Ht.
  pose proof Hv as Hvt. unfold tasks_valid in Hvt. rewrite Forall_forall in Hvt.
  destruct (Hvt t Ht) as (Hne & Hle & Hs & Hd).
  destruct Hwf as (_ & _ & _ & _ & Hfk). rewrite Forall_forall in Hfk.
  destruct (clean_model_choice_str_nat st (category t) (Hfk t Ht)) as (c & Hc & Hid).
  destruct (Task_objects_get_in t st Ht) as (u & Hu & Huid).
  unfold completed_row. rewrite <- Hid.
  apply TaskAdmin_change_updates'; try done.
  - unfold get_object. rewrite int_of_string_str_nat. simpl.
    rewrite Hu. simpl. by rewrite Huid.
  - by apply clean_char_id.
  - by apply clean_date_isoformat'.
Qed.

(** [C13] Liveness of the done list: in every reachable store, any task
    can be completed by one request (its admin change form, posted back
    with the box ticked), after which the page lists it among the done
    tasks. *)
Theorem sys_complete_task st t :
  sys_reachable st -> t ∈ tasks st ->
  exists st', sys_step st st' /\ completed_row t ∈ eval done_tasks_qs st'.
Proof.
  intros Hr Ht. pose proof (sys_reachable_inv' st Hr) as Hi.
  exists (changeform_view TaskAdmin_ops st (Some (str_nat (task_id t))) (complete_request t)).1.
  split; [constructor|].
  rewrite complete_request_changes by done. apply eval_filter_order_elem. split; [|done].
  simpl. apply list_elem_of_fmap. exists t. split; [by rewrite decide_True | done].
Qed.

(** [C14] The task table can always be emptied: from any store with tasks,
    one request (the confirmation page of the change list's bulk
    [delete_selected] over every row, posted back) is a step of the
    system to a store without tasks, the page's two lists then empty. *)
Theorem sys_clear_tasks st :
  tasks st <> [] ->
  exists st', sys_step st st' /\ tasks st' = [] /\
    eval to_do_tasks_qs st' = [] /\ eval done_tasks_qs st' = [].
Proof.
  intros Ht. eexists. split; [apply sys_task_changelist|].
  unfold to_do_tasks_qs, done_tasks_qs. rewrite !eval_filter_order.
  by rewrite changelist_delete_all_tasks.
Qed.

(** Every view is a step of the system. *)
Lemma serve_step v st request : sys_step st (serve v st request).
Proof. destruct v; constructor. Qed.

(** [C15] Safe methods are safe: a request of another method than POST
    (Django then leaves [request.POST] empty) changes nothing in the
    database, whichever view of the page or of the admin it reaches; in
    particular the GET of a delete page or of a change list only shows
    it. *)
Theorem sys_get_safe v st request :
  method request <> "POST" -> POST request = [] -> serve v st request = st.
Proof.
  intros Hm Hp. destruct v; cbn [serve];
    [unfold index; by rewrite (index_view_not_post (F := TaskForm)) | ..].
  all: apply String.eqb_neq in Hm;
    unfold changeform_view, delete_view, changelist_view; rewrite ?Hm, ?Hp;
    repeat (case_match; simpl; try done).
Qed.

End System.

(** ** Witnesses *)

(** A store the page and the admin reach: the admin adds the category
    "Home", then the page adds "Buy milk". *)
Lemma sys_demo_reachable :
  sys_reachable 100 CASCADE
    (index (changeform_view (CategoryAdmin_ops 100 CASCADE) empty_store None
              (mkRequest "POST" [("name", "Home")])).1
       (mkRequest "POST" [("title", "Buy milk"); ("due_date", "2024-12-31"); ("category", "1")])).1.
Proof.
  eapply rtc_l; [apply sys_category_changeform|].
  eapply rtc_l; [apply sys_index | apply rtc_refl].
Qed.

Lemma sys_reachable_inv_witness :
  let st := (index (changeform_view (CategoryAdmin_ops 100 CASCADE) empty_store None
                      (mkRequest "POST" [("name", "Home")])).1
               (mkRequest "POST" [("title", "Buy milk"); ("due_date", "2024-12-31"); ("category", "1")])).1 in
  sys_reachable 100 CASCADE st /\ wf_store st /\ tasks_valid st.
Proof.
  intros st. split; [exact sys_demo_reachable | exact (sys_reachable_inv 100 CASCADE st sys_demo_reachable)].
Defined.

Lemma sys_complete_task_witness :
  let st := (index (changeform_view (CategoryAdmin_ops 100 CASCADE) empty_store None
                      (mkRequest "POST" [("name", "Home")])).1
               (mkRequest "POST" [("title", "Buy milk"); ("due_date", "2024-12-31"); ("category", "1")])).1 in
  let t := mkTask 1 "Buy milk" (mkdate 2024 12 31) false 1 in
  sys_reachable 100 CASCADE st /\ t ∈ tasks st /\
  exists st', sys_step 100 CASCADE st st' /\ completed_row t ∈ eval done_tasks_qs st'.
Proof.
  intros st t.
  assert (Ht : t ∈ tasks st) by (vm_compute; left).
  split_and!; [exact sys_demo_reachable | exact Ht |].
  exact (sys_complete_task 100 CASCADE st t sys_demo_reachable Ht).
Defined.

Lemma sys_clear_tasks_witness :
  let st := (index (changeform_view (CategoryAdmin_ops 100 CASCADE) empty_store None
                      (mkRequest "POST" [("name", "Home")])).1
               (mkRequest "POST" [("title", "Buy milk"); ("due_date", "2024-12-31"); ("category", "1")])).1 in
  tasks st <> [] /\
  exists st', sys_step 100 CASCADE st st' /\ tasks st' = [] /\
    eval to_do_tasks_qs st' = [] /\ eval done_tasks_qs st' = [].
Proof.
  intros st. assert (Ht : tasks st <> []) by (vm_compute; discriminate).
  split; [exact Ht | exact (sys_clear_tasks 100 CASCADE st Ht)].
Defined.

Lemma sys_get_safe_witness :
  let st := (index (changeform_view (CategoryAdmin_ops 100 CASCADE) empty_store None
                      (mkRequest "POST" [("name", "Home")])).1
               (mkRequest "POST" [("title", "Buy milk"); ("due_date", "2024-12-31"); ("category", "1")])).1 in
  method (mkRequest "GET" []) <> "POST" /\ POST (mkRequest "GET" []) = [] /\
  serve 100 CASCADE (V_category_delete "1") st (mkRequest "GET" []) = st.
Proof.
  intros st. assert (Hm : method (mkRequest "GET" []) <> "POST") by discriminate.
  split; [exact Hm|]. split; [reflexivity|].
  exact (sys_get_safe 100 CASCADE (V_category_delete "1") st (mkRequest "GET" []) Hm eq_refl).
Defined.

End System.
