(* ===== verification/Tests.v ===== *)
(** * Tests: the test suite of the repository, replayed on the model

    Each test class's [setUp] is a definition building its store; each
    test's data is a definition; each test's assertions form a theorem
    about the model, proved by evaluation.  Two conventions:
    - [test_forms.py] passes [self.category.id] as an integer in a plain
      [dict]; [ModelChoiceField] looks an integer and its decimal string up
      the same way, so the data holds [str_nat id] ([PyStr.int_of_string]
      inverts [str_nat]);
    - [date.today()] is a parameter [today].
    The login of [test_views.py] is not modelled (the view does not check
    it); [test_str_returns_title] concerns [Task.__str__] in [models.py],
    which is not among the sources.  [test_title_max_length_error] and
    [test_task_create_view_post_creates_task] are not replayed: the first
    tests Django's [objects.create], which runs no validator, the second
    one fixed request that the theorems of [Views] cover. *)

From S2P Require Import Prelude PyStr Strptime Models QuerySet Fields Forms Views.

Module Tests.
Import PyStr Strptime Models QuerySet Fields Forms Views.

(** Python's [s * n]. *)
Fixpoint str_repeat (s : string) (n : nat) : string :=
  match n with
  | 0 => EmptyString
  | S n' => s ++ str_repeat s n'
  end.

(** ** [test_forms.py] *)

(** [formsTest.setUp]: [Category.objects.create(name="Test Category")]. *)
Definition formsTest_setUp : Store * Category := Category_objects_create "Test Category" empty_store.

Definition forms_store : Store := formsTest_setUp.1.
Definition forms_category_id : string := str_nat (cat_id formsTest_setUp.2).

Definition test_task_form_valid_data_form_data : list (string * string) :=
  [("title", "Test Task"); ("due_date", "2024-12-31"); ("completed", "False");
   ("category", forms_category_id)].

Definition test_task_form_invalid_data_form_data : list (string * string) :=
  [("title", ""); ("due_date", ""); ("completed", "False"); ("category", forms_category_id)].

Definition test_task_form_invalid_category_form_data : list (string * string) :=
  [("title", "Test Task"); ("due_date", "2024-12-31"); ("completed", "False"); ("category", "999")].

Definition test_task_form_title_too_long_form_data : list (string * string) :=
  [("title", str_repeat "A" 101); ("due_date", "2024-12-31"); ("completed", "False");
   ("category", forms_category_id)].

Definition test_task_form_invalid_due_date_form_data : list (string * string) :=
  [("title", "Test Task"); ("due_date", "invalid-date"); ("completed", "False");
   ("category", forms_category_id)].

Definition test_task_form_missing_category_form_data : list (string * string) :=
  [("title", "Test Task"); ("due_date", "2024-12-31"); ("completed", "False")].

Definition test_task_form_missing_completed_form_data : list (string * string) :=
  [("title", "Test Task"); ("due_date", "2024-12-31"); ("category", forms_category_id)].

Definition test_task_form_missing_due_date_form_data : list (string * string) :=
  [("title", "Test Task"); ("completed", "False"); ("category", forms_category_id)].

(** [test_task_form_valid_data]: [form.is_valid()]. *)
Example test_task_form_valid_data :
  is_valid forms_store (TaskForm_bound test_task_form_valid_data_form_data) = true.
Proof. vm_compute. reflexivity. Qed.

(** [test_task_form_invalid_data]: not valid, errors on [title] and
    [due_date] (both [required]), none on [category]. *)
Example test_task_form_invalid_data :
  is_valid forms_store (TaskForm_bound test_task_form_invalid_data_form_data) = false /\
  errors forms_store (TaskForm_bound test_task_form_invalid_data_form_data) =
    [("title", Required); ("due_date", Required)].
Proof. split; vm_compute; reflexivity. Qed.

(** [test_task_form_category_field]: the [category] field is a
    [ModelChoiceField] whose queryset holds exactly the setUp category. *)
Example test_task_form_category_field :
  (ff_field <$> list_find_name "category" TaskForm_fields) = Some ModelChoiceField /\
  categories forms_store = [formsTest_setUp.2].
Proof. split; reflexivity. Qed.

(** [test_task_form_due_date_field] and [test_task_form_title_field]. *)
Example test_task_form_due_date_and_title_fields :
  (ff_field <$> list_find_name "due_date" TaskForm_fields) = Some DateField /\
  (ff_field <$> list_find_name "title" TaskForm_fields) = Some (CharField 100).
Proof. split; reflexivity. Qed.

(** [test_task_form_invalid_category], [test_task_form_title_too_long],
    [test_task_form_invalid_due_date], [test_task_form_missing_category],
    [test_task_form_missing_due_date]: the error is on the expected
    field, and only there. *)
Example test_task_form_single_field_errors :
  errors forms_store (TaskForm_bound test_task_form_invalid_category_form_data) =
    [("category", Invalid_choice)] /\
  errors forms_store (TaskForm_bound test_task_form_title_too_long_form_data) =
    [("title", Max_length 100 101)] /\
  errors forms_store (TaskForm_bound test_task_form_invalid_due_date_form_data) =
    [("due_date", Invalid)] /\
  errors forms_store (TaskForm_bound test_task_form_missing_category_form_data) =
    [("category", Required)] /\
  errors forms_store (TaskForm_bound test_task_form_missing_due_date_form_data) =
    [("due_date", Required)].
Proof. split_and!; vm_compute; reflexivity. Qed.

(** [test_task_form_missing_completed]: valid, and the saved task is not
    completed. *)
Example test_task_form_missing_completed :
  is_valid forms_store (TaskForm_bound test_task_form_missing_completed_form_data) = true /\
  (fun '(_, t) => completed t) <$> save forms_store (TaskForm_bound test_task_form_missing_completed_form_data)
    = Some false.
Proof. split; vm_compute; reflexivity. Qed.

(** ** [test_models.py] *)

(** [TaskModelTest.setUp]: a category and the task "Sample Task" due
    [today]. *)
Definition TaskModelTest_setUp (today : date) : option (Store * Category * Task) :=
  let '(st1, c) := Category_objects_create "Test Category" empty_store in
  (fun '(st2, t) => (st2, c, t)) <$> Task_objects_create "Sample Task" today false (cat_id c) st1.

(** [test_task_creation], [test_default_completed_is_false],
    [test_due_date_required], [test_category_relationship],
    [test_title_max_length]: the created row has the given fields. *)
Example test_task_creation today :
  exists st c t, TaskModelTest_setUp today = Some (st, c, t) /\
    title t = "Sample Task" /\ due_date t = today /\ completed t = false /\
    category t = cat_id c /\ len (title t) <= 100.
Proof. do 3 eexists. split; [reflexivity|]. split_and!; reflexivity || (vm_compute; lia). Qed.
(** ** [test_views.py] *)

(** [TaskViewTests.setUp]: a category, the to-do task "Test Task" due
    2024-12-31 and the done task "Completed Task" due 2024-10-31 (the
    model field parses the ISO strings). *)
Definition TaskViewTests_setUp : option (Store * Task * Task) :=
  let '(st1, c) := Category_objects_create "Test Category" empty_store in
  Task_objects_create "Test Task" (mkdate 2024 12 31) false (cat_id c) st1 ≫= fun '(st2, t1) =>
  Task_objects_create "Completed Task" (mkdate 2024 10 31) true (cat_id c) st2 ≫= fun '(st3, t2) =>
  Some (st3, t1, t2).

Definition views_store : Store := default empty_store ((fun '(st, _, _) => st) <$> TaskViewTests_setUp).

Definition GET_index : Request := mkRequest "GET" [].

Definition test_invalid_task_creation_does_not_create_task_form_data : list (string * string) :=
  [("title", ""); ("due_date", "2024-11-30"); ("completed", "False"); ("category", "1")].

(** [test_task_list_view_status_code], [test_task_create_view_renders_form]:
    a GET renders [tasks/index.html] with status 200 and an unbound form. *)
Example test_task_list_view_status_code :
  status_code (index views_store GET_index).2 = 200 /\
  index views_store GET_index =
    (views_store, Render "tasks/index.html" (mkContext to_do_tasks_qs done_tasks_qs (mkTaskForm None))).
Proof. split; reflexivity. Qed.

(** [test_task_list_view_context_contains_tasks]: the to-do task is in the
    to-do list and the done task in the done list. *)
Example test_task_list_view_context_contains_tasks :
  map title (eval to_do_tasks_qs (index views_store GET_index).1) = ["Test Task"] /\
  map title (eval done_tasks_qs (index views_store GET_index).1) = ["Completed Task"].
Proof. split; vm_compute; reflexivity. Qed.
(** [test_invalid_task_creation_does_not_create_task]: status 200 and no
    task is due 2024-11-30. *)
Example test_invalid_task_creation_does_not_create_task :
  let r := index views_store (mkRequest "POST" test_invalid_task_creation_does_not_create_task_form_data) in
  status_code r.2 = 200 /\ filter (fun t => due_date t = mkdate 2024 11 30) (tasks r.1) = [].
Proof. split; vm_compute; reflexivity. Qed.

End Tests.
